(** * MRL pipeline: a shallow embedding of [utils.py]

    The module [utils.py] talks to the EU pesticide data lake over HTTP,
    caches two reference tables as pipe-delimited files, resolves free-text
    product and substance names against them, decides compliance of a
    measured residue value, and turns PDF reports into base64 PNG pages.

    The embedding keeps the shape of the Python code: every function of the
    module is a computation in a small state-and-exception monad whose state
    holds the working directory, the printed lines, the HTTP requests issued
    and the PDF handles that are open.  The HTTP server and the PDF files on
    disk are an explicit environment. *)

From Stdlib Require Import ZArith NArith List Bool Lia.
From Stdlib Require Import Strings.Ascii Strings.String Strings.Byte.
From Stdlib Require Import Floats.SpecFloat.
From stdpp Require Import base option list gmap strings pretty.

Import ListNotations.
Set Warnings "-register-all".
Set Warnings "-automation".
Set Warnings "-default".
Local Open Scope Z_scope.

(** ** Python values *)

Module Py.

(** Exceptions the module can let escape. *)
Inductive exn :=
| HTTPStatusError (status : Z)
| TransportError
| JSONDecodeError
| AttributeError
| TypeError
| KeyError (key : string)
| IndexError
| ValueError
| OverflowError
| ReError
| FileNotFoundError (path : string)
| RuntimeError.

(** Outcome of running a piece of Python.  [Unmodelled] marks inputs on
    which the library models below give no answer; [OutOfFuel] is a
    [while] loop cut off by the fuel of the embedding. *)
Inductive result (A : Type) :=
| Ok (a : A)
| Raise (e : exn)
| Unmodelled
| OutOfFuel.
Arguments Ok {A} a.
Arguments Raise {A} e.
Arguments Unmodelled {A}.
Arguments OutOfFuel {A}.

(** Binary64 floats, as the Standard Library specifies them. *)
Definition float := spec_float.
Definition prec : Z := 53.
Definition emax : Z := 1024.
Definition float_zero : float := S754_zero false.
Definition float_lt (x y : float) : bool := SFltb x y.

(** JSON documents as [resp.json()] returns them: [dict] for objects
    (insertion ordered, looked up by key), [list] for arrays. *)
Inductive json :=
| JNull
| JBool (b : bool)
| JInt (z : Z)
| JFloat (f : float)
| JStr (s : string)
| JArr (items : list json)
| JObj (fields : list (string * json)).

Definition dict := list (string * json).

(** [d.get(key)]: [None] stands for Python's [None] default. *)
Fixpoint dict_get (key : string) (d : dict) : option json :=
  match d with
  | [] => None
  | (k, v) :: d' => if String.eqb k key then Some v else dict_get key d'
  end.

(** [payload.get(key, default)] on whatever [resp.json()] returned: only
    a [dict] has the method. *)
Definition get_default (payload : json) (key : string) (default : json)
  : result json :=
  match payload with
  | JObj d => Ok (from_option id default (dict_get key d))
  | _ => Raise AttributeError
  end.

(** Truth value of an object in a condition. *)
Definition truthy (v : json) : bool :=
  match v with
  | JNull => false
  | JBool b => b
  | JInt z => negb (z =? 0)
  | JFloat (S754_zero _) => false
  | JFloat _ => true
  | JStr s => negb (String.eqb s EmptyString)
  | JArr l => negb (Nat.eqb (length l) 0)
  | JObj d => negb (Nat.eqb (length d) 0)
  end.

Fixpoint chars (s : string) : list json :=
  match s with
  | EmptyString => []
  | String c s' => JStr (String c EmptyString) :: chars s'
  end.

(** Keys of a [dict] in insertion order, each key once, leaving out the
    keys already [seen]. *)
Fixpoint dict_keys (seen : list string) (d : dict) : list string :=
  match d with
  | [] => []
  | (k, _) :: d' =>
      if existsb (String.eqb k) seen then dict_keys seen d'
      else k :: dict_keys (k :: seen) d'
  end.

(** Iterating over an object, as [list.extend] and a comprehension do. *)
Definition iterate (v : json) : result (list json) :=
  match v with
  | JArr l => Ok l
  | JStr s => Ok (chars s)
  | JObj d => Ok (map JStr (dict_keys [] d))
  | JNull | JBool _ | JInt _ | JFloat _ => Raise TypeError
  end.

(** [a | b] on two [dict]s of strings: the right operand wins on a shared
    key, which keeps its place; new keys are appended in order. *)
Fixpoint dict_set (k v : string) (d : list (string * string))
  : list (string * string) :=
  match d with
  | [] => [(k, v)]
  | (k', v') :: d' =>
      if String.eqb k' k then (k', v) :: d' else (k', v') :: dict_set k v d'
  end.

Definition dict_or (a b : list (string * string)) : list (string * string) :=
  fold_left (fun acc kv => dict_set (fst kv) (snd kv) acc) b a.

(** [s.replace(old, new)] for a one-character [old] and an empty [new]. *)
Fixpoint remove_char (old : ascii) (s : string) : string :=
  match s with
  | EmptyString => EmptyString
  | String c s' =>
      if Ascii.eqb c old then remove_char old s'
      else String c (remove_char old s')
  end.

End Py.
Export Py.

(** ** The world the module runs in *)

Module Http.

Record request := {
  req_url : string;
  req_headers : list (string * string);
  req_params : list (string * string)
}.

(** What [client.get] gets back: a response with its status code and its
    body ([None] when the body is not JSON), or no response at all. *)
Inductive reply :=
| Reply (status : Z) (body : option json)
| NoReply.

Definition server := request -> reply.

Definition is_success (status : Z) : bool :=
  (200 <=? status) && (status <=? 299).

End Http.
Export Http.

Module World.

(** A reference cache file.  The file is kept as the table it holds and
    the options it was written with; the text of the file is not
    modelled. *)
Inductive cell :=
| NaN
| Val (v : json).

Record frame := {
  columns : list string;
  rows : list (list cell)
}.

Record csv_file := {
  csv_sep : string;
  csv_header : bool;
  csv_index : bool;
  csv_frame : frame
}.

Record state := {
  files : gmap string csv_file;
  stdout : list string;
  requests : list request;
  next_handle : nat;
  open_docs : gset nat
}.

(** Computations: a state transformer that ends in a [result].  The state
    reached when an exception escapes is kept. *)
Definition M (A : Type) : Type := state -> result A * state.

Definition ret {A} (a : A) : M A := fun st => (Ok a, st).

Definition bind {A B} (m : M A) (k : A -> M B) : M B :=
  fun st =>
    match m st with
    | (Ok a, st') => k a st'
    | (Raise e, st') => (Raise e, st')
    | (Unmodelled, st') => (Unmodelled, st')
    | (OutOfFuel, st') => (OutOfFuel, st')
    end.

Definition lift {A} (r : result A) : M A := fun st => (r, st).

Definition raise {A} (e : exn) : M A := lift (Raise e).

Definition print (line : string) : M unit :=
  fun st =>
    (Ok tt,
     {| files := files st; stdout := stdout st ++ [line];
        requests := requests st; next_handle := next_handle st;
        open_docs := open_docs st |}).

End World.
Export World.

Notation "x <- c1 ;; c2" := (bind c1 (fun x => c2))
  (at level 100, c1 at next level, right associativity).
Notation "c1 ;; c2" := (bind c1 (fun _ => c2))
  (at level 100, right associativity).

(** ** Number literals: [int(s)] and [float(s)] on a string *)

Module PyNum.

(** White space that [int] and [float] skip at both ends (code points
    below 256). *)
Definition is_space (c : ascii) : bool :=
  let n := N_of_ascii c in
  ((9 <=? n) && (n <=? 13) || (n =? 32) || (n =? 133) || (n =? 160))%N.

Fixpoint lstrip (l : list ascii) : list ascii :=
  match l with
  | c :: l' => if is_space c then lstrip l' else l
  | [] => []
  end.

Definition strip (l : list ascii) : list ascii :=
  rev (lstrip (rev (lstrip l))).

Definition digit (c : ascii) : option Z :=
  let n := N_of_ascii c in
  if ((48 <=? n) && (n <=? 57))%N then Some (Z.of_N n - 48) else None.

(** The digits after a first one: value so far, number of digits so far.
    One underscore may sit between two digits. *)
Fixpoint digits_go (acc cnt : Z) (l : list ascii) : Z * Z * list ascii :=
  match l with
  | [] => (acc, cnt, [])
  | c :: l' =>
      match digit c with
      | Some d => digits_go (10 * acc + d) (cnt + 1) l'
      | None =>
          if Ascii.eqb c "_" then
            match l' with
            | c2 :: l'' =>
                match digit c2 with
                | Some d => digits_go (10 * acc + d) (cnt + 1) l''
                | None => (acc, cnt, l)
                end
            | [] => (acc, cnt, l)
            end
          else (acc, cnt, l)
      end
  end.

Definition digitpart (l : list ascii) : option (Z * Z * list ascii) :=
  match l with
  | c :: l' =>
      match digit c with
      | Some d => Some (digits_go d 1 l')
      | None => None
      end
  | [] => None
  end.

Definition sign (l : list ascii) : bool * list ascii :=
  match l with
  | c :: l' =>
      if Ascii.eqb c "-" then (true, l')
      else if Ascii.eqb c "+" then (false, l')
      else (false, l)
  | [] => (false, [])
  end.

Definition signed (neg : bool) (v : Z) : Z := if neg then - v else v.

(** [int(s)]; [None] is [ValueError]. *)
Definition int_of_string (s : string) : option Z :=
  let (neg, l) := sign (strip (list_ascii_of_string s)) in
  match digitpart l with
  | Some (v, _, []) => Some (signed neg v)
  | _ => None
  end.

(** The binary64 number nearest to [m * 10 ^ e] (ties to even), for
    [0 <= m].  [cnt] bounds the number of decimal digits of [m]; the two
    early exits keep the powers of ten small. *)
Definition round_decimal (neg : bool) (m cnt e : Z) : float :=
  if m =? 0 then S754_zero neg
  else if 400 <? e then S754_infinity neg
  else if 0 <=? e then binary_round prec emax neg (Z.to_pos (m * 10 ^ e)) 0
  else if cnt + e <? -400 then S754_zero neg
  else
    let '(q, e', l) := SFdiv_core_binary prec emax m 0 (10 ^ (- e)) 0 in
    binary_round_aux prec emax neg q e' l.

Definition lower_ascii (c : ascii) : ascii :=
  let n := N_of_ascii c in
  if ((65 <=? n) && (n <=? 90))%N then ascii_of_N (n + 32) else c.

Definition is_word (w : string) (l : list ascii) : bool :=
  String.eqb (string_of_list_ascii (map lower_ascii l)) w.

(** After the digits: an optional exponent, then the end. *)
Definition with_exponent (neg : bool) (m cnt nfrac : Z) (l : list ascii)
  : option float :=
  match l with
  | [] => Some (round_decimal neg m cnt (- nfrac))
  | c :: l' =>
      if Ascii.eqb (lower_ascii c) "e" then
        let (eneg, l'') := sign l' in
        match digitpart l'' with
        | Some (x, _, []) => Some (round_decimal neg m cnt (signed eneg x - nfrac))
        | _ => None
        end
      else None
  end.

Definition fraction (neg : bool) (int_part int_cnt : Z) (l : list ascii)
  : option float :=
  match digitpart l with
  | Some (f, nfrac, rest) =>
      with_exponent neg (int_part * 10 ^ nfrac + f) (int_cnt + nfrac) nfrac rest
  | None =>
      if 0 <? int_cnt then with_exponent neg int_part int_cnt 0 l else None
  end.

(** [float(s)]; [None] is [ValueError]. *)
Definition float_of_string (s : string) : option float :=
  let (neg, l) := sign (strip (list_ascii_of_string s)) in
  if is_word "inf" l || is_word "infinity" l then Some (S754_infinity neg)
  else if is_word "nan" l then Some S754_nan
  else
    match digitpart l with
    | Some (i, cnt, rest) =>
        match rest with
        | c :: rest' =>
            if Ascii.eqb c "." then fraction neg i cnt rest'
            else with_exponent neg i cnt 0 rest
        | [] => with_exponent neg i cnt 0 rest
        end
    | None =>
        match l with
        | c :: rest' =>
            if Ascii.eqb c "." then fraction neg 0 0 rest' else None
        | [] => None
        end
    end.

(** *** [repr] of a float: the shortest digits that read back *)

(** Number of decimal digits of [n], for [0 < n]. *)
Fixpoint digits10_go (fuel : nat) (n : Z) : Z :=
  match fuel with
  | O => 0
  | S fuel' => if n <? 10 then 1 else 1 + digits10_go fuel' (n / 10)
  end.

Definition digits10 (n : Z) : Z := digits10_go (S (Z.to_nat (Z.log2 n))) n.

(** [10 ^ k <= n / d] *)
Definition ge_pow10 (n d k : Z) : bool :=
  if 0 <=? k then d * 10 ^ k <=? n else d <=? n * 10 ^ (- k).

(** The decimal exponent [k] of [n / d]: [10 ^ k <= n / d < 10 ^ (k + 1)]. *)
Definition exponent10 (n d : Z) : Z :=
  let k := digits10 n - digits10 d in
  if ge_pow10 n d k then k else k - 1.

(** The [p]-digit decimals around [n / d]: the one below, and whether the
    one above is the nearer (on a tie, the even one). *)
Definition around (n d s : Z) : Z * bool :=
  let num := if 0 <=? s then n else n * 10 ^ (- s) in
  let den := if 0 <=? s then d * 10 ^ s else d in
  let lo := num / den in
  let twice := 2 * (num mod den) in
  (lo, (den <? twice) || ((den =? twice) && Z.odd lo)).

Definition reads_back (m : positive) (e : Z) (c cnt s : Z) : bool :=
  match round_decimal false c cnt s with
  | S754_finite false m' e' => Pos.eqb m m' && (e =? e')
  | _ => false
  end.

(** The shortest decimal [c * 10 ^ s] that reads back as [m * 2 ^ e],
    tried with 1, 2, ... digits. *)
Fixpoint shortest (tries : nat) (p : Z) (m : positive) (e n d k : Z) : Z * Z :=
  let s := k - p + 1 in
  let '(lo, up) := around n d s in
  match tries with
  | O => (if up then lo + 1 else lo, s)
  | S tries' =>
      let ok_lo := reads_back m e lo (p + 1) s in
      let ok_hi := reads_back m e (lo + 1) (p + 1) s in
      if ok_lo && ok_hi then (if up then lo + 1 else lo, s)
      else if ok_lo then (lo, s)
      else if ok_hi then (lo + 1, s)
      else shortest tries' (p + 1) m e n d k
  end.

Fixpoint strip_zeros (fuel : nat) (c : Z) : Z :=
  match fuel with
  | O => c
  | S fuel' => if (c mod 10 =? 0) && (0 <? c) then strip_zeros fuel' (c / 10) else c
  end.

Definition zeros (n : Z) : string :=
  string_of_list_ascii (repeat "0"%char (Z.to_nat n)).

Definition take (n : Z) (s : string) : string :=
  String.substring 0 (Z.to_nat n) s.
Definition drop (n : Z) (s : string) : string :=
  String.substring (Z.to_nat n) (String.length s - Z.to_nat n) s.

(** Layout of the digits [ds] with the decimal point after [decpt] of
    them. *)
Definition layout (ds : string) (decpt : Z) : string :=
  let len := Z.of_nat (String.length ds) in
  if (-4 <? decpt) && (decpt <=? 16) then
    if decpt <=? 0 then "0." +:+ zeros (- decpt) +:+ ds
    else if len <=? decpt then ds +:+ zeros (decpt - len) +:+ ".0"
    else take decpt ds +:+ "." +:+ drop decpt ds
  else
    let x := decpt - 1 in
    let mant := if len <=? 1 then ds else take 1 ds +:+ "." +:+ drop 1 ds in
    let digits := pretty (Z.abs x) in
    mant +:+ "e" +:+ (if x <? 0 then "-" else "+")
         +:+ (if Z.abs x <? 10 then "0" else EmptyString) +:+ digits.

(** [repr(x)] and [str(x)] of a float. *)
Definition repr_float (x : float) : string :=
  match x with
  | S754_nan => "nan"
  | S754_infinity s => if s then "-inf" else "inf"
  | S754_zero s => if s then "-0.0" else "0.0"
  | S754_finite sg m e =>
      let n := if 0 <=? e then Zpos m * 2 ^ e else Zpos m in
      let d := if 0 <=? e then 1 else 2 ^ (- e) in
      let k := exponent10 n d in
      let '(c, s) := shortest 17 1 m e n d k in
      let decpt := digits10 c + s in
      let ds := pretty (strip_zeros 20 c) in
      (if sg then "-" else EmptyString) +:+ layout ds decpt
  end.

End PyNum.
(** ** [repr] and [str] of the values a table cell can hold *)

Module PyStr.

Definition hex_digit (n : N) : ascii :=
  if (n <? 10)%N then ascii_of_N (48 + n) else ascii_of_N (87 + n).

Definition printable (c : ascii) : bool :=
  let n := N_of_ascii c in
  ((32 <=? n) && (n <=? 126) || (161 <=? n) && negb (n =? 173))%N.

Definition escape (quote c : ascii) : string :=
  let n := N_of_ascii c in
  if Ascii.eqb c "\" then "\\"
  else if Ascii.eqb c quote then String "\" (String c EmptyString)
  else if (n =? 9)%N then "\t"
  else if (n =? 10)%N then "\n"
  else if (n =? 13)%N then "\r"
  else if printable c then String c EmptyString
  else String "\" (String "x" (String (hex_digit (n / 16))
                                 (String (hex_digit (n mod 16)) EmptyString))).

Fixpoint escape_all (quote : ascii) (s : string) : string :=
  match s with
  | EmptyString => EmptyString
  | String c s' => escape quote c +:+ escape_all quote s'
  end.

Fixpoint has_char (c : ascii) (s : string) : bool :=
  match s with
  | EmptyString => false
  | String x s' => Ascii.eqb x c || has_char c s'
  end.

Definition double_quote : ascii := ascii_of_N 34.

(** [repr(s)]: single quotes, unless [s] has one and no double quote. *)
Definition repr_str (s : string) : string :=
  let quote :=
    if has_char "'" s && negb (has_char double_quote s) then double_quote
    else "'"%char in
  String quote (escape_all quote s) +:+ String quote EmptyString.

Fixpoint repr (v : json) : string :=
  match v with
  | JNull => "None"
  | JBool b => if b then "True" else "False"
  | JInt z => pretty z
  | JFloat f => PyNum.repr_float f
  | JStr s => repr_str s
  | JArr l =>
      "[" +:+
      (fix items (l : list json) : string :=
         match l with
         | [] => EmptyString
         | [x] => repr x
         | x :: l' => repr x +:+ ", " +:+ items l'
         end) l +:+ "]"
  | JObj d =>
      "{" +:+
      (fix items (d : list (string * json)) : string :=
         match d with
         | [] => EmptyString
         | [(k, x)] => repr_str k +:+ ": " +:+ repr x
         | (k, x) :: d' => repr_str k +:+ ": " +:+ repr x +:+ ", " +:+ items d'
         end) d +:+ "}"
  end.

(** [str(x)] *)
Definition str (c : cell) : string :=
  match c with
  | NaN => "nan"
  | Val (JStr s) => s
  | Val v => repr v
  end.

End PyStr.
(** ** Regular expressions

    [Series.str.contains(pat, case=False, na=False)] leaves [regex] at its
    default, so pandas compiles [pat] with [re.compile(pat, re.IGNORECASE)]
    and keeps the rows where [search] finds a match.  The model covers the
    patterns built from literal characters, [.], groups, [|] and the
    quantifiers [*], [+] and [?]; on any other syntax it answers
    [Unsupported].  Characters are code points below 256. *)

Module Re.

Inductive regex :=
| Empty
| Eps
| Chr (c : ascii)
| Dot
| Cat (r1 r2 : regex)
| Alt (r1 r2 : regex)
| Star (r : regex).

(** [str.lower] on one character. *)
Definition lower (c : ascii) : ascii :=
  let n := N_of_ascii c in
  if ((65 <=? n) && (n <=? 90)
      || (192 <=? n) && (n <=? 222) && negb (n =? 215))%N
  then ascii_of_N (n + 32)
  else c.

Fixpoint str_lower (s : string) : string :=
  match s with
  | EmptyString => EmptyString
  | String c s' => String (lower c) (str_lower s')
  end.

Definition same_char (ignorecase : bool) (a b : ascii) : bool :=
  if ignorecase then Ascii.eqb (lower a) (lower b) else Ascii.eqb a b.

Definition newline : ascii := ascii_of_N 10.

Fixpoint nullable (r : regex) : bool :=
  match r with
  | Empty | Chr _ | Dot => false
  | Eps | Star _ => true
  | Cat r1 r2 => nullable r1 && nullable r2
  | Alt r1 r2 => nullable r1 || nullable r2
  end.

(** Derivative of [r] by the character [c]. *)
Fixpoint der (ignorecase : bool) (c : ascii) (r : regex) : regex :=
  match r with
  | Empty | Eps => Empty
  | Chr a => if same_char ignorecase a c then Eps else Empty
  | Dot => if Ascii.eqb c newline then Empty else Eps
  | Cat r1 r2 =>
      if nullable r1
      then Alt (Cat (der ignorecase c r1) r2) (der ignorecase c r2)
      else Cat (der ignorecase c r1) r2
  | Alt r1 r2 => Alt (der ignorecase c r1) (der ignorecase c r2)
  | Star r1 => Cat (der ignorecase c r1) (Star r1)
  end.

(** Does some prefix of [s] match [r]? *)
Fixpoint match_prefix (ignorecase : bool) (r : regex) (s : string) : bool :=
  nullable r ||
  match s with
  | EmptyString => false
  | String c s' => match_prefix ignorecase (der ignorecase c r) s'
  end.

(** [pattern.search(s) is not None] *)
Fixpoint search (ignorecase : bool) (r : regex) (s : string) : bool :=
  match_prefix ignorecase r s ||
  match s with
  | EmptyString => false
  | String _ s' => search ignorecase r s'
  end.

(** *** Parsing a pattern *)

Inductive compiled :=
| Compiled (r : regex)
| Error
| Unsupported.

(** An open group: the alternatives closed so far and the items of the
    current alternative, last item first. *)
Record group := {
  branches : list regex;
  items : list regex
}.

Definition seq_of (items_rev : list regex) : regex :=
  fold_left (fun acc r => Cat r acc) items_rev Eps.

Fixpoint alt_of (first : regex) (others : list regex) : regex :=
  match others with
  | [] => first
  | r :: others' => Alt first (alt_of r others')
  end.

Definition close (g : group) : regex :=
  match branches g ++ [seq_of (items g)] with
  | [] => Eps
  | r :: rs => alt_of r rs
  end.

Definition push (r : regex) (g : group) : group :=
  {| branches := branches g; items := r :: items g |}.

Definition is_quantifier (c : ascii) : bool :=
  Ascii.eqb c "*" || Ascii.eqb c "+" || Ascii.eqb c "?".

Definition quantify (c : ascii) (r : regex) : regex :=
  if Ascii.eqb c "*" then Star r
  else if Ascii.eqb c "+" then Cat r (Star r)
  else Alt r Eps.

Definition is_ascii_alnum (c : ascii) : bool :=
  let n := N_of_ascii c in
  ((48 <=? n) && (n <=? 57) || (65 <=? n) && (n <=? 90)
   || (97 <=? n) && (n <=? 122))%N.

Definition starts_with (p : ascii -> bool) (s : string) : bool :=
  match s with
  | EmptyString => false
  | String c _ => p c
  end.

Fixpoint parse (s : string) (cur : group) (stack : list group) : compiled :=
  match s with
  | EmptyString =>
      match stack with
      | [] => Compiled (close cur)
      | _ :: _ => Error
      end
  | String c s' =>
      if Ascii.eqb c "(" then
        if starts_with (Ascii.eqb "?") s' then Unsupported
        else parse s' {| branches := []; items := [] |} (cur :: stack)
      else if Ascii.eqb c ")" then
        match stack with
        | [] => Error
        | outer :: stack' => parse s' (push (close cur) outer) stack'
        end
      else if Ascii.eqb c "|" then
        parse s' {| branches := branches cur ++ [seq_of (items cur)];
                    items := [] |} stack
      else if is_quantifier c then
        match items cur with
        | [] => Error
        | r :: before =>
            if starts_with is_quantifier s' then Unsupported
            else parse s' {| branches := branches cur;
                             items := quantify c r :: before |} stack
        end
      else if Ascii.eqb c "\" then
        match s' with
        | EmptyString => Error
        | String d s'' =>
            if is_ascii_alnum d then Unsupported
            else parse s'' (push (Chr d) cur) stack
        end
      else if Ascii.eqb c "[" || Ascii.eqb c "{" || Ascii.eqb c "^"
              || Ascii.eqb c "$" then Unsupported
      else if Ascii.eqb c "." then parse s' (push Dot cur) stack
      else parse s' (push (Chr c) cur) stack
  end.

(** [re.compile(pat, flags)] *)
Definition compile (pat : string) : compiled :=
  parse pat {| branches := []; items := [] |} [].

End Re.
(** ** The pandas operations the module calls *)

Module Pandas.

Fixpoint as_dicts (records : list json) : option (list dict) :=
  match records with
  | [] => Some []
  | JObj d :: rest =>
      match as_dicts rest with
      | Some ds => Some (d :: ds)
      | None => None
      end
  | _ :: _ => None
  end.

(** Column labels of a frame built from records: the keys in order of
    first appearance. *)
Definition frame_columns (ds : list dict) : list string :=
  fold_left (fun cols d => cols ++ dict_keys cols d) ds [].

Definition row_of (cols : list string) (d : dict) : list cell :=
  map (fun c => match dict_get c d with
                | Some v => Val v
                | None => NaN
                end) cols.

(** [pd.DataFrame(records)] for a list of [dict]s; other lists are not
    modelled. *)
Definition DataFrame (records : list json) : result frame :=
  match as_dicts records with
  | Some ds =>
      let cols := frame_columns ds in
      Ok {| columns := cols; rows := map (row_of cols) ds |}
  | None => Unmodelled
  end.

Fixpoint index_of (name : string) (cols : list string) : option nat :=
  match cols with
  | [] => None
  | c :: cols' =>
      if String.eqb c name then Some O
      else option_map S (index_of name cols')
  end.

Definition column_at (i : nat) (df : frame) : list cell :=
  map (fun r => nth i r NaN) (rows df).

(** [df[name]] *)
Definition getitem (df : frame) (name : string) : result (list cell) :=
  match index_of name (columns df) with
  | Some i => Ok (column_at i df)
  | None => Raise (KeyError name)
  end.

(** [df.name] *)
Definition getattr (df : frame) (name : string) : result (list cell) :=
  match index_of name (columns df) with
  | Some i => Ok (column_at i df)
  | None => Raise AttributeError
  end.

(** [df[name] = col] for a column the frame already has. *)
Definition setitem (df : frame) (name : string) (col : list cell) : frame :=
  match index_of name (columns df) with
  | Some i =>
      {| columns := columns df;
         rows := zip_with (fun r c => <[i := c]> r) (rows df) col |}
  | None =>
      {| columns := columns df ++ [name];
         rows := zip_with (fun r c => r ++ [c]) (rows df) col |}
  end.

Definition is_na (c : cell) : bool :=
  match c with
  | NaN | Val JNull | Val (JFloat S754_nan) => true
  | _ => false
  end.

(** [col.fillna(value)] *)
Definition fillna (value : json) (col : list cell) : list cell :=
  map (fun c => if is_na c then Val value else c) col.

(** The integer part of a float, towards zero. *)
Definition trunc (f : float) : option Z :=
  match f with
  | S754_zero _ => Some 0
  | S754_finite s m e =>
      let a := if 0 <=? e then Zpos m * 2 ^ e else Zpos m / 2 ^ (- e) in
      Some (if s then - a else a)
  | S754_infinity _ | S754_nan => None
  end.

(** One cell of [col.astype(int)].  Integers are carried as they are up
    to [2 ^ 53]; beyond, and for floats beyond the 64-bit range or not
    finite, the outcome depends on the column type pandas inferred and
    is not modelled. *)
Definition astype_int_cell (c : cell) : result Z :=
  match c with
  | Val (JInt z) => if Z.abs z <=? 2 ^ 53 then Ok z else Unmodelled
  | Val (JBool b) => Ok (if b then 1 else 0)
  | Val (JFloat f) =>
      match trunc f with
      | Some z => if Z.abs z <? 2 ^ 63 then Ok z else Unmodelled
      | None => Unmodelled
      end
  | Val (JStr s) =>
      match PyNum.int_of_string s with
      | Some z => if Z.abs z <? 2 ^ 63 then Ok z else Raise OverflowError
      | None => Raise ValueError
      end
  | Val JNull | Val (JArr _) | Val (JObj _) => Raise TypeError
  | NaN => Raise ValueError
  end.

(** [col.astype(int)] *)
Fixpoint astype_int (col : list cell) : result (list cell) :=
  match col with
  | [] => Ok []
  | c :: col' =>
      match astype_int_cell c with
      | Ok z =>
          match astype_int col' with
          | Ok zs => Ok (Val (JInt z) :: zs)
          | other => other
          end
      | Raise e => Raise e
      | Unmodelled => Unmodelled
      | OutOfFuel => OutOfFuel
      end
  end.

(** [df.to_csv(path, index=index, sep=sep)]: the header row is written by
    default, and a file already at [path] is replaced. *)
Definition to_csv (df : frame) (path : string) (index : bool) (sep : string)
  : M unit :=
  fun st =>
    (Ok tt,
     {| files := <[path := {| csv_sep := sep; csv_header := true;
                              csv_index := index; csv_frame := df |}]>
                   (files st);
        stdout := stdout st; requests := requests st;
        next_handle := next_handle st; open_docs := open_docs st |}).

(** [pd.read_csv(path, sep=sep)] gives back the table of a file written
    with the same separator, a header row and no index column. *)
Definition read_csv (path : string) (sep : string) : M frame :=
  fun st =>
    match files st !! path with
    | None => (Raise (FileNotFoundError path), st)
    | Some f =>
        if String.eqb (csv_sep f) sep && csv_header f && negb (csv_index f)
        then (Ok (csv_frame f), st)
        else (Unmodelled, st)
    end.

Definition is_str (c : cell) : bool :=
  match c with
  | Val (JStr _) => true
  | _ => false
  end.

(** The [.str] accessor exists on a column of text; a column with rows
    but without any text was read as numbers and has none. *)
Definition has_str_accessor (col : list cell) : bool :=
  match col with
  | [] => true
  | _ :: _ => existsb is_str col
  end.

(** [col.str.contains(pat, case=False, na=False)]: [regex] keeps its
    default [True]. *)
Definition str_contains (col : list cell) (pat : string)
  : result (list bool) :=
  if has_str_accessor col then
    match Re.compile pat with
    | Re.Compiled r =>
        Ok (map (fun c => match c with
                          | Val (JStr x) => Re.search true r x
                          | _ => false
                          end) col)
    | Re.Error => Raise ReError
    | Re.Unsupported => Unmodelled
    end
  else Raise AttributeError.

(** [df[mask]] *)
Fixpoint mask_rows (rs : list (list cell)) (mask : list bool)
  : list (list cell) :=
  match rs, mask with
  | r :: rs', b :: mask' =>
      if b then r :: mask_rows rs' mask' else mask_rows rs' mask'
  | _, _ => []
  end.

Definition select (df : frame) (mask : list bool) : frame :=
  {| columns := columns df; rows := mask_rows (rows df) mask |}.

(** [df.empty] *)
Definition empty (df : frame) : bool :=
  Nat.eqb (length (rows df)) 0 || Nat.eqb (length (columns df)) 0.

(** [df.iloc[0][name]] *)
Definition iloc0 (df : frame) (name : string) : result cell :=
  match rows df with
  | [] => Raise IndexError
  | r :: _ =>
      match index_of name (columns df) with
      | Some i => Ok (nth i r NaN)
      | None => Raise (KeyError name)
      end
  end.

End Pandas.
(** ** Base64 *)

Module Base64.

Definition alphabet : list byte :=
  list_byte_of_string
    "ABCDEFGHIJKLMNOPQRSTUVWXYZabcdefghijklmnopqrstuvwxyz0123456789+/".

Definition pad : byte := "="%byte.

Definition enc_char (sextet : N) : byte :=
  nth (N.to_nat sextet) alphabet pad.

Fixpoint find (b : byte) (l : list byte) (i : N) : option N :=
  match l with
  | [] => None
  | x :: l' => if Byte.eqb x b then Some i else find b l' (i + 1)%N
  end.

Definition dec_char (b : byte) : option N := find b alphabet 0%N.

(** [base64.b64encode]: three bytes make four characters; a last group
    of one or two bytes is padded. *)
Fixpoint b64encode (data : list byte) : list byte :=
  match data with
  | [] => []
  | [a] =>
      let n := (Byte.to_N a * 65536)%N in
      [enc_char (n / 262144); enc_char (n / 4096 mod 64); pad; pad]%N
  | [a; b] =>
      let n := (Byte.to_N a * 65536 + Byte.to_N b * 256)%N in
      [enc_char (n / 262144); enc_char (n / 4096 mod 64);
       enc_char (n / 64 mod 64); pad]%N
  | a :: b :: c :: rest =>
      let n := (Byte.to_N a * 65536 + Byte.to_N b * 256 + Byte.to_N c)%N in
      (enc_char (n / 262144) :: enc_char (n / 4096 mod 64)
       :: enc_char (n / 64 mod 64) :: enc_char (n mod 64)
       :: b64encode rest)%N
  end.

Definition byte_of (n : N) : byte :=
  from_option id "000"%byte (Byte.of_N n).

(** Decoding, four characters at a time. *)
Fixpoint b64decode (text : list byte) : option (list byte) :=
  match text with
  | [] => Some []
  | c1 :: c2 :: c3 :: c4 :: rest =>
      match dec_char c1, dec_char c2 with
      | Some s1, Some s2 =>
          if Byte.eqb c4 pad then
            match rest with
            | [] =>
                if Byte.eqb c3 pad then
                  Some [byte_of ((s1 * 64 + s2) / 16)]%N
                else
                  match dec_char c3 with
                  | Some s3 =>
                      let n := ((s1 * 64 + s2) * 64 + s3)%N in
                      Some [byte_of (n / 1024); byte_of (n / 4 mod 256)]%N
                  | None => None
                  end
            | _ :: _ => None
            end
          else
            match dec_char c3, dec_char c4, b64decode rest with
            | Some s3, Some s4, Some tail =>
                let n := (((s1 * 64 + s2) * 64 + s3) * 64 + s4)%N in
                Some (byte_of (n / 65536) :: byte_of (n / 256 mod 256)
                      :: byte_of (n mod 256) :: tail)%N
            | _, _, _ => None
            end
      | _, _ => None
      end
  | _ => None
  end.

Definition is_ascii (b : byte) : bool := (Byte.to_N b <? 128)%N.

(** [data.decode('utf-8')] on ASCII bytes; multi-byte sequences are not
    modelled. *)
Definition decode_utf8 (data : list byte) : result string :=
  if forallb is_ascii data then Ok (string_of_list_byte data)
  else Unmodelled.

End Base64.

(** ** PyMuPDF *)

Module Fitz.

(** A rendered page: [tobytes(format)] is the encoded image, or an error. *)
Record pixmap := {
  tobytes : string -> result (list byte)
}.

(** A page: [get_pixmap(matrix=fitz.Matrix(zoom_x, zoom_y))] renders it,
    or fails. *)
Record page := {
  get_pixmap : Z * Z -> result pixmap
}.

Definition document := list page.

(** The PDF files that can be opened, by path. *)
Definition disk := string -> option document.

Record handle := {
  doc_id : nat;
  doc_pages : document
}.

(** [fitz.open(path)] *)
Definition fitz_open (d : disk) (path : string) : M handle :=
  fun st =>
    match d path with
    | None => (Raise (FileNotFoundError path), st)
    | Some pages =>
        (Ok {| doc_id := next_handle st; doc_pages := pages |},
         {| files := files st; stdout := stdout st; requests := requests st;
            next_handle := S (next_handle st);
            open_docs := {[next_handle st]} ∪ open_docs st |})
    end.

(** [doc.close()] *)
Definition close (doc : handle) : M unit :=
  fun st =>
    (Ok tt,
     {| files := files st; stdout := stdout st; requests := requests st;
        next_handle := next_handle st;
        open_docs := open_docs st ∖ {[doc_id doc]} |}).

(** [doc[page_num]] *)
Definition load_page (doc : handle) (page_num : nat) : M page :=
  match doc_pages doc !! page_num with
  | Some p => ret p
  | None => raise IndexError
  end.

End Fitz.
(** ** [utils.py]: constants and the two fetchers *)

Module Utils.

Definition BASE_URL_PRODUCT : string :=
  "https://api.datalake.sante.service.ec.europa.eu/sante/pesticides/pesticide_residues_products".
Definition BASE_URL_PEST : string :=
  "https://api.datalake.sante.service.ec.europa.eu/sante/pesticides/active_substances".
Definition BASE_URL_PCR : string :=
  "https://api.datalake.sante.service.ec.europa.eu/sante/pesticides/product-current-mrl-all-residues".
Definition BASE_URL_MRL : string :=
  "https://api.datalake.sante.service.ec.europa.eu/sante/pesticides/pesticide_residues_mrls".
Definition HEADERS : list (string * string) :=
  [("Content-Type", "application/json"); ("Cache-Control", "no-cache")].
Definition PARAMS : list (string * string) :=
  [("format", "json"); ("api-version", "v2.0"); ("language", "en")].
Definition PARAMS_PEST : list (string * string) :=
  [("format", "json"); ("api-version", "v2.0")].

Record response := {
  status_code : Z;
  body : option json
}.

Section Functions.

(** The environment: the data lake, the PDF files at hand, and the two
    built-ins of the interpreter whose text conversions the module
    relies on, [float(s)] on a string ([None] is [ValueError]) and
    [str(x)] on a number or a table cell. *)
Variable srv : server.
Variable pdfs : Fitz.disk.
Variable py_float : string -> option float.
Variable py_str : cell -> string.

(** [client.get(url, headers=..., params=...)]: the request goes out
    (and is recorded) whether or not an answer comes back. *)
Definition client_get (req : request) : M response :=
  fun st =>
    let st' := {| files := files st; stdout := stdout st;
                  requests := requests st ++ [req];
                  next_handle := next_handle st;
                  open_docs := open_docs st |} in
    match srv req with
    | Reply status b => (Ok {| status_code := status; body := b |}, st')
    | NoReply => (Raise TransportError, st')
    end.

Definition raise_for_status (resp : response) : M unit :=
  if is_success (status_code resp) then ret tt
  else raise (HTTPStatusError (status_code resp)).

Definition resp_json (resp : response) : M json :=
  match body resp with
  | Some payload => ret payload
  | None => raise JSONDecodeError
  end.

(** The URL argument of [client.get]: anything but a string is refused
    by the client. *)
Definition as_url (link : json) : M string :=
  match link with
  | JStr url => ret url
  | _ => raise TypeError
  end.

(** Lines 44-49: the [while next_link] loop.  [fuel] bounds the number
    of iterations; the accumulator is [all_items]. *)
Fixpoint fetch_pages (fuel : nat) (next_link : json) (all_items : list json)
  : M (list json) :=
  if truthy next_link then
    match fuel with
    | O => lift OutOfFuel
    | S fuel' =>
        url <- as_url next_link ;;
        resp <- client_get {| req_url := url; req_headers := HEADERS;
                              req_params := [] |} ;;
        raise_for_status resp ;;
        payload <- resp_json resp ;;
        value <- lift (get_default payload "value" (JArr [])) ;;
        items <- lift (iterate value) ;;
        next <- lift (get_default payload "nextLink" JNull) ;;
        fetch_pages fuel' next (all_items ++ items)
    end
  else ret all_items.

(** Lines 31-51.  The [timeout] argument only configures the client and
    is left out. *)
Definition fetch_all_data (url : string) (params : list (string * string))
  (fuel : nat) : M (list json) :=
  resp <- client_get {| req_url := url; req_headers := HEADERS;
                        req_params := params |} ;;
  raise_for_status resp ;;
  payload <- resp_json resp ;;
  value <- lift (get_default payload "value" (JArr [])) ;;
  items <- lift (iterate value) ;;
  next_link <- lift (get_default payload "nextLink" JNull) ;;
  fetch_pages fuel next_link ([] ++ items).

(** [mlr.get("applicability_text") == "Applicable"] *)
Definition is_applicable (mlr : dict) : bool :=
  match dict_get "applicability_text" mlr with
  | Some (JStr s) => String.eqb s "Applicable"
  | _ => false
  end.

(** Line 72: the comprehension calls [.get] on every entry, so an entry
    that is not a [dict] raises. *)
Fixpoint applicable (data : list json) : result (list dict) :=
  match data with
  | [] => Ok []
  | JObj mlr :: rest =>
      match applicable rest with
      | Ok kept => Ok (if is_applicable mlr then mlr :: kept else kept)
      | other => other
      end
  | _ :: _ => Raise AttributeError
  end.

(** Lines 54-73. *)
Definition get_substance_mrl_EU (product_id substance_id : string)
  : M (list dict) :=
  let params :=
    dict_or PARAMS_PEST
      [("pesticide_residue_id", substance_id); ("product_id", product_id)] in
  resp <- client_get {| req_url := BASE_URL_MRL; req_headers := HEADERS;
                        req_params := params |} ;;
  raise_for_status resp ;;
  payload <- resp_json resp ;;
  data <- lift (get_default payload "value" JNull) ;;
  items <- lift (iterate data) ;;
  lift (applicable items).


(** Lines 76-88. *)
Definition create_and_dump_data (fuel : nat) : M unit :=
  prod <- fetch_all_data BASE_URL_PRODUCT PARAMS fuel ;;
  df_prod <- lift (Pandas.DataFrame prod) ;;
  parent <- lift (Pandas.getitem df_prod "product_parent_id") ;;
  parent <- lift (Pandas.astype_int (Pandas.fillna (JInt 0) parent)) ;;
  let df_prod := Pandas.setitem df_prod "product_parent_id" parent in
  Pandas.to_csv df_prod "eu_products.csv" false "|" ;;
  pest <- fetch_all_data BASE_URL_PEST PARAMS_PEST fuel ;;
  df_pest <- lift (Pandas.DataFrame pest) ;;
  Pandas.to_csv df_pest "eu_pesticides.csv" false "|".

(** Lines 101-107: the loop over [range(len(doc))]. *)
Fixpoint render_pages (doc : Fitz.handle) (page_nums : list nat)
  (images : list string) : M (list string) :=
  match page_nums with
  | [] => ret images
  | page_num :: later =>
      page <- Fitz.load_page doc page_num ;;
      pix <- lift (Fitz.get_pixmap page (2, 2)) ;;
      img_bytes <- lift (Fitz.tobytes pix "png") ;;
      img_base64 <- lift (Base64.decode_utf8 (Base64.b64encode img_bytes)) ;;
      print ("  Page " +:+ pretty (page_num + 1)%nat +:+ "/"
             +:+ pretty (length (Fitz.doc_pages doc)) +:+ " done") ;;
      render_pages doc later (images ++ [img_base64])
  end.

(** Lines 91-110. *)
Definition pdf_to_base64_images (pdf_path : string) : M (list string) :=
  doc <- Fitz.fitz_open pdfs pdf_path ;;
  print ("Converting " +:+ pretty (length (Fitz.doc_pages doc))
         +:+ " page(s) in base64 images...") ;;
  images <- render_pages doc (seq 0 (length (Fitz.doc_pages doc))) [] ;;
  Fitz.close doc ;;
  ret images.

Definition not_found (kind name : string) : list (string * string) :=
  [("error", kind +:+ " '" +:+ name +:+ "' not found in EU database.")].

(** Lines 119-138: both caches are read, the two names are resolved and
    the MRL rules are fetched.  The left outcome is the [dict] the
    function returns early. *)
Definition lookup (product_name sub_name : string)
  : M (list (string * string) + list dict) :=
  df_prod <- Pandas.read_csv "eu_products.csv" "|" ;;
  df_pest <- Pandas.read_csv "eu_pesticides.csv" "|" ;;
  names <- lift (Pandas.getattr df_prod "product_name") ;;
  condition_product <- lift (Pandas.str_contains names product_name) ;;
  let prod_row := Pandas.select df_prod condition_product in
  if Pandas.empty prod_row then ret (inl (not_found "Product" product_name))
  else
    id_cell <- lift (Pandas.iloc0 prod_row "product_id") ;;
    let product_id := py_str id_cell in
    names <- lift (Pandas.getattr df_pest "substance_name") ;;
    condition_pest <- lift (Pandas.str_contains names sub_name) ;;
    let pest_row := Pandas.select df_pest condition_pest in
    if Pandas.empty pest_row then ret (inl (not_found "Substance" sub_name))
    else
      id_cell <- lift (Pandas.iloc0 pest_row "substance_id") ;;
      let substance_id := py_str id_cell in
      mrl_data <- get_substance_mrl_EU product_id substance_id ;;
      ret (inr mrl_data).

Definition NO_MRL : string := "No MRL required".

Definition rule : string := string_of_list_ascii (repeat "="%char 50).

(** Lines 146-150: the threshold.  Only a string has [replace]; a
    string that [float] refuses is worth [0], with a warning. *)
Definition threshold (mrl_options : json) : M float :=
  match mrl_options with
  | JStr s =>
      if String.eqb s NO_MRL then ret float_zero
      else
        match py_float (remove_char "*" s) with
        | Some value => ret value
        | None =>
            print ("Warning: Unable to convert MRL option '" +:+ s
                   +:+ "' to float. Setting to 0.") ;;
            ret float_zero
        end
  | _ => raise AttributeError
  end.

Definition is_no_mrl (mrl_options : json) : bool :=
  match mrl_options with
  | JStr s => String.eqb s NO_MRL
  | _ => false
  end.

Definition text_of (mrl_options : json) : string :=
  match mrl_options with
  | JStr s => s
  | other => py_str (Val other)
  end.

(** [float(x)] on an integer: the nearest float, unless it is out of
    range. *)
Definition float_of_int (z : Z) : result float :=
  match binary_normalize prec emax z 0 false with
  | S754_infinity _ => Raise OverflowError
  | f => Ok f
  end.

(** [float(mrl)] on whatever the caller passed as measured value. *)
Definition to_float (mrl : json) : result float :=
  match mrl with
  | JFloat f => Ok f
  | JInt z => float_of_int z
  | JBool b => float_of_int (if b then 1 else 0)
  | JStr s =>
      match py_float s with
      | Some f => Ok f
      | None => Raise ValueError
      end
  | JNull | JArr _ | JObj _ => Raise TypeError
  end.

(** Lines 140-161. *)
Definition report (product_name sub_name : string) (mrl : json)
  (mrl_data : list dict) : M unit :=
  match mrl_data with
  | [] =>
      print ("Error : No MRL data found for product '" +:+ product_name
             +:+ "' and substance '" +:+ sub_name +:+ "'.")
  | first :: _ =>
      print ("MRL data found for product '" +:+ product_name
             +:+ "' and substance '" +:+ sub_name +:+ "'.") ;;
      let mrl_options :=
        from_option id (JArr []) (dict_get "mrl_value" first) in
      mrl_options_value <- threshold mrl_options ;;
      print ("MRL options from EU database: " +:+ text_of mrl_options) ;;
      print ("MRL value from report: " +:+ py_str (Val mrl)) ;;
      measured <- lift (to_float mrl) ;;
      let mrl_conditions :=
        is_no_mrl mrl_options || float_lt measured mrl_options_value in
      let compliance_results :=
        if mrl_conditions then "CONFORME" else "NON CONFORME" in
      print (String Re.newline rule) ;;
      print "COMPLIANCE RESULT:" ;;
      print rule ;;
      print compliance_results
  end.

(** Lines 113-161: the function returns the error [dict] of a failed
    lookup, and [None] otherwise. *)
Definition fetch_mrl_data (product_name sub_name : string) (mrl : json)
  : M (option (list (string * string))) :=
  found <- lookup product_name sub_name ;;
  match found with
  | inl error => ret (Some error)
  | inr mrl_data => report product_name sub_name mrl mrl_data ;; ret None
  end.

End Functions.

End Utils.
Export Utils.
(** ** Vocabulary of the specification *)

Module Spec.

(** The server answers [req] with a success status and the JSON object
    [p]. *)
Definition answers (srv : server) (req : request) (p : dict) : Prop :=
  exists status,
    srv req = Reply status (Some (JObj p)) /\ is_success status = true.

(** The request that follows a continuation link. *)
Definition follow (link : string) : request :=
  {| req_url := link; req_headers := HEADERS; req_params := [] |}.

Definition next_of (p : dict) : json :=
  from_option id JNull (dict_get "nextLink" p).

(** A paginated response chain: the pages the server hands out, starting
    from [req], each page but the last naming the next one. *)
Inductive chain (srv : server) : request -> list dict -> Prop :=
| chain_last req p :
    answers srv req p ->
    truthy (next_of p) = false ->
    chain srv req [p]
| chain_next req p link ps :
    answers srv req p ->
    dict_get "nextLink" p = Some (JStr link) ->
    link <> EmptyString ->
    chain srv (follow link) ps ->
    chain srv req (p :: ps).

(** The records of a page: its [value] array, nothing when the page has
    no such key. *)
Definition page_values (p : dict) : list json :=
  match dict_get "value" p with
  | Some (JArr items) => items
  | _ => []
  end.

Definition has_value_array (p : dict) : Prop :=
  exists items, dict_get "value" p = Some (JArr items).

Definition value_array_or_none (p : dict) : Prop :=
  dict_get "value" p = None \/ has_value_array p.

(** The request [get_substance_mrl_EU] sends. *)
Definition mrl_request (product_id substance_id : string) : request :=
  {| req_url := BASE_URL_MRL; req_headers := HEADERS;
     req_params := [("format", "json"); ("api-version", "v2.0");
                    ("pesticide_residue_id", substance_id);
                    ("product_id", product_id)] |}.

(** The requests a chain costs after its first one. *)
Fixpoint follow_ups (pages : list dict) : list request :=
  match pages with
  | [] => []
  | p :: ps =>
      match ps with
      | [] => []
      | _ :: _ =>
          match dict_get "nextLink" p with
          | Some (JStr link) => follow link :: follow_ups ps
          | _ => follow_ups ps
          end
      end
  end.

(** The state once the requests [reqs] have gone out. *)
Definition sent (st : state) (reqs : list request) : state :=
  {| files := files st; stdout := stdout st;
     requests := requests st ++ reqs;
     next_handle := next_handle st; open_docs := open_docs st |}.

(** Substring containment, and the lookup rule in the words of the
    specification: the name contains the query, letter case aside. *)
Fixpoint starts (sub s : string) : bool :=
  match sub, s with
  | EmptyString, _ => true
  | String a sub', String b s' => Ascii.eqb a b && starts sub' s'
  | String _ _, EmptyString => false
  end.

Fixpoint contains (sub s : string) : bool :=
  starts sub s ||
  match s with
  | EmptyString => false
  | String _ s' => contains sub s'
  end.

Definition icontains (query name : string) : bool :=
  contains (Re.str_lower query) (Re.str_lower name).

(** The containment test on a cell of the name column; a cell without
    text contains nothing. *)
Definition cell_icontains (query : string) (c : cell) : bool :=
  match c with
  | Val (JStr name) => icontains query name
  | _ => false
  end.

(** Characters that stand for themselves in a pattern. *)
Definition plain_char (c : ascii) : bool :=
  negb (Ascii.eqb c "(" || Ascii.eqb c ")" || Ascii.eqb c "|"
        || Re.is_quantifier c || Ascii.eqb c "\"
        || Ascii.eqb c "[" || Ascii.eqb c "{" || Ascii.eqb c "^"
        || Ascii.eqb c "$" || Ascii.eqb c ".").

Fixpoint plain (s : string) : bool :=
  match s with
  | EmptyString => true
  | String c s' => plain_char c && plain s'
  end.

(** The pattern that reads [s] letter by letter, then goes on as [tail]. *)
Fixpoint literal_then (s : string) (tail : Re.regex) : Re.regex :=
  match s with
  | EmptyString => tail
  | String c s' => Re.Cat (Re.Chr c) (literal_then s' tail)
  end.

Definition literal (s : string) : Re.regex := literal_then s Re.Eps.

Fixpoint push_all (s : string) (items : list Re.regex) : list Re.regex :=
  match s with
  | EmptyString => items
  | String c s' => push_all s' (Re.Chr c :: items)
  end.

(** The state once the lines [lines] have been printed. *)
Definition printed (st : state) (lines : list string) : state :=
  {| files := files st; stdout := stdout st ++ lines;
     requests := requests st;
     next_handle := next_handle st; open_docs := open_docs st |}.

(** The threshold a reference value stands for: what [float] reads once
    the markers are removed, and [0] when it reads nothing. *)
Definition limit_of (py_float : string -> option float) (ref : string)
  : float :=
  from_option id float_zero (py_float (remove_char "*" ref)).

(** The lines of a completed check, but for the first and the last. *)
Definition summary (py_str : cell -> string) (ref : string) (mrl : json)
  : list string :=
  ["MRL options from EU database: " +:+ ref;
   "MRL value from report: " +:+ py_str (Val mrl);
   String Re.newline rule;
   "COMPLIANCE RESULT:";
   rule].

Definition warning (ref : string) : string :=
  "Warning: Unable to convert MRL option '" +:+ ref
  +:+ "' to float. Setting to 0.".

Definition found (product_name sub_name : string) : string :=
  "MRL data found for product '" +:+ product_name
  +:+ "' and substance '" +:+ sub_name +:+ "'.".

(** The page renders at twice its size and encodes as the PNG bytes
    [png]. *)
Definition renders (page : Fitz.page) (png : list byte) : Prop :=
  exists pix,
    Fitz.get_pixmap page (2, 2) = Ok pix /\ Fitz.tobytes pix "png" = Ok png.

(** The base64 text of a byte string. *)
Definition base64_text (data : list byte) : string :=
  string_of_list_byte (Base64.b64encode data).

(** The progress line of a page. *)
Definition page_done (total page_num : nat) : string :=
  "  Page " +:+ pretty (page_num + 1)%nat +:+ "/" +:+ pretty total +:+ " done".

(** What decoding needs of the character that encodes a sextet. *)
Definition sextet_ok (s : N) : bool :=
  match Base64.dec_char (Base64.enc_char s) with
  | Some s' => N.eqb s s'
  | None => false
  end
  && negb (Byte.eqb (Base64.enc_char s) Base64.pad)
  && Base64.is_ascii (Base64.enc_char s).

(** A pipe-delimited file with a header row and no index column. *)
Definition pipe_file (df : frame) : csv_file :=
  {| csv_sep := "|"; csv_header := true; csv_index := false; csv_frame := df |}.

(** The state once [file] has been written at [path]. *)
Definition written (st : state) (path : string) (file : csv_file) : state :=
  {| files := <[path := file]> (files st); stdout := stdout st;
     requests := requests st; next_handle := next_handle st;
     open_docs := open_docs st |}.

Definition PARENT : string := "product_parent_id".

(** The parent id of a record as the frame holds it. *)
Definition parent_cell (d : dict) : cell :=
  match dict_get PARENT d with
  | Some v => Val v
  | None => NaN
  end.

(** The parent id the builder stores: 0 for a missing one, the integer
    the value converts to otherwise. *)
Definition coerce (c : cell) : result Z :=
  if Pandas.is_na c then Ok 0 else Pandas.astype_int_cell c.

(** The product table that is written: the records as rows, the cell of
    the parent-id column replaced by the integers [ids]. *)
Definition product_frame (ds : list dict) (ids : list Z) : frame :=
  let cols := Pandas.frame_columns ds in
  let i := from_option id O (Pandas.index_of PARENT cols) in
  {| columns := cols;
     rows := zip_with (fun d z => <[i := Val (JInt z)]> (Pandas.row_of cols d))
               ds ids |}.

Definition record_frame (ds : list dict) : frame :=
  let cols := Pandas.frame_columns ds in
  {| columns := cols; rows := map (Pandas.row_of cols) ds |}.

(** A computation that leaves the files alone. *)
Definition keeps_files {A} (m : M A) : Prop :=
  forall st, files (snd (m st)) = files st.

(** The last line printed: the verdict, after a completed check. *)
Definition verdict (st : state) : option string := last (stdout st).

End Spec.
Export Spec.

(** ** Sample worlds *)

Module Sample.

(** Nothing on disk, nothing printed, nothing sent, no document open. *)
Definition start : state :=
  {| files := ∅; stdout := []; requests := []; next_handle := O;
     open_docs := ∅ |}.

Definition page1 : dict :=
  [("value", JArr [JObj [("product_id", JInt 1)]; JObj [("product_id", JInt 2)]]);
   ("nextLink", JStr "https://api.example/products?page=2")].

Definition page2 : dict :=
  [("value", JArr [JObj [("product_id", JInt 3)]])].

(** A page without a [value] key. *)
Definition bare : dict := [("count", JInt 0)].

Definition rules : dict :=
  [("value",
    JArr [JObj [("mrl_value", JStr "0.5"); ("applicability_text", JStr "Not applicable")];
          JObj [("mrl_value", JStr "0.01*"); ("applicability_text", JStr "Applicable")];
          JObj [("mrl_value", JStr "0.02"); ("applicability_text", JStr "Applicable")]])].

Definition rules_unreadable : dict :=
  [("value",
    JArr [JObj [("mrl_value", JStr "abc"); ("applicability_text", JStr "Applicable")]])].

Definition rules_exempt : dict :=
  [("value",
    JArr [JObj [("mrl_value", JStr "No MRL required");
                ("applicability_text", JStr "Applicable")]])].

Definition asks_product (id : string) (req : request) : bool :=
  existsb (fun kv => String.eqb (fst kv) "product_id" && String.eqb (snd kv) id)
    (req_params req).

(** A data lake with a two-page product list, a substance list without
    a [value] key, and MRL rules for every pair of ids: none readable
    for product 13, an unreadable limit for product 14, an exemption for
    product 15. *)
Definition lake : server :=
  fun req =>
    if String.eqb (req_url req) BASE_URL_PRODUCT then Reply 200 (Some (JObj page1))
    else if String.eqb (req_url req) "https://api.example/products?page=2"
    then Reply 200 (Some (JObj page2))
    else if String.eqb (req_url req) BASE_URL_PEST then Reply 200 (Some (JObj bare))
    else if String.eqb (req_url req) BASE_URL_MRL then
      if asks_product "13" req then Reply 200 (Some (JObj bare))
      else if asks_product "14" req then Reply 200 (Some (JObj rules_unreadable))
      else if asks_product "15" req then Reply 200 (Some (JObj rules_exempt))
      else Reply 200 (Some (JObj rules))
    else Reply 404 None.

(** A data lake whose product list is empty. *)
Definition dry_lake : server :=
  fun req =>
    if String.eqb (req_url req) BASE_URL_PRODUCT
    then Reply 200 (Some (JObj [("value", JArr [])]))
    else lake req.

(** A data lake with three products, one without a parent, and two
    substances. *)
Definition product_records : list dict :=
  [[("product_id", JInt 1); ("product_name", JStr "Fruit");
    ("product_parent_id", JNull)];
   [("product_id", JInt 2); ("product_name", JStr "Apples");
    ("product_parent_id", JInt 1)];
   [("product_id", JInt 3); ("product_name", JStr "Honey")]].

Definition substance_records : list dict :=
  [[("substance_id", JInt 7); ("substance_name", JStr "Captan")];
   [("substance_id", JInt 8); ("substance_name", JStr "Abamectin")]].

Definition full_lake : server :=
  fun req =>
    if String.eqb (req_url req) BASE_URL_PRODUCT
    then Reply 200 (Some (JObj [("value", JArr (map JObj product_records))]))
    else if String.eqb (req_url req) BASE_URL_PEST
    then Reply 200 (Some (JObj [("value", JArr (map JObj substance_records))]))
    else lake req.

Definition products : frame :=
  {| columns := ["product_id"; "product_parent_id"; "product_name"];
     rows := [[Val (JInt 11); Val (JInt 0); Val (JStr "Apple, dessert")];
              [Val (JInt 12); Val (JInt 0); Val (JStr "Beans (with pods)")];
              [Val (JInt 14); Val (JInt 0); Val (JStr "Cherries")];
              [Val (JInt 15); Val (JInt 0); Val (JStr "Honey")]] |}.

Definition pesticides : frame :=
  {| columns := ["substance_id"; "substance_name"];
     rows := [[Val (JInt 7); Val (JStr "Captan")];
              [Val (JInt 8); Val (JStr "Abamectin (sum of avermectins)")]] |}.

(** The working directory after a build of the cache. *)
Definition cached : state :=
  {| files := <["eu_pesticides.csv" := pipe_file pesticides]>
                (<["eu_products.csv" := pipe_file products]> ∅);
     stdout := []; requests := []; next_handle := O; open_docs := ∅ |}.

Definition png_a : list byte := ["137"; "P"; "N"; "G"; "013"; "010"; "001"]%byte.
Definition png_b : list byte := ["137"; "P"; "N"; "G"; "013"; "010"]%byte.

Definition sound_page (png : list byte) : Fitz.page :=
  {| Fitz.get_pixmap := fun _ =>
       Ok {| Fitz.tobytes := fun format =>
               if String.eqb format "png" then Ok png else Raise ValueError |} |}.

(** A page the renderer gives up on. *)
Definition torn_page : Fitz.page :=
  {| Fitz.get_pixmap := fun _ => Raise RuntimeError |}.

Definition shelf : Fitz.disk :=
  fun path =>
    if String.eqb path "report.pdf" then Some [sound_page png_a; sound_page png_b]
    else if String.eqb path "torn.pdf" then Some [sound_page png_a; torn_page]
    else None.

(** Measured values, as floats. *)
Definition measured (text : string) : json :=
  JFloat (from_option id S754_nan (PyNum.float_of_string text)).

End Sample.

(** ** Further vocabulary *)

Module More.

(** One page of the fetch: the request, the checks on the response, the
    records, and the loop on the continuation link.  It is the body the
    first request and every turn of the loop share. *)
Definition visit (srv : server) (req : request) (all_items : list json)
  (fuel : nat) : M (list json) :=
  resp <- client_get srv req ;;
  raise_for_status resp ;;
  payload <- resp_json resp ;;
  value <- lift (get_default payload "value" (JArr [])) ;;
  items <- lift (iterate value) ;;
  next_link <- lift (get_default payload "nextLink" JNull) ;;
  fetch_pages srv fuel next_link (all_items ++ items).

(** The way through the first pages of a listing: from [req], the pages
    [pages] are answered one after the other on the requests [reqs], and
    the last of them names the request [req'] that comes next. *)
Inductive route (srv : server)
  : request -> list dict -> list request -> request -> Prop :=
| route_here req : route srv req [] [] req
| route_on req p link ps reqs req' :
    answers srv req p ->
    dict_get "nextLink" p = Some (JStr link) ->
    link <> EmptyString ->
    route srv (follow link) ps reqs req' ->
    route srv req (p :: ps) (req :: reqs) req'.

(** A computation that leaves the state as it is. *)
Definition quiet {A} (m : M A) : Prop := forall st, snd (m st) = st.

(** A computation whose only effect is to send requests. *)
Definition only_sends {A} (m : M A) : Prop :=
  forall st, exists reqs, snd (m st) = sent st reqs.

(** A computation whose only effect is to print. *)
Definition only_prints {A} (m : M A) : Prop :=
  forall st, exists lines, snd (m st) = printed st lines.

(** The page does not make it to PNG bytes: rendering raises, or the
    encoding of the rendered page does. *)
Definition fails (page : Fitz.page) (e : exn) : Prop :=
  Fitz.get_pixmap page (2, 2) = Raise e
  \/ exists pix,
       Fitz.get_pixmap page (2, 2) = Ok pix /\ Fitz.tobytes pix "png" = Raise e.

(** A computation that writes no file and sends no request: all it may
    do to the files, the requests and the output is to print. *)
Definition only_talks {A} (m : M A) : Prop :=
  forall st,
    files (snd (m st)) = files st
    /\ requests (snd (m st)) = requests st
    /\ exists lines, stdout (snd (m st)) = stdout st ++ lines.

(** The first row of [df] whose cell under [column] contains [query],
    letter case aside. *)
Definition first_hit (df : frame) (column query : string)
  : option (list cell) :=
  match Pandas.index_of column (columns df) with
  | Some i => List.find (fun r => cell_icontains query (nth i r NaN)) (rows df)
  | None => None
  end.

(** The text of the cell of [row] under [column]. *)
Definition id_text (py_str : cell -> string) (df : frame) (column : string)
  (row : list cell) : option string :=
  match Pandas.index_of column (columns df) with
  | Some j => Some (py_str (nth j row NaN))
  | None => None
  end.

(** The name column [column] of [df] holds text. *)
Definition named (df : frame) (column : string) : Prop :=
  exists names,
    Pandas.getattr df column = Ok names
    /\ Pandas.has_str_accessor names = true.

(** The line printed when the service has no applicable rule. *)
Definition no_rules (product_name sub_name : string) : string :=
  "Error : No MRL data found for product '" +:+ product_name
  +:+ "' and substance '" +:+ sub_name +:+ "'.".

End More.
Export More.

(** ** Further sample worlds *)

Module Cases.

(** A data lake that loses the second page of the product list. *)
Definition half_lake : server :=
  fun req =>
    if String.eqb (req_url req) "https://api.example/products?page=2"
    then Reply 503 None
    else Sample.lake req.

(** A data lake whose product list never ends: the second page names
    itself as the next one. *)
Definition page_again : dict :=
  [("value", JArr [JObj [("product_id", JInt 3)]]);
   ("nextLink", JStr "https://api.example/products?page=2")].

Definition round_lake : server :=
  fun req =>
    if String.eqb (req_url req) "https://api.example/products?page=2"
    then Reply 200 (Some (JObj page_again))
    else Sample.lake req.

(** A data lake whose product list has a null [value], and one whose
    product list gives a number as continuation link. *)
Definition null_lake : server :=
  fun req =>
    if String.eqb (req_url req) BASE_URL_PRODUCT
    then Reply 200 (Some (JObj [("value", JNull)]))
    else Sample.lake req.

Definition odd_lake : server :=
  fun req =>
    if String.eqb (req_url req) BASE_URL_PRODUCT
    then Reply 200 (Some (JObj [("value", JArr [JInt 1]); ("nextLink", JInt 2)]))
    else Sample.lake req.

(** MRL rules with a stray entry among the records. *)
Definition mixed_rules : dict :=
  [("value",
    JArr [JObj [("mrl_value", JStr "0.01*"); ("applicability_text", JStr "Applicable")];
          JStr "n/a"])].

Definition mixed_lake : server :=
  fun req =>
    if String.eqb (req_url req) BASE_URL_MRL
    then Reply 200 (Some (JObj mixed_rules))
    else Sample.lake req.

(** Product lists: one whose records have no parent id at all, one with a
    parent id that is no number. *)
Definition orphan_records : list dict :=
  [[("product_id", JInt 1); ("product_name", JStr "Fruit")];
   [("product_id", JInt 2); ("product_name", JStr "Apples")]].

Definition orphan_lake : server :=
  fun req =>
    if String.eqb (req_url req) BASE_URL_PRODUCT
    then Reply 200 (Some (JObj [("value", JArr (map JObj orphan_records))]))
    else Sample.full_lake req.

Definition garbled_records : list dict :=
  [[("product_id", JInt 1); ("product_parent_id", JNull)];
   [("product_id", JInt 2); ("product_parent_id", JStr "root")];
   [("product_id", JInt 3); ("product_parent_id", JInt 1)]].

Definition garbled_lake : server :=
  fun req =>
    if String.eqb (req_url req) BASE_URL_PRODUCT
    then Reply 200 (Some (JObj [("value", JArr (map JObj garbled_records))]))
    else Sample.full_lake req.

(** A data lake that serves the products and refuses the substances. *)
Definition lame_lake : server :=
  fun req =>
    if String.eqb (req_url req) BASE_URL_PEST then Reply 500 None
    else Sample.full_lake req.

(** A page that renders but whose picture cannot be written as PNG, and
    a shelf with a document that holds it as third page of four. *)
Definition blurred_page : Fitz.page :=
  {| Fitz.get_pixmap := fun _ =>
       Ok {| Fitz.tobytes := fun _ => Raise ValueError |} |}.

Definition odd_shelf : Fitz.disk :=
  fun path =>
    if String.eqb path "scan.pdf"
    then Some [Sample.sound_page Sample.png_a; Sample.sound_page Sample.png_b;
               blurred_page; Sample.sound_page Sample.png_a]
    else Sample.shelf path.

(** Data lakes whose MRL rules are of no use: one with no applicable
    rule, one whose applicable rule carries no value. *)
Definition strict_lake : server :=
  fun req =>
    if String.eqb (req_url req) BASE_URL_MRL
    then Reply 200
           (Some (JObj [("value",
                         JArr [JObj [("mrl_value", JStr "0.5");
                                     ("applicability_text",
                                      JStr "Not applicable")]])]))
    else Sample.lake req.

Definition blank_lake : server :=
  fun req =>
    if String.eqb (req_url req) BASE_URL_MRL
    then Reply 200
           (Some (JObj [("value",
                         JArr [JObj [("applicability_text",
                                      JStr "Applicable")]])]))
    else Sample.lake req.

(** The working directory after half a build: the product file alone. *)
Definition half_cached : state :=
  {| files := <["eu_products.csv" := pipe_file Sample.products]> ∅;
     stdout := []; requests := []; next_handle := O; open_docs := ∅ |}.

End Cases.
(** * Properties *)

(** ** Running computations *)

Lemma bind_ok {A B} (m : M A) (k : A -> M B) st a st' :
  m st = (Ok a, st') -> bind m k st = k a st'.
Proof. intros H. unfold bind. now rewrite H. Qed.

Lemma bind_raise {A B} (m : M A) (k : A -> M B) st e st' :
  m st = (Raise e, st') -> bind m k st = (Raise e, st').
Proof. intros H. unfold bind. now rewrite H. Qed.

Lemma bind_lift_ok {A B} (a : A) (k : A -> M B) st :
  bind (lift (Ok a)) k st = k a st.
Proof. reflexivity. Qed.

Lemma bind_ret {A B} (a : A) (k : A -> M B) st :
  bind (ret a) k st = k a st.
Proof. reflexivity. Qed.

Lemma sent_nil st : sent st [] = st.
Proof. destruct st. unfold sent. simpl. now rewrite app_nil_r. Qed.

Lemma sent_sent st a b : sent (sent st a) b = sent st (a ++ b).
Proof. unfold sent. simpl. now rewrite <- app_assoc. Qed.

Lemma print_run line st {B} (k : unit -> M B) :
  bind (print line) k st = k tt (printed st [line]).
Proof. reflexivity. Qed.

Lemma printed_printed st a b : printed (printed st a) b = printed st (a ++ b).
Proof. unfold printed. simpl. now rewrite <- app_assoc. Qed.

Lemma printed_nil st : printed st [] = st.
Proof. destruct st. unfold printed. simpl. now rewrite app_nil_r. Qed.

(** One successful round trip: request, status check, body. *)
Lemma round_trip srv req p st {B} (k : json -> M B) :
  answers srv req p ->
  bind (client_get srv req)
    (fun resp => bind (raise_for_status resp) (fun _ => bind (resp_json resp) k)) st
  = k (JObj p) (sent st [req]).
Proof.
  intros (status & Hreply & Hok).
  unfold bind at 1, client_get. rewrite Hreply. fold (sent st [req]).
  unfold bind at 1, raise_for_status. cbn [status_code]. rewrite Hok.
  reflexivity.
Qed.

(** ** The paginated fetcher *)

Section Fetcher.

Variable srv : server.

Lemma page_items p :
  value_array_or_none p ->
  get_default (JObj p) "value" (JArr []) = Ok (JArr (page_values p)).
Proof.
  unfold get_default, page_values.
  intros [Hnone | [items Hitems]].
  - now rewrite Hnone.
  - now rewrite Hitems.
Qed.

Lemma fetch_pages_done fuel next acc st :
  truthy next = false -> fetch_pages srv fuel next acc st = (Ok acc, st).
Proof. intros H. destruct fuel; simpl; now rewrite H. Qed.

Lemma truthy_link link : link <> EmptyString -> truthy (JStr link) = true.
Proof.
  intros H. unfold truthy.
  destruct (String.eqb_spec link EmptyString); [contradiction|reflexivity].
Qed.

(** The loop, entered with the link to the first page of a chain. *)
Lemma fetch_pages_chain pages :
  forall link acc fuel st,
    chain srv (follow link) pages ->
    link <> EmptyString ->
    Forall value_array_or_none pages ->
    (length pages <= fuel)%nat ->
    fetch_pages srv fuel (JStr link) acc st
    = (Ok (acc ++ flat_map page_values pages),
       sent st (follow link :: follow_ups pages)).
Proof.
  induction pages as [|p ps IH]; intros link acc fuel st Hchain Hlink Hpages Hfuel.
  - inversion Hchain.
  - destruct fuel as [|fuel]; [simpl in Hfuel; lia|].
    inversion Hpages as [|? ? Hp Hps]; subst.
    cbn [fetch_pages]. rewrite (truthy_link _ Hlink).
    unfold as_url. rewrite bind_ret.
    inversion Hchain as [req p0 Hans Hlast | req p0 link' ps0 Hans Hnext Hlink' Hrest];
      subst.
    + rewrite (round_trip _ _ _ _ _ Hans).
      rewrite (page_items _ Hp), bind_lift_ok. cbn [iterate].
      rewrite bind_lift_ok.
      unfold get_default. rewrite bind_lift_ok.
      fold (next_of p). rewrite (fetch_pages_done _ _ _ _ Hlast).
      simpl. now rewrite app_nil_r.
    + rewrite (round_trip _ _ _ _ _ Hans).
      rewrite (page_items _ Hp), bind_lift_ok. cbn [iterate].
      rewrite bind_lift_ok.
      unfold get_default. rewrite bind_lift_ok, Hnext. cbn [from_option id].
      rewrite (IH link' _ fuel _ Hrest Hlink' Hps) by (simpl in Hfuel; lia).
      rewrite sent_sent. cbn [flat_map]. rewrite <- app_assoc.
      destruct ps as [|p' ps']; [inversion Hrest|].
      cbn [follow_ups]. rewrite Hnext. reflexivity.
Qed.

(** A whole chain, from the first request on. *)
Lemma fetch_all_data_chain url params pages fuel st :
  let first := {| req_url := url; req_headers := HEADERS;
                  req_params := params |} in
  chain srv first pages ->
  Forall value_array_or_none pages ->
  (length pages <= S fuel)%nat ->
  fetch_all_data srv url params fuel st
  = (Ok (flat_map page_values pages), sent st (first :: follow_ups pages)).
Proof.
  intros first Hchain Hpages Hfuel. unfold fetch_all_data. fold first.
  inversion Hchain as [req p Hans Hlast | req p link ps Hans Hnext Hlink Hrest];
    subst; inversion Hpages as [|? ? Hp Hps]; subst.
  - rewrite (round_trip _ _ _ _ _ Hans).
    rewrite (page_items _ Hp), bind_lift_ok. cbn [iterate].
    rewrite bind_lift_ok. unfold get_default. rewrite bind_lift_ok.
    fold (next_of p). rewrite (fetch_pages_done _ _ _ _ Hlast).
    simpl. now rewrite app_nil_r.
  - rewrite (round_trip _ _ _ _ _ Hans).
    rewrite (page_items _ Hp), bind_lift_ok. cbn [iterate].
    rewrite bind_lift_ok. unfold get_default. rewrite bind_lift_ok, Hnext.
    cbn [from_option id].
    rewrite (fetch_pages_chain ps link _ fuel _ Hrest Hlink Hps)
      by (simpl in Hfuel; lia).
    rewrite sent_sent. cbn [flat_map app].
    destruct ps as [|p' ps']; [inversion Hrest|].
    cbn [follow_ups]. rewrite Hnext. reflexivity.
Qed.

End Fetcher.

(** C2: for a paginated response chain of any length in which every page
    carries a [value] array, [fetch_all_data] returns the concatenation of
    the arrays in request order, having sent the requests of the chain in
    that order; when the first response has no [nextLink], the result is
    the [value] array of that response alone. *)
Theorem fetch_all_data_concatenates
  (srv : server) (url : string) (params : list (string * string))
  (pages : list dict) (fuel : nat) (st : state) :
  let first := {| req_url := url; req_headers := HEADERS;
                  req_params := params |} in
  chain srv first pages ->
  Forall has_value_array pages ->
  (length pages <= S fuel)%nat ->
  fetch_all_data srv url params fuel st
  = (Ok (flat_map page_values pages), sent st (first :: follow_ups pages))
  /\ forall p rest,
       pages = p :: rest ->
       dict_get "nextLink" p = None ->
       fetch_all_data srv url params fuel st = (Ok (page_values p), sent st [first]).
Proof.
  intros first Hchain Hpages Hfuel.
  assert (Hall : fetch_all_data srv url params fuel st
                 = (Ok (flat_map page_values pages),
                    sent st (first :: follow_ups pages))).
  { apply fetch_all_data_chain; trivial.
    eapply Forall_impl; [exact Hpages|]. intros p Hp. now right. }
  split; [exact Hall|].
  intros p rest -> Hnone. rewrite Hall.
  inversion Hchain as [| ? ? link ? _ Hlink _ _]; subst.
  - simpl. now rewrite app_nil_r.
  - congruence.
Qed.

Lemma fetch_all_data_concatenates_witness :
  let first := {| req_url := BASE_URL_PRODUCT; req_headers := HEADERS;
                  req_params := PARAMS |} in
  chain Sample.lake first [Sample.page1; Sample.page2]
  /\ Forall has_value_array [Sample.page1; Sample.page2]
  /\ fetch_all_data Sample.lake BASE_URL_PRODUCT PARAMS 1 Sample.start
     = (Ok [JObj [("product_id", JInt 1)]; JObj [("product_id", JInt 2)];
            JObj [("product_id", JInt 3)]],
        sent Sample.start
          [first; follow "https://api.example/products?page=2"]).
Proof.
  intros first.
  assert (H1 : chain Sample.lake first [Sample.page1; Sample.page2]).
  { eapply chain_next; [exists 200; split; reflexivity | reflexivity | discriminate |].
    apply chain_last; [exists 200; split; reflexivity | reflexivity]. }
  assert (H2 : Forall has_value_array [Sample.page1; Sample.page2]).
  { repeat constructor; eexists; reflexivity. }
  split; [exact H1|]. split; [exact H2|].
  apply (fetch_all_data_concatenates Sample.lake BASE_URL_PRODUCT PARAMS
           [Sample.page1; Sample.page2] 1 Sample.start H1 H2).
  simpl. lia.
Defined.

(** ** The MRL lookup *)

Lemma is_applicable_iff mlr :
  is_applicable mlr = true
  <-> dict_get "applicability_text" mlr = Some (JStr "Applicable").
Proof.
  unfold is_applicable.
  destruct (dict_get "applicability_text" mlr) as [[| | | |s| |]|];
    try (split; [discriminate | intros H; inversion H]).
  split.
  - intros H. apply String.eqb_eq in H. now subst.
  - intros H. inversion H. apply String.eqb_refl.
Qed.

Lemma applicable_dicts entries :
  applicable (map JObj entries) = Ok (List.filter is_applicable entries).
Proof.
  induction entries as [|mlr entries IH]; [reflexivity|].
  simpl. rewrite IH. now destruct (is_applicable mlr).
Qed.

Lemma filter_sublist {A} (f : A -> bool) (l : list A) :
  sublist (List.filter f l) l.
Proof.
  induction l as [|x l IH]; [constructor|].
  simpl. destruct (f x); [now apply sublist_skip | now apply sublist_cons].
Qed.

(** C6: when the MRL endpoint answers with an object whose [value] is an
    array of records, [get_substance_mrl_EU] returns the records whose
    [applicability_text] is exactly Applicable, in response order (none,
    when no record qualifies). *)
Theorem get_substance_mrl_EU_filters
  (srv : server) (product_id substance_id : string) (p : dict)
  (entries : list dict) (st : state) :
  answers srv (mrl_request product_id substance_id) p ->
  dict_get "value" p = Some (JArr (map JObj entries)) ->
  get_substance_mrl_EU srv product_id substance_id st
  = (Ok (List.filter is_applicable entries),
     sent st [mrl_request product_id substance_id])
  /\ (forall mlr, is_applicable mlr = true
                  <-> dict_get "applicability_text" mlr = Some (JStr "Applicable"))
  /\ sublist (List.filter is_applicable entries) entries.
Proof.
  intros Hans Hvalue. split; [|split].
  - unfold get_substance_mrl_EU.
    change (dict_or PARAMS_PEST _)
      with (req_params (mrl_request product_id substance_id)).
    change {| req_url := BASE_URL_MRL; req_headers := HEADERS;
              req_params := req_params (mrl_request product_id substance_id) |}
      with (mrl_request product_id substance_id).
    rewrite (round_trip _ _ _ _ _ Hans).
    unfold get_default. rewrite Hvalue, bind_lift_ok. cbn [from_option id iterate].
    rewrite bind_lift_ok. unfold lift. now rewrite applicable_dicts.
  - apply is_applicable_iff.
  - apply filter_sublist.
Qed.

Lemma get_substance_mrl_EU_filters_witness :
  answers Sample.lake (mrl_request "11" "7") Sample.rules
  /\ get_substance_mrl_EU Sample.lake "11" "7" Sample.start
     = (Ok [[("mrl_value", JStr "0.01*"); ("applicability_text", JStr "Applicable")];
            [("mrl_value", JStr "0.02"); ("applicability_text", JStr "Applicable")]],
        sent Sample.start [mrl_request "11" "7"]).
Proof.
  assert (H : answers Sample.lake (mrl_request "11" "7") Sample.rules).
  { exists 200. split; reflexivity. }
  split; [exact H|].
  apply (get_substance_mrl_EU_filters Sample.lake "11" "7" Sample.rules
           [[("mrl_value", JStr "0.5"); ("applicability_text", JStr "Not applicable")];
            [("mrl_value", JStr "0.01*"); ("applicability_text", JStr "Applicable")];
            [("mrl_value", JStr "0.02"); ("applicability_text", JStr "Applicable")]]
           Sample.start H).
  reflexivity.
Defined.

(** C10: a response object without a [value] key makes
    [get_substance_mrl_EU] raise (iterating over [None] is a [TypeError]),
    whereas in [fetch_all_data] a page without the key adds no record and
    the fetch of the chain completes with the records of the other pages. *)
Theorem missing_value_key
  (srv : server) (product_id substance_id : string) (p : dict)
  (url : string) (params : list (string * string)) (pages : list dict)
  (q : dict) (fuel : nat) (st : state) :
  let first := {| req_url := url; req_headers := HEADERS;
                  req_params := params |} in
  answers srv (mrl_request product_id substance_id) p ->
  dict_get "value" p = None ->
  chain srv first pages ->
  Forall value_array_or_none pages ->
  In q pages ->
  dict_get "value" q = None ->
  (length pages <= S fuel)%nat ->
  get_substance_mrl_EU srv product_id substance_id st
  = (Raise TypeError, sent st [mrl_request product_id substance_id])
  /\ fetch_all_data srv url params fuel st
     = (Ok (flat_map page_values pages), sent st (first :: follow_ups pages))
  /\ page_values q = [].
Proof.
  intros first Hans Hnone Hchain Hpages Hin Hq Hfuel. split; [|split].
  - unfold get_substance_mrl_EU.
    change (dict_or PARAMS_PEST _)
      with (req_params (mrl_request product_id substance_id)).
    change {| req_url := BASE_URL_MRL; req_headers := HEADERS;
              req_params := req_params (mrl_request product_id substance_id) |}
      with (mrl_request product_id substance_id).
    rewrite (round_trip _ _ _ _ _ Hans).
    unfold get_default. rewrite Hnone, bind_lift_ok. reflexivity.
  - now apply fetch_all_data_chain.
  - unfold page_values. now rewrite Hq.
Qed.

Lemma missing_value_key_witness :
  answers Sample.lake (mrl_request "13" "7") Sample.bare
  /\ chain Sample.lake
       {| req_url := BASE_URL_PEST; req_headers := HEADERS;
          req_params := PARAMS_PEST |} [Sample.bare]
  /\ get_substance_mrl_EU Sample.lake "13" "7" Sample.start
     = (Raise TypeError, sent Sample.start [mrl_request "13" "7"])
  /\ fetch_all_data Sample.lake BASE_URL_PEST PARAMS_PEST 0 Sample.start
     = (Ok [],
        sent Sample.start
          [{| req_url := BASE_URL_PEST; req_headers := HEADERS;
              req_params := PARAMS_PEST |}]).
Proof.
  assert (H1 : answers Sample.lake (mrl_request "13" "7") Sample.bare).
  { exists 200. split; reflexivity. }
  assert (H2 : chain Sample.lake
                 {| req_url := BASE_URL_PEST; req_headers := HEADERS;
                    req_params := PARAMS_PEST |} [Sample.bare]).
  { apply chain_last; [exists 200; split; reflexivity | reflexivity]. }
  split; [exact H1|]. split; [exact H2|].
  assert (H3 : Forall value_array_or_none [Sample.bare]).
  { repeat constructor. }
  assert (H4 : (length [Sample.bare] <= 1)%nat) by (simpl; lia).
  pose proof (missing_value_key Sample.lake "13" "7" Sample.bare
                BASE_URL_PEST PARAMS_PEST [Sample.bare] Sample.bare 0
                Sample.start H1 eq_refl H2 H3 (or_introl eq_refl) eq_refl H4)
    as (Ha & Hb & _).
  split; [exact Ha | exact Hb].
Defined.

(** ** The compliance check *)

Example lookup_apple :
  fst (lookup Sample.lake PyStr.str "apple" "captan" Sample.cached)
  = Ok (inr [[("mrl_value", JStr "0.01*"); ("applicability_text", JStr "Applicable")];
             [("mrl_value", JStr "0.02"); ("applicability_text", JStr "Applicable")]]).
Proof. vm_compute. reflexivity. Qed.

Example check_below :
  verdict (snd (fetch_mrl_data Sample.lake PyNum.float_of_string PyStr.str
                  "apple" "captan" (Sample.measured "0.005") Sample.cached))
  = Some "CONFORME".
Proof. vm_compute. reflexivity. Qed.

Example check_equal :
  verdict (snd (fetch_mrl_data Sample.lake PyNum.float_of_string PyStr.str
                  "apple" "captan" (Sample.measured "0.01") Sample.cached))
  = Some "NON CONFORME".
Proof. vm_compute. reflexivity. Qed.

Example check_above :
  verdict (snd (fetch_mrl_data Sample.lake PyNum.float_of_string PyStr.str
                  "apple" "captan" (Sample.measured "0.02") Sample.cached))
  = Some "NON CONFORME".
Proof. vm_compute. reflexivity. Qed.

Example check_exempt :
  verdict (snd (fetch_mrl_data Sample.lake PyNum.float_of_string PyStr.str
                  "honey" "captan" (Sample.measured "1e9") Sample.cached))
  = Some "CONFORME".
Proof. vm_compute. reflexivity. Qed.

Example check_printed :
  stdout (snd (fetch_mrl_data Sample.lake PyNum.float_of_string PyStr.str
                 "cherries" "captan" (Sample.measured "0.005") Sample.cached))
  = ["MRL data found for product 'cherries' and substance 'captan'.";
     "Warning: Unable to convert MRL option 'abc' to float. Setting to 0.";
     "MRL options from EU database: abc";
     "MRL value from report: 0.005";
     String Re.newline rule;
     "COMPLIANCE RESULT:";
     rule;
     "NON CONFORME"].
Proof. vm_compute. reflexivity. Qed.

Section Compliance.

Variable srv : server.
Variable py_float : string -> option float.
Variable py_str : cell -> string.

Lemma threshold_exempt st :
  threshold py_float (JStr NO_MRL) st = (Ok float_zero, st).
Proof. reflexivity. Qed.

Lemma threshold_read ref value st :
  ref <> NO_MRL ->
  py_float (remove_char "*" ref) = Some value ->
  threshold py_float (JStr ref) st = (Ok value, st).
Proof.
  intros Hne Hval. unfold threshold.
  destruct (String.eqb_spec ref NO_MRL); [contradiction|].
  now rewrite Hval.
Qed.

Lemma threshold_unreadable ref st :
  ref <> NO_MRL ->
  py_float (remove_char "*" ref) = None ->
  threshold py_float (JStr ref) st = (Ok float_zero, printed st [warning ref]).
Proof.
  intros Hne Hval. unfold threshold.
  destruct (String.eqb_spec ref NO_MRL); [contradiction|].
  now rewrite Hval.
Qed.

Lemma equal_not_below x y : SFeqb x y = true -> float_lt x y = false.
Proof.
  unfold SFeqb, float_lt, SFltb.
  destruct (SFcompare x y) as [[| |]|]; congruence.
Qed.

(** What [report] prints for a first rule whose value is the string
    [ref]. *)
Lemma report_run product_name sub_name mrl m first rest ref st :
  dict_get "mrl_value" first = Some (JStr ref) ->
  to_float py_float mrl = Ok m ->
  exists warned value,
    threshold py_float (JStr ref) (printed st [found product_name sub_name])
    = (Ok value, printed st (found product_name sub_name :: warned))
    /\ (String.eqb ref NO_MRL = false -> value = limit_of py_float ref)
    /\ report py_float py_str product_name sub_name mrl (first :: rest) st
       = (Ok tt,
          printed st
            (found product_name sub_name :: warned ++ summary py_str ref mrl
             ++ [if String.eqb ref NO_MRL || float_lt m value
                 then "CONFORME" else "NON CONFORME"])).
Proof.
  intros Hfirst Hm.
  assert (Hthr : exists warned value,
             threshold py_float (JStr ref)
               (printed st [found product_name sub_name])
             = (Ok value, printed st (found product_name sub_name :: warned))
             /\ (String.eqb ref NO_MRL = false -> value = limit_of py_float ref)).
  { destruct (String.eqb_spec ref NO_MRL) as [->|Hne].
    - exists [], float_zero. split; [reflexivity | discriminate].
    - destruct (py_float (remove_char "*" ref)) as [value|] eqn:Hval.
      + exists [], value. split.
        * now apply threshold_read.
        * intros _. unfold limit_of. now rewrite Hval.
      + exists [warning ref], float_zero. split.
        * rewrite threshold_unreadable by assumption.
          now rewrite printed_printed.
        * intros _. unfold limit_of. now rewrite Hval. }
  destruct Hthr as (warned & value & Hthr & Hlimit).
  exists warned, value. split; [exact Hthr|]. split; [exact Hlimit|].
  unfold report. rewrite print_run, Hfirst. cbn [from_option id].
  rewrite (bind_ok _ _ _ _ _ Hthr).
  rewrite !print_run, !printed_printed. rewrite Hm, bind_lift_ok.
  rewrite !print_run, !printed_printed. cbn [text_of is_no_mrl].
  unfold print. f_equal. unfold printed, summary. cbn [stdout files requests
    next_handle open_docs]. rewrite <- !app_assoc. reflexivity.
Qed.

(** C1: once the names are resolved and the lookup has returned rules,
    the first of which carries the reference value [ref], the check runs
    to its end and prints a verdict: CONFORME exactly when [ref] is the
    literal No MRL required or the measured value is strictly below the
    threshold read from [ref], NON CONFORME in every other case, equality
    with the threshold included.  The measured value is any value [mrl]
    that [float] accepts, [m] being the float it yields. *)
Theorem verdict_rule
  (product_name sub_name : string) (mrl : json) (m : float) (first : dict)
  (rest : list dict) (ref : string) (st st1 : state) :
  lookup srv py_str product_name sub_name st = (Ok (inr (first :: rest)), st1) ->
  dict_get "mrl_value" first = Some (JStr ref) ->
  to_float py_float mrl = Ok m ->
  exists st2 line,
    fetch_mrl_data srv py_float py_str product_name sub_name mrl st
    = (Ok None, st2)
    /\ verdict st2 = Some line
    /\ (line = "CONFORME" \/ line = "NON CONFORME")
    /\ (line = "CONFORME"
        <-> ref = NO_MRL \/ float_lt m (limit_of py_float ref) = true)
    /\ (ref <> NO_MRL ->
        SFeqb m (limit_of py_float ref) = true -> line = "NON CONFORME").
Proof.
  intros Hlookup Hfirst Hm.
  destruct (report_run product_name sub_name mrl m first rest ref st1 Hfirst Hm)
    as (warned & value & _ & Hlimit & Hrun).
  eexists. exists (if String.eqb ref NO_MRL || float_lt m value
                   then "CONFORME" else "NON CONFORME").
  split; [|split; [|split; [|split]]].
  - unfold fetch_mrl_data. rewrite (bind_ok _ _ _ _ _ Hlookup).
    rewrite (bind_ok _ _ _ _ _ Hrun). reflexivity.
  - unfold verdict, printed. cbn [stdout].
    rewrite (app_assoc warned), app_comm_cons, app_assoc. apply last_snoc.
  - destruct (String.eqb ref NO_MRL || float_lt m value); auto.
  - destruct (String.eqb_spec ref NO_MRL) as [->|Hne].
    + cbn [orb]. split; auto.
    + rewrite (Hlimit eq_refl). cbn [orb].
      destruct (float_lt m (limit_of py_float ref)).
      * split; auto.
      * split; [discriminate|]. intros [H|H]; [contradiction|discriminate].
  - intros Hne Heq.
    destruct (String.eqb_spec ref NO_MRL) as [->|_]; [contradiction|].
    rewrite (Hlimit eq_refl). cbn [orb].
    now rewrite (equal_not_below _ _ Heq).
Qed.

Lemma positive_not_below_zero x :
  float_lt float_zero x = true -> float_lt x float_zero = false.
Proof.
  unfold float_lt, float_zero, SFltb.
  destruct x as [s|s| |s m e]; try destruct s; cbn; congruence.
Qed.

(** C4: a reference value other than No MRL required that [float]
    refuses once the markers are removed is worth the threshold 0 and
    costs one warning line; with it, every strictly positive measured
    value ([mrl], which [float] reads as [m]) is NON CONFORME, and the
    check changes nothing but the printed lines. *)
Theorem unreadable_reference
  (product_name sub_name : string) (mrl : json) (m : float) (first : dict)
  (rest : list dict) (ref : string) (st st1 : state) :
  lookup srv py_str product_name sub_name st = (Ok (inr (first :: rest)), st1) ->
  dict_get "mrl_value" first = Some (JStr ref) ->
  ref <> NO_MRL ->
  py_float (remove_char "*" ref) = None ->
  to_float py_float mrl = Ok m ->
  float_lt float_zero m = true ->
  (forall s, threshold py_float (JStr ref) s
             = (Ok float_zero, printed s [warning ref]))
  /\ fetch_mrl_data srv py_float py_str product_name sub_name mrl st
     = (Ok None,
        printed st1
          (found product_name sub_name :: warning ref
           :: summary py_str ref mrl ++ ["NON CONFORME"])).
Proof.
  intros Hlookup Hfirst Hne Hval Hm Hpos. split.
  - intros s. now apply threshold_unreadable.
  - assert (Hrun : report py_float py_str product_name sub_name mrl
                     (first :: rest) st1
                   = (Ok tt,
                      printed st1
                        (found product_name sub_name :: warning ref
                         :: summary py_str ref mrl ++ ["NON CONFORME"]))).
    { unfold report. rewrite print_run, Hfirst. cbn [from_option id].
      rewrite (bind_ok _ _ _ _ _ (threshold_unreadable ref _ Hne Hval)).
      rewrite !print_run, !printed_printed. rewrite Hm, bind_lift_ok.
      rewrite !print_run, !printed_printed. cbn [text_of is_no_mrl].
      destruct (String.eqb_spec ref NO_MRL); [contradiction|].
      rewrite (positive_not_below_zero _ Hpos). cbn [orb].
      unfold print, printed, summary. cbn [stdout files requests
        next_handle open_docs app]. rewrite <- !app_assoc. reflexivity. }
    unfold fetch_mrl_data. rewrite (bind_ok _ _ _ _ _ Hlookup).
    now rewrite (bind_ok _ _ _ _ _ Hrun).
Qed.

End Compliance.

Lemma verdict_rule_witness :
  lookup Sample.lake PyStr.str "apple" "captan" Sample.cached
  = (Ok (inr [[("mrl_value", JStr "0.01*"); ("applicability_text", JStr "Applicable")];
              [("mrl_value", JStr "0.02"); ("applicability_text", JStr "Applicable")]]),
     sent Sample.cached [mrl_request "11" "7"])
  /\ exists st2 line,
       fetch_mrl_data Sample.lake PyNum.float_of_string PyStr.str
         "apple" "captan" (Sample.measured "0.005") Sample.cached
       = (Ok None, st2)
       /\ verdict st2 = Some line
       /\ (line = "CONFORME" \/ line = "NON CONFORME")
       /\ (line = "CONFORME"
           <-> "0.01*" = NO_MRL
               \/ float_lt (S754_finite false 5764607523034235 (-60))
                    (limit_of PyNum.float_of_string "0.01*") = true)
       /\ ("0.01*" <> NO_MRL ->
           SFeqb (S754_finite false 5764607523034235 (-60))
             (limit_of PyNum.float_of_string "0.01*") = true ->
           line = "NON CONFORME").
Proof.
  assert (H : lookup Sample.lake PyStr.str "apple" "captan" Sample.cached
              = (Ok (inr [[("mrl_value", JStr "0.01*");
                           ("applicability_text", JStr "Applicable")];
                          [("mrl_value", JStr "0.02");
                           ("applicability_text", JStr "Applicable")]]),
                 sent Sample.cached [mrl_request "11" "7"])).
  { vm_compute. reflexivity. }
  split; [exact H|].
  exact (verdict_rule Sample.lake PyNum.float_of_string PyStr.str
           "apple" "captan" (Sample.measured "0.005") _ _ _ "0.01*"
           Sample.cached _ H eq_refl eq_refl).
Defined.

Lemma unreadable_reference_witness :
  lookup Sample.lake PyStr.str "cherries" "captan" Sample.cached
  = (Ok (inr [[("mrl_value", JStr "abc"); ("applicability_text", JStr "Applicable")]]),
     sent Sample.cached [mrl_request "14" "7"])
  /\ PyNum.float_of_string (remove_char "*" "abc") = None
  /\ to_float PyNum.float_of_string (Sample.measured "0.005")
     = Ok (S754_finite false 5764607523034235 (-60))
  /\ fetch_mrl_data Sample.lake PyNum.float_of_string PyStr.str
       "cherries" "captan" (Sample.measured "0.005") Sample.cached
     = (Ok None,
        printed (sent Sample.cached [mrl_request "14" "7"])
          (found "cherries" "captan" :: warning "abc"
           :: summary PyStr.str "abc" (Sample.measured "0.005")
           ++ ["NON CONFORME"])).
Proof.
  assert (H : lookup Sample.lake PyStr.str "cherries" "captan" Sample.cached
              = (Ok (inr [[("mrl_value", JStr "abc");
                           ("applicability_text", JStr "Applicable")]]),
                 sent Sample.cached [mrl_request "14" "7"])).
  { vm_compute. reflexivity. }
  assert (Hne : "abc" <> NO_MRL) by discriminate.
  assert (Hval : PyNum.float_of_string (remove_char "*" "abc") = None)
    by reflexivity.
  assert (Hm : to_float PyNum.float_of_string (Sample.measured "0.005")
               = Ok (S754_finite false 5764607523034235 (-60)))
    by reflexivity.
  assert (Hpos : float_lt float_zero (S754_finite false 5764607523034235 (-60))
                 = true)
    by reflexivity.
  split; [exact H|]. split; [exact Hval|]. split; [exact Hm|].
  exact (proj2 (unreadable_reference Sample.lake PyNum.float_of_string PyStr.str
                  "cherries" "captan" (Sample.measured "0.005") _ _ _ "abc"
                  Sample.cached _ H eq_refl Hne Hval Hm Hpos)).
Defined.

(** ** Name resolution *)

(** C3: the product named exactly as a row of the cache is reported as
    not found.  The first row whose name contains the query Beans (with
    pods) is the second one, yet [str.contains] reads the query as a
    regular expression, in which the parentheses form a group, and no
    row matches. *)
Theorem name_with_parentheses_not_found :
  List.find (fun r => cell_icontains "Beans (with pods)" (nth 2 r NaN))
    (rows Sample.products)
  = Some [Val (JInt 12); Val (JInt 0); Val (JStr "Beans (with pods)")]
  /\ fetch_mrl_data Sample.lake PyNum.float_of_string PyStr.str
       "Beans (with pods)" "captan" (Sample.measured "0.005") Sample.cached
     = (Ok (Some [("error", "Product 'Beans (with pods)' not found in EU database.")]),
        Sample.cached).
Proof. split; vm_compute; reflexivity. Qed.

(** C5: for a product name that no row of the cache contains, here one
    with an opening parenthesis, the check raises the error of the
    regular expression compiler instead of returning the not-found value. *)
Theorem absent_name_raises :
  forallb (fun r => negb (cell_icontains "Kiwi (green" (nth 2 r NaN)))
    (rows Sample.products) = true
  /\ fetch_mrl_data Sample.lake PyNum.float_of_string PyStr.str
       "Kiwi (green" "captan" (Sample.measured "0.005") Sample.cached
     = (Raise ReError, Sample.cached).
Proof. split; vm_compute; reflexivity. Qed.

Example check_integer_value :
  verdict (snd (fetch_mrl_data Sample.lake PyNum.float_of_string PyStr.str
                  "apple" "captan" (JInt 0) Sample.cached))
  = Some "CONFORME".
Proof. vm_compute. reflexivity. Qed.

Example check_text_value :
  fst (fetch_mrl_data Sample.lake PyNum.float_of_string PyStr.str
         "apple" "captan" (JStr "Not found") Sample.cached)
  = Raise ValueError.
Proof. vm_compute. reflexivity. Qed.

(** ** Base64 *)

#[local] Ltac Zify.zify_post_hook ::= Z.to_euclidean_division_equations.

Lemma list_ind3 {A} (P : list A -> Prop) :
  P [] -> (forall a, P [a]) -> (forall a b, P [a; b]) ->
  (forall a b c l, P l -> P (a :: b :: c :: l)) ->
  forall l, P l.
Proof.
  intros H0 H1 H2 H3. fix IH 1.
  intros [|a [|b [|c l]]]; [apply H0 | apply H1 | apply H2 | apply H3, IH].
Qed.

Lemma sextets_ok : forallb sextet_ok (map N.of_nat (seq 0 64)) = true.
Proof. vm_compute. reflexivity. Qed.

Lemma sextet_sound s :
  (s < 64)%N ->
  Base64.dec_char (Base64.enc_char s) = Some s
  /\ Byte.eqb (Base64.enc_char s) Base64.pad = false
  /\ Base64.is_ascii (Base64.enc_char s) = true.
Proof.
  intros Hs.
  assert (Hin : In s (map N.of_nat (seq 0 64))).
  { apply in_map_iff. exists (N.to_nat s). split; [lia|].
    apply in_seq. lia. }
  pose proof (proj1 (forallb_forall _ _) sextets_ok s Hin) as Hok.
  unfold sextet_ok in Hok.
  apply andb_prop in Hok as [Hok Hascii]. apply andb_prop in Hok as [Hdec Hpad].
  split; [|split].
  - destruct (Base64.dec_char (Base64.enc_char s)) as [s'|]; [|discriminate].
    apply N.eqb_eq in Hdec. now subst.
  - now apply negb_true_iff in Hpad.
  - exact Hascii.
Qed.

Lemma byte_of_to_N b : Base64.byte_of (Byte.to_N b) = b.
Proof. unfold Base64.byte_of. now rewrite Byte.of_to_N. Qed.

Lemma pad_is_pad : Byte.eqb Base64.pad Base64.pad = true.
Proof. reflexivity. Qed.

Ltac sextet s :=
  let H := fresh "H" in
  let Hd := fresh "Hdec" in
  let Hp := fresh "Hpad" in
  let Ha := fresh "Hascii" in
  assert (H : (s < 64)%N) by lia;
  destruct (sextet_sound s H) as (Hd & Hp & Ha);
  clear H.

Ltac byte_is b :=
  etransitivity; [|apply (byte_of_to_N b)]; f_equal; lia.

(** Decoding undoes encoding. *)
Lemma b64decode_b64encode data :
  Base64.b64decode (Base64.b64encode data) = Some data.
Proof.
  induction data as [|a|a b|a b c rest IH] using list_ind3.
  - reflexivity.
  - pose proof (Byte.to_N_bounded a) as Ha.
    cbn [Base64.b64encode].
    remember (Byte.to_N a * 65536)%N as n eqn:Hn.
    sextet (n / 262144)%N. sextet (n / 4096 mod 64)%N.
    cbn [Base64.b64decode]. rewrite Hdec, Hdec0, pad_is_pad.
    do 2 f_equal. byte_is a.
  - pose proof (Byte.to_N_bounded a) as Ha.
    pose proof (Byte.to_N_bounded b) as Hb.
    cbn [Base64.b64encode].
    remember (Byte.to_N a * 65536 + Byte.to_N b * 256)%N as n eqn:Hn.
    sextet (n / 262144)%N. sextet (n / 4096 mod 64)%N. sextet (n / 64 mod 64)%N.
    cbn [Base64.b64decode]. rewrite Hdec, Hdec0, pad_is_pad, Hpad1, Hdec1.
    do 2 f_equal; [|f_equal].
    + byte_is a.
    + byte_is b.
  - pose proof (Byte.to_N_bounded a) as Ha.
    pose proof (Byte.to_N_bounded b) as Hb.
    pose proof (Byte.to_N_bounded c) as Hc.
    cbn [Base64.b64encode].
    remember (Byte.to_N a * 65536 + Byte.to_N b * 256 + Byte.to_N c)%N as n eqn:Hn.
    sextet (n / 262144)%N. sextet (n / 4096 mod 64)%N. sextet (n / 64 mod 64)%N.
    sextet (n mod 64)%N.
    cbn [Base64.b64decode]. rewrite Hdec, Hdec0, Hpad2, Hdec1, Hdec2, IH.
    do 2 f_equal; [|f_equal; [|f_equal]].
    + byte_is a.
    + byte_is b.
    + byte_is c.
Qed.

(** The encoder only writes ASCII. *)
Lemma b64encode_ascii data :
  forallb Base64.is_ascii (Base64.b64encode data) = true.
Proof.
  induction data as [|a|a b|a b c rest IH] using list_ind3.
  - reflexivity.
  - pose proof (Byte.to_N_bounded a) as Ha.
    cbn [Base64.b64encode].
    remember (Byte.to_N a * 65536)%N as n eqn:Hn.
    sextet (n / 262144)%N. sextet (n / 4096 mod 64)%N.
    cbn [forallb]. now rewrite Hascii, Hascii0.
  - pose proof (Byte.to_N_bounded a) as Ha.
    pose proof (Byte.to_N_bounded b) as Hb.
    cbn [Base64.b64encode].
    remember (Byte.to_N a * 65536 + Byte.to_N b * 256)%N as n eqn:Hn.
    sextet (n / 262144)%N. sextet (n / 4096 mod 64)%N. sextet (n / 64 mod 64)%N.
    cbn [forallb]. now rewrite Hascii, Hascii0, Hascii1.
  - pose proof (Byte.to_N_bounded a) as Ha.
    pose proof (Byte.to_N_bounded b) as Hb.
    pose proof (Byte.to_N_bounded c) as Hc.
    cbn [Base64.b64encode].
    remember (Byte.to_N a * 65536 + Byte.to_N b * 256 + Byte.to_N c)%N as n eqn:Hn.
    sextet (n / 262144)%N. sextet (n / 4096 mod 64)%N. sextet (n / 64 mod 64)%N.
    sextet (n mod 64)%N.
    cbn [forallb]. now rewrite Hascii, Hascii0, Hascii1, Hascii2, IH.
Qed.

Example base64_of_png_a : base64_text Sample.png_a = "iVBORw0KAQ==".
Proof. reflexivity. Qed.

Example base64_of_png_b : base64_text Sample.png_b = "iVBORw0K".
Proof. reflexivity. Qed.

Example base64_of_two_bytes : base64_text ["255"; "254"]%byte = "//4=".
Proof. reflexivity. Qed.

Lemma decode_utf8_b64encode data :
  Base64.decode_utf8 (Base64.b64encode data) = Ok (base64_text data).
Proof. unfold Base64.decode_utf8. now rewrite b64encode_ascii. Qed.

Lemma base64_text_decodes data :
  Base64.b64decode (list_byte_of_string (base64_text data)) = Some data.
Proof.
  unfold base64_text. rewrite list_byte_of_string_of_list_byte.
  apply b64decode_b64encode.
Qed.

(** ** The report imager *)

Section Imager.

Variable pdfs : Fitz.disk.

(** The loop over the pages from number [i] on, when they all render. *)
Lemma render_pages_all doc pages :
  forall pngs i images st,
    drop i (Fitz.doc_pages doc) = pages ->
    Forall2 renders pages pngs ->
    render_pages doc (seq i (length pages)) images st
    = (Ok (images ++ map base64_text pngs),
       printed st
         (map (page_done (length (Fitz.doc_pages doc)))
            (seq i (length pages)))).
Proof.
  induction pages as [|page pages IH]; intros pngs i images st Hdrop Hall.
  - inversion Hall; subst. simpl. now rewrite app_nil_r, printed_nil.
  - inversion Hall as [|? png ? pngs' (pix & Hpix & Hpng) Hrest]; subst.
    assert (Hpage : Fitz.doc_pages doc !! i = Some page).
    { pose proof (lookup_drop (Fitz.doc_pages doc) i 0) as H.
      rewrite Hdrop, Nat.add_0_r in H. now symmetry. }
    assert (Hnext : drop (S i) (Fitz.doc_pages doc) = pages).
    { rewrite (drop_S _ _ _ Hpage) in Hdrop. now inversion Hdrop. }
    cbn [length seq render_pages].
    unfold Fitz.load_page. rewrite Hpage, bind_ret.
    rewrite Hpix, bind_lift_ok, Hpng, bind_lift_ok.
    rewrite decode_utf8_b64encode, bind_lift_ok, print_run.
    rewrite (IH pngs' (S i) _ _ Hnext Hrest).
    rewrite printed_printed. cbn [map app]. rewrite <- app_assoc. reflexivity.
Qed.

(** The loop stops at the first page that does not render; the pages
    before it have been reported. *)
Lemma render_pages_stop doc before :
  forall pngs i images st bad after e,
    drop i (Fitz.doc_pages doc) = before ++ bad :: after ->
    Forall2 renders before pngs ->
    Fitz.get_pixmap bad (2, 2) = Raise e ->
    render_pages doc (seq i (length (before ++ bad :: after))) images st
    = (Raise e,
       printed st
         (map (page_done (length (Fitz.doc_pages doc)))
            (seq i (length before)))).
Proof.
  induction before as [|page before IH];
    intros pngs i images st bad after e Hdrop Hall Hbad.
  - assert (Hpage : Fitz.doc_pages doc !! i = Some bad).
    { pose proof (lookup_drop (Fitz.doc_pages doc) i 0) as H.
      rewrite Hdrop, Nat.add_0_r in H. now symmetry. }
    cbn [app length seq render_pages].
    unfold Fitz.load_page. rewrite Hpage, bind_ret.
    unfold bind, lift. rewrite Hbad. cbn [map]. now rewrite printed_nil.
  - inversion Hall as [|? png ? pngs' (pix & Hpix & Hpng) Hrest]; subst.
    assert (Hpage : Fitz.doc_pages doc !! i = Some page).
    { pose proof (lookup_drop (Fitz.doc_pages doc) i 0) as H.
      rewrite Hdrop, Nat.add_0_r in H. now symmetry. }
    assert (Hnext : drop (S i) (Fitz.doc_pages doc) = before ++ bad :: after).
    { rewrite (drop_S _ _ _ Hpage) in Hdrop. simpl in Hdrop.
      now injection Hdrop. }
    cbn [app length seq render_pages].
    unfold Fitz.load_page. rewrite Hpage, bind_ret.
    rewrite Hpix, bind_lift_ok, Hpng, bind_lift_ok.
    rewrite decode_utf8_b64encode, bind_lift_ok, print_run.
    rewrite (IH pngs' (S i) _ _ bad after e Hnext Hrest Hbad).
    rewrite printed_printed. reflexivity.
Qed.

(** A page that does not render leaves the document open: the exception
    leaves the function before [doc.close()]. *)
Lemma failed_render_leaves_open pdf_path before bad after pngs e st :
  pdfs pdf_path = Some (before ++ bad :: after) ->
  Forall2 renders before pngs ->
  Fitz.get_pixmap bad (2, 2) = Raise e ->
  fst (pdf_to_base64_images pdfs pdf_path st) = Raise e
  /\ next_handle st ∈ open_docs (snd (pdf_to_base64_images pdfs pdf_path st)).
Proof.
  intros Hopen Hall Hbad.
  assert (Hrun : exists lines,
             pdf_to_base64_images pdfs pdf_path st
             = (Raise e,
                {| files := files st; stdout := stdout st ++ lines;
                   requests := requests st;
                   next_handle := S (next_handle st);
                   open_docs := {[next_handle st]} ∪ open_docs st |})).
  { eexists. unfold pdf_to_base64_images.
    unfold bind at 1, Fitz.fitz_open. rewrite Hopen.
    cbn [Fitz.doc_pages]. rewrite print_run.
    match goal with
    | |- context [render_pages ?doc ?nums ?images] =>
        rewrite (bind_raise _ _ _ _ _
                   (render_pages_stop doc before pngs O images _ bad after e
                      eq_refl Hall Hbad))
    end.
    rewrite printed_printed. reflexivity. }
  destruct Hrun as [lines ->]. split; [reflexivity|].
  cbn [snd open_docs]. set_solver.
Qed.

(** What a run over a document whose pages all render returns, and the
    state it leaves. *)
Lemma pdf_to_base64_images_run pdf_path pages pngs st :
  pdfs pdf_path = Some pages ->
  Forall2 renders pages pngs ->
  pdf_to_base64_images pdfs pdf_path st
  = (Ok (map base64_text pngs),
     {| files := files st;
        stdout := stdout st
                  ++ ("Converting " +:+ pretty (length pages)
                      +:+ " page(s) in base64 images...")
                  :: map (page_done (length pages)) (seq 0 (length pages));
        requests := requests st;
        next_handle := S (next_handle st);
        open_docs := ({[next_handle st]} ∪ open_docs st)
                     ∖ {[next_handle st]} |}).
Proof.
  intros Hopen Hall. unfold pdf_to_base64_images.
  unfold bind at 1, Fitz.fitz_open. rewrite Hopen.
  cbn [Fitz.doc_pages]. rewrite print_run.
  erewrite bind_ok; [|apply render_pages_all; [reflexivity | exact Hall]].
  rewrite printed_printed. unfold bind, Fitz.close, printed, ret.
  cbn [files stdout requests next_handle open_docs Fitz.doc_id app].
  reflexivity.
Qed.

(** C9, amended: for an N-page PDF that opens and whose pages all render
    at the 2x scale and encode as PNG, [pdf_to_base64_images] returns N
    strings, one per page in page order, each the base64 text that
    decodes to the PNG bytes of its page; the document is closed again. *)
Theorem pages_to_base64
  (pdf_path : string) (pages : Fitz.document) (pngs : list (list byte))
  (st : state) :
  pdfs pdf_path = Some pages ->
  Forall2 renders pages pngs ->
  exists images st',
    pdf_to_base64_images pdfs pdf_path st = (Ok images, st')
    /\ length images = length pages
    /\ Forall2 (fun image png =>
                  Base64.b64decode (list_byte_of_string image) = Some png)
         images pngs
    /\ next_handle st ∉ open_docs st'.
Proof.
  intros Hopen Hall.
  eexists. eexists. split; [apply (pdf_to_base64_images_run _ _ _ _ Hopen Hall)|].
  split; [|split].
  - rewrite length_map. symmetry. eapply Forall2_length, Hall.
  - clear Hall Hopen. induction pngs as [|png pngs IH]; constructor.
    + apply base64_text_decodes.
    + exact IH.
  - cbn [open_docs]. set_solver.
Qed.

End Imager.

Lemma pages_to_base64_witness :
  Sample.shelf "report.pdf"
  = Some [Sample.sound_page Sample.png_a; Sample.sound_page Sample.png_b]
  /\ Forall2 renders
       [Sample.sound_page Sample.png_a; Sample.sound_page Sample.png_b]
       [Sample.png_a; Sample.png_b]
  /\ exists images st',
       pdf_to_base64_images Sample.shelf "report.pdf" Sample.start
       = (Ok images, st')
       /\ length images = 2%nat
       /\ Forall2 (fun image png =>
                     Base64.b64decode (list_byte_of_string image) = Some png)
            images [Sample.png_a; Sample.png_b]
       /\ O ∉ open_docs st'.
Proof.
  assert (H : Forall2 renders
                [Sample.sound_page Sample.png_a; Sample.sound_page Sample.png_b]
                [Sample.png_a; Sample.png_b]).
  { repeat constructor; eexists; split; reflexivity. }
  split; [reflexivity|]. split; [exact H|].
  exact (pages_to_base64 Sample.shelf "report.pdf" _ _ Sample.start eq_refl H).
Defined.

Example report_images :
  fst (pdf_to_base64_images Sample.shelf "report.pdf" Sample.start)
  = Ok ["iVBORw0KAQ=="; "iVBORw0K"].
Proof. reflexivity. Qed.

(** C9 as stated fails: a two-page PDF that opens, but whose second page
    the renderer gives up on, yields no list of strings at all. *)
Lemma torn_page_no_images :
  Sample.shelf "torn.pdf" = Some [Sample.sound_page Sample.png_a; Sample.torn_page]
  /\ ~ exists images st',
        pdf_to_base64_images Sample.shelf "torn.pdf" Sample.start
        = (Ok images, st').
Proof.
  split; [reflexivity|].
  intros (images & st' & H). vm_compute in H. discriminate.
Qed.

(** C8: when the rendering of a page raises, the document is still open
    once [pdf_to_base64_images] has been left: [doc.close()] is only
    reached at the end of the loop. *)
Theorem handle_left_open_on_error :
  fst (pdf_to_base64_images Sample.shelf "torn.pdf" Sample.start)
  = Raise RuntimeError
  /\ O ∈ open_docs (snd (pdf_to_base64_images Sample.shelf "torn.pdf" Sample.start))
  /\ O ∉ open_docs (snd (pdf_to_base64_images Sample.shelf "report.pdf" Sample.start)).
Proof.
  split; [reflexivity|]. split.
  - cbn. set_solver.
  - cbn. set_solver.
Qed.

(** ** The reference data builder *)

Lemma keeps_files_bind {A B} (m : M A) (k : A -> M B) :
  keeps_files m -> (forall a, keeps_files (k a)) -> keeps_files (bind m k).
Proof.
  intros Hm Hk st. unfold bind. specialize (Hm st).
  destruct (m st) as [[a| | |] st']; simpl in *; try exact Hm.
  now rewrite Hk.
Qed.

Lemma keeps_files_lift {A} (r : result A) : keeps_files (lift r).
Proof. intros st. reflexivity. Qed.

Lemma keeps_files_ret {A} (a : A) : keeps_files (ret a).
Proof. intros st. reflexivity. Qed.

Lemma keeps_files_client_get srv req : keeps_files (client_get srv req).
Proof. intros st. unfold client_get. now destruct (srv req). Qed.

Lemma keeps_files_page srv req {B} (k : json -> M B) :
  (forall payload, keeps_files (k payload)) ->
  keeps_files
    (bind (client_get srv req)
       (fun resp => bind (raise_for_status resp)
                      (fun _ => bind (resp_json resp) k))).
Proof.
  intros Hk. apply keeps_files_bind; [apply keeps_files_client_get|].
  intros resp. apply keeps_files_bind.
  - unfold raise_for_status. destruct (is_success _); intros st; reflexivity.
  - intros _. apply keeps_files_bind; [|exact Hk].
    unfold resp_json. destruct (body resp); intros st; reflexivity.
Qed.

Lemma keeps_files_fetch_pages srv fuel :
  forall next acc, keeps_files (fetch_pages srv fuel next acc).
Proof.
  induction fuel as [|fuel IH]; intros next acc.
  - simpl. destruct (truthy next); intros st; reflexivity.
  - cbn [fetch_pages]. destruct (truthy next); [|apply keeps_files_ret].
    apply keeps_files_bind.
    { unfold as_url. destruct next; intros st; reflexivity. }
    intros url. apply keeps_files_page. intros payload.
    apply keeps_files_bind; [apply keeps_files_lift|]. intros value.
    apply keeps_files_bind; [apply keeps_files_lift|]. intros items.
    apply keeps_files_bind; [apply keeps_files_lift|]. intros next'.
    apply IH.
Qed.

Lemma keeps_files_fetch_all_data srv url params fuel :
  keeps_files (fetch_all_data srv url params fuel).
Proof.
  unfold fetch_all_data. apply keeps_files_page. intros payload.
  apply keeps_files_bind; [apply keeps_files_lift|]. intros value.
  apply keeps_files_bind; [apply keeps_files_lift|]. intros items.
  apply keeps_files_bind; [apply keeps_files_lift|]. intros next.
  apply keeps_files_fetch_pages.
Qed.

Lemma index_of_In name cols :
  In name cols -> exists i, Pandas.index_of name cols = Some i.
Proof.
  induction cols as [|c cols IH]; [intros []|].
  intros Hin. simpl. destruct (String.eqb_spec c name) as [->|Hne].
  - now exists O.
  - destruct Hin as [->|Hin]; [contradiction|].
    destruct (IH Hin) as [i Hi]. exists (S i). now rewrite Hi.
Qed.

Lemma dict_keys_covers key d :
  forall seen,
    dict_get key d <> None -> In key seen \/ In key (dict_keys seen d).
Proof.
  induction d as [|[k v] d IH]; intros seen Hget; [now contradiction Hget|].
  simpl in *. destruct (String.eqb_spec k key) as [->|Hne].
  - destruct (existsb (String.eqb key) seen) eqn:Hseen.
    + left. apply existsb_exists in Hseen as (x & Hx & Heq).
      apply String.eqb_eq in Heq. now subst.
    + right. now left.
  - destruct (existsb (String.eqb k) seen).
    + now apply IH.
    + destruct (IH (k :: seen) Hget) as [[Heq|Hin]|Hin].
      * contradiction.
      * now left.
      * right. now right.
Qed.

Lemma columns_grow key ds :
  forall cols,
    In key cols ->
    In key (fold_left (fun cols d => cols ++ dict_keys cols d) ds cols).
Proof.
  induction ds as [|d ds IH]; intros cols Hin; [exact Hin|].
  simpl. apply IH. apply in_or_app. now left.
Qed.

Lemma columns_cover key d ds :
  forall cols,
    In d ds ->
    dict_get key d <> None ->
    In key (fold_left (fun cols d => cols ++ dict_keys cols d) ds cols).
Proof.
  induction ds as [|d' ds IH]; intros cols Hin Hget; [destruct Hin|].
  simpl. destruct Hin as [->|Hin].
  - apply columns_grow. apply in_or_app.
    destruct (dict_keys_covers key d cols Hget); auto.
  - now apply IH.
Qed.

Lemma nth_row_of key cols d :
  forall i,
    Pandas.index_of key cols = Some i ->
    nth i (Pandas.row_of cols d) NaN
    = match dict_get key d with
      | Some v => Val v
      | None => NaN
      end.
Proof.
  induction cols as [|c cols IH]; intros i Hi; [discriminate|].
  simpl in Hi. destruct (String.eqb_spec c key) as [->|Hne].
  - inversion Hi; subst. reflexivity.
  - destruct (Pandas.index_of key cols) as [j|]; [|discriminate].
    inversion Hi; subst. simpl. now apply IH.
Qed.

Lemma astype_int_fillna col ids :
  Forall2 (fun c z => coerce c = Ok z) col ids ->
  Pandas.astype_int (Pandas.fillna (JInt 0) col)
  = Ok (map (fun z => Val (JInt z)) ids).
Proof.
  induction 1 as [|c z col ids Hc _ IH]; [reflexivity|].
  cbn [Pandas.fillna map Pandas.astype_int].
  unfold Pandas.fillna in IH. rewrite IH.
  unfold coerce in Hc. destruct (Pandas.is_na c).
  - inversion Hc; subst. reflexivity.
  - now rewrite Hc.
Qed.

Lemma parent_column cols i ds ids :
  Pandas.index_of PARENT cols = Some i ->
  Forall2 (fun d z => coerce (parent_cell d) = Ok z) ds ids ->
  Forall2 (fun c z => coerce c = Ok z)
    (map (fun d => nth i (Pandas.row_of cols d) NaN) ds) ids.
Proof.
  intros Hi. induction 1 as [|d z ds ids Hd _ IH]; constructor.
  - rewrite (nth_row_of PARENT _ _ _ Hi). exact Hd.
  - exact IH.
Qed.

Lemma as_dicts_records ds : Pandas.as_dicts (map JObj ds) = Some ds.
Proof. induction ds as [|d ds IH]; [reflexivity|]. simpl. now rewrite IH. Qed.

Lemma as_dicts_inv records ds :
  Pandas.as_dicts records = Some ds -> records = map JObj ds.
Proof.
  revert ds. induction records as [|r records IH]; intros ds H.
  - inversion H. reflexivity.
  - simpl in H. destruct r; try discriminate.
    destruct (Pandas.as_dicts records) as [ds'|]; [|discriminate].
    inversion H; subst. simpl. f_equal. now apply IH.
Qed.

Lemma zip_with_rows {A B C D} (f : A -> C) (g : B -> D) (h : C -> D -> C)
  (l : list A) (k : list B) :
  zip_with h (map f l) (map g k) = zip_with (fun a b => h (f a) (g b)) l k.
Proof.
  revert k. induction l as [|a l IH]; intros [|b k]; simpl; try reflexivity.
  now rewrite IH.
Qed.

Section Builder.

Variable srv : server.

(** C7, amended: when the fetched product records are objects, one of
    them at least carrying the parent-id field, and each parent id is
    missing or converts to an integer, the builder stores 0 for a missing
    parent id and the integer otherwise, and writes products and
    substances each as a pipe-delimited file with a header row and no
    index column at its fixed path, whatever was there before. *)
Theorem create_and_dump_data_writes
  (fuel : nat) (prod pest : list json) (ds ds' : list dict) (d : dict)
  (ids : list Z) (st st1 st2 : state) :
  fetch_all_data srv BASE_URL_PRODUCT PARAMS fuel st = (Ok prod, st1) ->
  Pandas.as_dicts prod = Some ds ->
  In d ds ->
  dict_get PARENT d <> None ->
  Forall2 (fun d z => coerce (parent_cell d) = Ok z) ds ids ->
  fetch_all_data srv BASE_URL_PEST PARAMS_PEST fuel
    (written st1 "eu_products.csv" (pipe_file (product_frame ds ids)))
  = (Ok pest, st2) ->
  Pandas.as_dicts pest = Some ds' ->
  create_and_dump_data srv fuel st
  = (Ok tt, written st2 "eu_pesticides.csv" (pipe_file (record_frame ds')))
  /\ files (written st2 "eu_pesticides.csv" (pipe_file (record_frame ds')))
     !! "eu_products.csv"
     = Some (pipe_file (product_frame ds ids))
  /\ files (written st2 "eu_pesticides.csv" (pipe_file (record_frame ds')))
     !! "eu_pesticides.csv"
     = Some (pipe_file (record_frame ds')).
Proof.
  intros Hprod Hds Hin Hget Hids Hpest Hds'.
  destruct (index_of_In PARENT (Pandas.frame_columns ds)) as [i Hi].
  { unfold Pandas.frame_columns. eapply columns_cover; eassumption. }
  pose proof Hi as Hi'. unfold PARENT in Hi'.
  assert (Hrun : create_and_dump_data srv fuel st
                 = (Ok tt, written st2 "eu_pesticides.csv"
                             (pipe_file (record_frame ds')))).
  { unfold create_and_dump_data.
    rewrite (bind_ok _ _ _ _ _ Hprod).
    unfold Pandas.DataFrame. rewrite Hds, bind_lift_ok.
    unfold Pandas.getitem. cbn [columns]. rewrite Hi', bind_lift_ok.
    unfold Pandas.column_at. cbn [rows]. rewrite map_map.
    rewrite (astype_int_fillna _ ids), bind_lift_ok.
    2:{ now apply parent_column. }
    unfold Pandas.setitem. cbn [columns rows]. rewrite Hi'.
    rewrite zip_with_rows.
    unfold bind at 1, Pandas.to_csv.
    fold (pipe_file {| columns := Pandas.frame_columns ds;
                       rows := zip_with
                                 (fun a b => <[i := Val (JInt b)]>
                                               (Pandas.row_of (Pandas.frame_columns ds) a))
                                 ds ids |}).
    replace {| columns := Pandas.frame_columns ds;
               rows := zip_with
                         (fun a b => <[i := Val (JInt b)]>
                                       (Pandas.row_of (Pandas.frame_columns ds) a))
                         ds ids |}
      with (product_frame ds ids)
      by (unfold product_frame; now rewrite Hi).
    fold (written st1 "eu_products.csv" (pipe_file (product_frame ds ids))).
    rewrite (bind_ok _ _ _ _ _ Hpest).
    rewrite Hds', bind_lift_ok. reflexivity. }
  split; [exact Hrun|]. split.
  - cbn [files written].
    rewrite lookup_insert_ne by discriminate.
    pose proof (keeps_files_fetch_all_data srv BASE_URL_PEST PARAMS_PEST fuel
                  (written st1 "eu_products.csv"
                     (pipe_file (product_frame ds ids)))) as Hkeep.
    rewrite Hpest in Hkeep. cbn [snd] in Hkeep. rewrite Hkeep.
    cbn [files written]. apply lookup_insert_eq.
  - cbn [files written]. apply lookup_insert_eq.
Qed.

End Builder.

Lemma create_and_dump_data_writes_witness :
  let st1 := sent Sample.cached
               [{| req_url := BASE_URL_PRODUCT; req_headers := HEADERS;
                   req_params := PARAMS |}] in
  let table := product_frame Sample.product_records [0; 1; 0] in
  let st2 := sent (written st1 "eu_products.csv" (pipe_file table))
               [{| req_url := BASE_URL_PEST; req_headers := HEADERS;
                   req_params := PARAMS_PEST |}] in
  fetch_all_data Sample.full_lake BASE_URL_PRODUCT PARAMS 0 Sample.cached
  = (Ok (map JObj Sample.product_records), st1)
  /\ Forall2 (fun d z => coerce (parent_cell d) = Ok z)
       Sample.product_records [0; 1; 0]
  /\ create_and_dump_data Sample.full_lake 0 Sample.cached
     = (Ok tt,
        written st2 "eu_pesticides.csv"
          (pipe_file (record_frame Sample.substance_records)))
  /\ rows table
     = [[Val (JInt 1); Val (JStr "Fruit"); Val (JInt 0)];
        [Val (JInt 2); Val (JStr "Apples"); Val (JInt 1)];
        [Val (JInt 3); Val (JStr "Honey"); Val (JInt 0)]].
Proof.
  intros st1 table st2.
  assert (H1 : fetch_all_data Sample.full_lake BASE_URL_PRODUCT PARAMS 0
                 Sample.cached
               = (Ok (map JObj Sample.product_records), st1)) by reflexivity.
  assert (H2 : Forall2 (fun d z => coerce (parent_cell d) = Ok z)
                 Sample.product_records [0; 1; 0])
    by (repeat constructor).
  assert (H3 : fetch_all_data Sample.full_lake BASE_URL_PEST PARAMS_PEST 0
                 (written st1 "eu_products.csv" (pipe_file table))
               = (Ok (map JObj Sample.substance_records), st2)) by reflexivity.
  assert (H4 : dict_get PARENT
                 [("product_id", JInt 1); ("product_name", JStr "Fruit");
                  ("product_parent_id", JNull)] <> None) by discriminate.
  split; [exact H1|]. split; [exact H2|]. split; [|reflexivity].
  exact (proj1 (create_and_dump_data_writes Sample.full_lake 0 _ _
                  Sample.product_records Sample.substance_records _
                  [0; 1; 0] Sample.cached st1 st2
                  H1 (as_dicts_records _) (or_introl eq_refl) H4 H2 H3
                  (as_dicts_records _))).
Defined.

(** C7 as stated fails on an empty product list: the frame has no
    parent-id column, the builder stops on a [KeyError] and writes no
    file. *)
Lemma empty_product_list_no_file :
  fetch_all_data Sample.dry_lake BASE_URL_PRODUCT PARAMS 0 Sample.start
  = (Ok [],
     sent Sample.start
       [{| req_url := BASE_URL_PRODUCT; req_headers := HEADERS;
           req_params := PARAMS |}])
  /\ fst (create_and_dump_data Sample.dry_lake 0 Sample.start)
     = Raise (KeyError "product_parent_id")
  /\ files (snd (create_and_dump_data Sample.dry_lake 0 Sample.start))
     !! "eu_products.csv" = None.
Proof. split; [reflexivity|]. split; [reflexivity|]. vm_compute. reflexivity. Qed.

(** ** Queries without pattern syntax

    The defect behind C3 and C5 is confined to the characters that mean
    something in a regular expression: a query made of plain characters
    compiles to the pattern that reads it letter by letter, and the search
    is containment, letter case aside. *)

Lemma parse_plain s :
  forall items,
    plain s = true ->
    Re.parse s {| Re.branches := []; Re.items := items |} []
    = Re.Compiled (Re.seq_of (push_all s items)).
Proof.
  induction s as [|c s IH]; intros items Hplain; [reflexivity|].
  cbn [plain] in Hplain. apply andb_prop in Hplain as [Hc Hs].
  unfold plain_char in Hc. apply negb_true_iff in Hc.
  repeat (apply orb_false_elim in Hc as [Hc ?]).
  cbn [Re.parse]. rewrite Hc.
  repeat match goal with
         | H : _ = false |- _ => rewrite H; clear H
         end.
  cbn [orb]. unfold Re.push. cbn [Re.branches Re.items push_all].
  now apply IH.
Qed.

Lemma seq_of_push_all s :
  forall items tail,
    fold_left (fun acc r => Re.Cat r acc) (push_all s items) tail
    = fold_left (fun acc r => Re.Cat r acc) items (literal_then s tail).
Proof.
  induction s as [|c s IH]; intros items tail; [reflexivity|].
  cbn [push_all literal_then]. now rewrite IH.
Qed.

Lemma compile_plain s : plain s = true -> Re.compile s = Re.Compiled (literal s).
Proof.
  intros Hplain. unfold Re.compile. rewrite (parse_plain s [] Hplain).
  unfold Re.seq_of. now rewrite seq_of_push_all.
Qed.

Section Matching.

Variable ic : bool.

Lemma match_prefix_alt r1 r2 s :
  Re.match_prefix ic (Re.Alt r1 r2) s
  = Re.match_prefix ic r1 s || Re.match_prefix ic r2 s.
Proof.
  revert r1 r2. induction s as [|c s IH]; intros r1 r2; simpl.
  - now rewrite !orb_false_r.
  - rewrite IH.
    destruct (Re.nullable r1), (Re.nullable r2),
      (Re.match_prefix ic (Re.der ic c r1) s); reflexivity.
Qed.

Lemma match_prefix_dead r s :
  Re.match_prefix ic (Re.Cat Re.Empty r) s = false.
Proof. induction s as [|c s IH]; simpl; [reflexivity | exact IH]. Qed.

Lemma match_prefix_skip r s :
  Re.match_prefix ic (Re.Cat Re.Eps r) s = Re.match_prefix ic r s.
Proof.
  destruct s as [|c s]; simpl; [reflexivity|].
  now rewrite match_prefix_alt, match_prefix_dead.
Qed.

(** A letter, then the rest. *)
Lemma match_prefix_letter a r s :
  Re.match_prefix ic (Re.Cat (Re.Chr a) r) s
  = match s with
    | EmptyString => false
    | String c s' => Re.same_char ic a c && Re.match_prefix ic r s'
    end.
Proof.
  destruct s as [|c s]; simpl; [reflexivity|].
  destruct (Re.same_char ic a c); simpl.
  - apply match_prefix_skip.
  - apply match_prefix_dead.
Qed.

End Matching.

Lemma match_prefix_literal q :
  forall s,
    Re.match_prefix true (literal q) s
    = starts (Re.str_lower q) (Re.str_lower s).
Proof.
  unfold literal. induction q as [|a q IH]; intros s.
  - destruct s; reflexivity.
  - cbn [literal_then Re.str_lower]. rewrite match_prefix_letter.
    destruct s as [|c s]; [reflexivity|].
    cbn [Re.str_lower starts]. unfold Re.same_char. now rewrite IH.
Qed.

(** On a plain query, the search of the compiled pattern is containment. *)
Lemma search_literal q s : Re.search true (literal q) s = icontains q s.
Proof.
  unfold icontains. induction s as [|c s IH].
  - cbn [Re.search]. rewrite match_prefix_literal. cbn [Re.str_lower contains].
    reflexivity.
  - cbn [Re.search Re.str_lower contains].
    now rewrite match_prefix_literal, IH.
Qed.

Lemma str_contains_plain col q :
  plain q = true ->
  Pandas.has_str_accessor col = true ->
  Pandas.str_contains col q = Ok (map (cell_icontains q) col).
Proof.
  intros Hplain Hstr. unfold Pandas.str_contains.
  rewrite Hstr, (compile_plain q Hplain). f_equal.
  apply map_ext. intros [|[]]; try reflexivity. apply search_literal.
Qed.

Lemma mask_rows_none rs mask :
  forallb negb mask = true -> Pandas.mask_rows rs mask = [].
Proof.
  revert mask. induction rs as [|r rs IH]; intros [|b mask] H; try reflexivity.
  simpl in H. apply andb_prop in H as [Hb Hmask].
  destruct b; [discriminate|]. simpl. now apply IH.
Qed.

Lemma read_csv_run path df st {B} (k : frame -> M B) :
  files st !! path = Some (pipe_file df) ->
  bind (Pandas.read_csv path "|") k st = k df st.
Proof. intros H. unfold bind, Pandas.read_csv. now rewrite H. Qed.

(** For a plain product name that no name of the product cache contains,
    the lookup returns the not-found value that quotes the name, and
    sends nothing. *)
Lemma plain_absent_product
  (srv : server) (py_str : cell -> string) (product_name sub_name : string)
  (df_prod df_pest : frame) (names : list cell) (st : state) :
  files st !! "eu_products.csv" = Some (pipe_file df_prod) ->
  files st !! "eu_pesticides.csv" = Some (pipe_file df_pest) ->
  Pandas.getattr df_prod "product_name" = Ok names ->
  Pandas.has_str_accessor names = true ->
  plain product_name = true ->
  forallb (fun c => negb (cell_icontains product_name c)) names = true ->
  lookup srv py_str product_name sub_name st
  = (Ok (inl [("error",
               "Product '" +:+ product_name +:+ "' not found in EU database.")]),
     st).
Proof.
  intros Hprod Hpest Hnames Hstr Hplain Hnone. unfold lookup.
  rewrite (read_csv_run _ _ _ _ Hprod), (read_csv_run _ _ _ _ Hpest).
  rewrite Hnames, bind_lift_ok.
  rewrite (str_contains_plain _ _ Hplain Hstr), bind_lift_ok.
  unfold Pandas.empty, Pandas.select. cbn [rows columns].
  rewrite mask_rows_none; [reflexivity|].
  rewrite forallb_forall in *. intros b Hb.
  apply in_map_iff in Hb as (c & <- & Hc). now apply Hnone.
Qed.

(** For a plain query, the row the lookup goes on with is the first one
    whose name contains the query. *)
Lemma plain_first_match q i rs :
  head (Pandas.mask_rows rs
          (map (cell_icontains q) (map (fun r => nth i r NaN) rs)))
  = List.find (fun r => cell_icontains q (nth i r NaN)) rs.
Proof.
  induction rs as [|r rs IH]; [reflexivity|].
  simpl. destruct (cell_icontains q (nth i r NaN)); [reflexivity | exact IH].
Qed.

Example apple_dessert_matches :
  Pandas.str_contains
    [Val (JStr "Pears"); Val (JStr "Apple, dessert"); NaN; Val (JStr "Pineapple")]
    "apple"
  = Ok [false; true; false; true].
Proof. reflexivity. Qed.

(** * Further properties *)

(** ** The fetcher: failures, loops, effects *)

Lemma fetch_all_data_visit srv url params fuel :
  fetch_all_data srv url params fuel
  = visit srv {| req_url := url; req_headers := HEADERS;
                 req_params := params |} [] fuel.
Proof. reflexivity. Qed.

Lemma fetch_pages_visit srv fuel link acc :
  link <> EmptyString ->
  fetch_pages srv (S fuel) (JStr link) acc = visit srv (follow link) acc fuel.
Proof.
  intros Hlink. cbn [fetch_pages]. rewrite (truthy_link _ Hlink). reflexivity.
Qed.

(** Along a route the fetch gathers the records of the pages and arrives
    at the next request with the fuel that is left. *)
Lemma visit_route srv req pages reqs req' :
  route srv req pages reqs req' ->
  forall acc fuel st,
    Forall value_array_or_none pages ->
    visit srv req acc (length pages + fuel) st
    = visit srv req' (acc ++ flat_map page_values pages) fuel (sent st reqs).
Proof.
  induction 1 as [req | req p link ps reqs req' Hans Hnext Hlink _ IH];
    intros acc fuel st Hpages.
  - simpl. now rewrite app_nil_r, sent_nil.
  - inversion Hpages as [|? ? Hp Hps]; subst.
    unfold visit at 1. rewrite (round_trip _ _ _ _ _ Hans).
    rewrite (page_items _ Hp), bind_lift_ok. cbn [iterate].
    rewrite bind_lift_ok. unfold get_default. rewrite bind_lift_ok, Hnext.
    cbn [from_option id length Nat.add].
    rewrite (fetch_pages_visit _ _ _ _ Hlink), (IH _ _ _ Hps), sent_sent.
    cbn [flat_map app]. now rewrite <- app_assoc.
Qed.

Lemma visit_refused srv req acc fuel st status b :
  srv req = Reply status b ->
  is_success status = false ->
  visit srv req acc fuel st = (Raise (HTTPStatusError status), sent st [req]).
Proof.
  intros Hreply Hstatus. unfold visit.
  unfold bind at 1, client_get. rewrite Hreply. fold (sent st [req]).
  unfold bind at 1, raise_for_status. cbn [status_code]. now rewrite Hstatus.
Qed.

(** X1: a response with a status outside 200-299 aborts the whole fetch,
    wherever in the listing it comes: the error carries the status, the
    records of the pages before it are dropped, and no request follows the
    refused one. *)
Theorem fetch_all_data_aborts
  (srv : server) (url : string) (params : list (string * string))
  (pages : list dict) (reqs : list request) (req' : request)
  (status : Z) (b : option json) (fuel : nat) (st : state) :
  route srv {| req_url := url; req_headers := HEADERS; req_params := params |}
    pages reqs req' ->
  Forall value_array_or_none pages ->
  srv req' = Reply status b ->
  is_success status = false ->
  (length pages <= fuel)%nat ->
  fetch_all_data srv url params fuel st
  = (Raise (HTTPStatusError status), sent st (reqs ++ [req'])).
Proof.
  intros Hroute Hpages Hreply Hstatus Hfuel.
  rewrite fetch_all_data_visit.
  replace fuel with (length pages + (fuel - length pages))%nat by lia.
  rewrite (visit_route _ _ _ _ _ Hroute _ _ _ Hpages).
  rewrite (visit_refused _ _ _ _ _ _ _ Hreply Hstatus).
  now rewrite sent_sent.
Qed.

Lemma fetch_all_data_aborts_witness :
  route Cases.half_lake
    {| req_url := BASE_URL_PRODUCT; req_headers := HEADERS;
       req_params := PARAMS |}
    [Sample.page1]
    [{| req_url := BASE_URL_PRODUCT; req_headers := HEADERS;
        req_params := PARAMS |}]
    (follow "https://api.example/products?page=2")
  /\ fetch_all_data Cases.half_lake BASE_URL_PRODUCT PARAMS 1 Sample.start
     = (Raise (HTTPStatusError 503),
        sent Sample.start
          [{| req_url := BASE_URL_PRODUCT; req_headers := HEADERS;
              req_params := PARAMS |};
           follow "https://api.example/products?page=2"]).
Proof.
  assert (H : route Cases.half_lake
                {| req_url := BASE_URL_PRODUCT; req_headers := HEADERS;
                   req_params := PARAMS |}
                [Sample.page1]
                [{| req_url := BASE_URL_PRODUCT; req_headers := HEADERS;
                    req_params := PARAMS |}]
                (follow "https://api.example/products?page=2")).
  { eapply route_on; [exists 200; split; reflexivity | reflexivity
                     | discriminate | apply route_here]. }
  split; [exact H|].
  apply (fetch_all_data_aborts Cases.half_lake BASE_URL_PRODUCT PARAMS
           [Sample.page1] _ _ 503 None 1 Sample.start H).
  - constructor; [right; eexists; reflexivity | constructor].
  - reflexivity.
  - reflexivity.
  - simpl. lia.
Defined.

Lemma visit_answered srv req acc fuel st p :
  answers srv req p ->
  value_array_or_none p ->
  visit srv req acc fuel st
  = fetch_pages srv fuel (next_of p) (acc ++ page_values p) (sent st [req]).
Proof.
  intros Hans Hp. unfold visit. rewrite (round_trip _ _ _ _ _ Hans).
  rewrite (page_items _ Hp), bind_lift_ok. cbn [iterate].
  rewrite bind_lift_ok. unfold get_default. now rewrite bind_lift_ok.
Qed.

(** A page that names itself as the next one keeps the loop turning. *)
Lemma visit_round srv link p :
  answers srv (follow link) p ->
  dict_get "nextLink" p = Some (JStr link) ->
  link <> EmptyString ->
  value_array_or_none p ->
  forall fuel acc st, fst (visit srv (follow link) acc fuel st) = OutOfFuel.
Proof.
  intros Hans Hnext Hlink Hp. induction fuel as [|fuel IH]; intros acc st.
  - rewrite (visit_answered _ _ _ _ _ _ Hans Hp).
    unfold next_of. rewrite Hnext. cbn [from_option id fetch_pages].
    now rewrite (truthy_link _ Hlink).
  - rewrite (visit_answered _ _ _ _ _ _ Hans Hp).
    unfold next_of. rewrite Hnext. cbn [from_option id].
    rewrite (fetch_pages_visit _ _ _ _ Hlink). apply IH.
Qed.

(** X2: the fetcher does not notice a listing that turns in a circle.
    When the pages lead to one that names itself as the next page, no
    number of turns of the loop is enough: the fetch never returns. *)
Theorem fetch_all_data_never_returns
  (srv : server) (url : string) (params : list (string * string))
  (pages : list dict) (reqs : list request) (link : string) (p : dict)
  (fuel : nat) (st : state) :
  route srv {| req_url := url; req_headers := HEADERS; req_params := params |}
    pages reqs (follow link) ->
  Forall value_array_or_none pages ->
  answers srv (follow link) p ->
  dict_get "nextLink" p = Some (JStr link) ->
  link <> EmptyString ->
  value_array_or_none p ->
  fst (fetch_all_data srv url params fuel st) = OutOfFuel.
Proof.
  intros Hroute Hpages Hans Hnext Hlink Hp.
  rewrite fetch_all_data_visit. generalize (@nil json) as acc.
  revert fuel st Hpages.
  remember (follow link) as req' eqn:Hreq'.
  induction Hroute as [req | req q l ps reqs req' Hq Hnextq Hl _ IH];
    intros fuel st Hpages acc.
  - subst req. now apply (visit_round srv link p).
  - inversion Hpages as [|? ? Hqv Hps]; subst.
    rewrite (visit_answered _ _ _ _ _ _ Hq Hqv).
    unfold next_of. rewrite Hnextq. cbn [from_option id].
    destruct fuel as [|fuel].
    + cbn [fetch_pages]. now rewrite (truthy_link _ Hl).
    + rewrite (fetch_pages_visit _ _ _ _ Hl). now apply IH.
Qed.

Lemma fetch_all_data_never_returns_witness :
  answers Cases.round_lake (follow "https://api.example/products?page=2")
    Cases.page_again
  /\ fst (fetch_all_data Cases.round_lake BASE_URL_PRODUCT PARAMS 1000
            Sample.start)
     = OutOfFuel.
Proof.
  assert (H : answers Cases.round_lake
                (follow "https://api.example/products?page=2")
                Cases.page_again).
  { exists 200. split; reflexivity. }
  split; [exact H|].
  apply (fetch_all_data_never_returns Cases.round_lake BASE_URL_PRODUCT PARAMS
           [Sample.page1]
           [{| req_url := BASE_URL_PRODUCT; req_headers := HEADERS;
               req_params := PARAMS |}]
           "https://api.example/products?page=2" Cases.page_again
           1000 Sample.start).
  - eapply route_on; [exists 200; split; reflexivity | reflexivity
                     | discriminate | apply route_here].
  - constructor; [right; eexists; reflexivity | constructor].
  - exact H.
  - reflexivity.
  - discriminate.
  - right. eexists. reflexivity.
Defined.

(** X3: a page whose [value] is there but null is not treated like a page
    without the key: the default of [get] does not apply, extending the
    list with [None] raises a [TypeError], and the fetch is lost. *)
Theorem fetch_all_data_null_value
  (srv : server) (url : string) (params : list (string * string))
  (pages : list dict) (reqs : list request) (req' : request) (p : dict)
  (fuel : nat) (st : state) :
  route srv {| req_url := url; req_headers := HEADERS; req_params := params |}
    pages reqs req' ->
  Forall value_array_or_none pages ->
  answers srv req' p ->
  dict_get "value" p = Some JNull ->
  (length pages <= fuel)%nat ->
  fetch_all_data srv url params fuel st
  = (Raise TypeError, sent st (reqs ++ [req'])).
Proof.
  intros Hroute Hpages Hans Hnull Hfuel.
  rewrite fetch_all_data_visit.
  replace fuel with (length pages + (fuel - length pages))%nat by lia.
  rewrite (visit_route _ _ _ _ _ Hroute _ _ _ Hpages).
  unfold visit. rewrite (round_trip _ _ _ _ _ Hans).
  unfold get_default. rewrite Hnull, bind_lift_ok. cbn [from_option id iterate].
  unfold bind, lift. now rewrite sent_sent.
Qed.

Lemma fetch_all_data_null_value_witness :
  answers Cases.null_lake
    {| req_url := BASE_URL_PRODUCT; req_headers := HEADERS;
       req_params := PARAMS |} [("value", JNull)]
  /\ fetch_all_data Cases.null_lake BASE_URL_PRODUCT PARAMS 0 Sample.start
     = (Raise TypeError,
        sent Sample.start
          [{| req_url := BASE_URL_PRODUCT; req_headers := HEADERS;
              req_params := PARAMS |}]).
Proof.
  assert (H : answers Cases.null_lake
                {| req_url := BASE_URL_PRODUCT; req_headers := HEADERS;
                   req_params := PARAMS |} [("value", JNull)]).
  { exists 200. split; reflexivity. }
  split; [exact H|].
  apply (fetch_all_data_null_value Cases.null_lake BASE_URL_PRODUCT PARAMS
           [] [] _ _ 0 Sample.start (route_here _ _) (List.Forall_nil _) H eq_refl).
  simpl. lia.
Defined.

(** X4: a continuation link that is true but not a string (a number, a
    list, an object) is handed to the client as it is; the client refuses
    it with a [TypeError] before anything is sent, and the records fetched
    so far are lost. *)
Theorem fetch_all_data_odd_link
  (srv : server) (url : string) (params : list (string * string))
  (pages : list dict) (reqs : list request) (req' : request) (p : dict)
  (next : json) (fuel : nat) (st : state) :
  route srv {| req_url := url; req_headers := HEADERS; req_params := params |}
    pages reqs req' ->
  Forall value_array_or_none pages ->
  answers srv req' p ->
  value_array_or_none p ->
  dict_get "nextLink" p = Some next ->
  truthy next = true ->
  (forall link, next <> JStr link) ->
  (length pages < fuel)%nat ->
  fetch_all_data srv url params fuel st
  = (Raise TypeError, sent st (reqs ++ [req'])).
Proof.
  intros Hroute Hpages Hans Hp Hnext Htrue Hodd Hfuel.
  rewrite fetch_all_data_visit.
  replace fuel with (length pages + S (fuel - S (length pages)))%nat by lia.
  rewrite (visit_route _ _ _ _ _ Hroute _ _ _ Hpages).
  rewrite (visit_answered _ _ _ _ _ _ Hans Hp).
  unfold next_of. rewrite Hnext. cbn [from_option id fetch_pages].
  rewrite Htrue, sent_sent.
  destruct next; try reflexivity. now contradiction (Hodd s).
Qed.

Lemma fetch_all_data_odd_link_witness :
  answers Cases.odd_lake
    {| req_url := BASE_URL_PRODUCT; req_headers := HEADERS;
       req_params := PARAMS |}
    [("value", JArr [JInt 1]); ("nextLink", JInt 2)]
  /\ fetch_all_data Cases.odd_lake BASE_URL_PRODUCT PARAMS 1 Sample.start
     = (Raise TypeError,
        sent Sample.start
          [{| req_url := BASE_URL_PRODUCT; req_headers := HEADERS;
              req_params := PARAMS |}]).
Proof.
  assert (H : answers Cases.odd_lake
                {| req_url := BASE_URL_PRODUCT; req_headers := HEADERS;
                   req_params := PARAMS |}
                [("value", JArr [JInt 1]); ("nextLink", JInt 2)]).
  { exists 200. split; reflexivity. }
  split; [exact H|].
  apply (fetch_all_data_odd_link Cases.odd_lake BASE_URL_PRODUCT PARAMS
           [] [] _ _ (JInt 2) 1 Sample.start (route_here _ _) (List.Forall_nil _) H).
  - right. eexists. reflexivity.
  - reflexivity.
  - reflexivity.
  - discriminate.
  - simpl. lia.
Defined.

(** ** Effects of the two fetchers *)

Lemma quiet_ret {A} (a : A) : quiet (ret a).
Proof. intros st. reflexivity. Qed.

Lemma quiet_lift {A} (r : result A) : quiet (lift r).
Proof. intros st. reflexivity. Qed.

Lemma quiet_bind {A B} (m : M A) (k : A -> M B) :
  quiet m -> (forall a, quiet (k a)) -> quiet (bind m k).
Proof.
  intros Hm Hk st. unfold bind. specialize (Hm st).
  destruct (m st) as [[a| | |] st']; simpl in *; try exact Hm.
  now rewrite Hk.
Qed.

Lemma quiet_raise_for_status resp : quiet (raise_for_status resp).
Proof.
  unfold raise_for_status. destruct (is_success _); intros st; reflexivity.
Qed.

Lemma quiet_resp_json resp : quiet (resp_json resp).
Proof. unfold resp_json. destruct (body resp); intros st; reflexivity. Qed.

(** After a quiet continuation the state is the one the first step left. *)
Lemma snd_bind_quiet {A B} (m : M A) (k : A -> M B) st :
  (forall a, quiet (k a)) -> snd (bind m k st) = snd (m st).
Proof.
  intros Hk. unfold bind.
  destruct (m st) as [[a| | |] st']; simpl; try reflexivity. apply Hk.
Qed.

Lemma snd_client_get srv req st : snd (client_get srv req st) = sent st [req].
Proof. unfold client_get. now destruct (srv req). Qed.

(** X5: whatever the server answers (an error status, a body that is not
    JSON, a listing that names a next page), [get_substance_mrl_EU] sends
    one request and one only, with the fixed parameters and the two ids;
    it follows no link and tries nothing twice, and it touches neither
    the files nor the printed lines. *)
Theorem get_substance_mrl_EU_single_request
  (srv : server) (product_id substance_id : string) (st : state) :
  snd (get_substance_mrl_EU srv product_id substance_id st)
  = sent st [mrl_request product_id substance_id].
Proof.
  unfold get_substance_mrl_EU.
  change (dict_or PARAMS_PEST _)
    with (req_params (mrl_request product_id substance_id)).
  change {| req_url := BASE_URL_MRL; req_headers := HEADERS;
            req_params := req_params (mrl_request product_id substance_id) |}
    with (mrl_request product_id substance_id).
  rewrite snd_bind_quiet; [apply snd_client_get|].
  intros resp. apply quiet_bind; [apply quiet_raise_for_status|]. intros _.
  apply quiet_bind; [apply quiet_resp_json|]. intros payload.
  apply quiet_bind; [apply quiet_lift|]. intros data.
  apply quiet_bind; [apply quiet_lift|]. intros items.
  apply quiet_lift.
Qed.

Lemma only_sends_bind {A B} (m : M A) (k : A -> M B) :
  only_sends m -> (forall a, only_sends (k a)) -> only_sends (bind m k).
Proof.
  intros Hm Hk st. unfold bind. destruct (Hm st) as [reqs Hreqs].
  destruct (m st) as [[a| | |] st']; simpl in *; try (now exists reqs).
  destruct (Hk a st') as [reqs' Hreqs']. exists (reqs ++ reqs').
  now rewrite Hreqs', Hreqs, sent_sent.
Qed.

Lemma only_sends_quiet {A} (m : M A) : quiet m -> only_sends m.
Proof. intros Hm st. exists []. now rewrite Hm, sent_nil. Qed.

Lemma only_sends_client_get srv req : only_sends (client_get srv req).
Proof. intros st. exists [req]. apply snd_client_get. Qed.

Lemma only_sends_visit_tail srv fuel :
  forall next acc, only_sends (fetch_pages srv fuel next acc).
Proof.
  induction fuel as [|fuel IH]; intros next acc.
  - simpl. destruct (truthy next); apply only_sends_quiet;
      [apply quiet_lift | apply quiet_ret].
  - cbn [fetch_pages].
    destruct (truthy next); [|apply only_sends_quiet, quiet_ret].
    apply only_sends_bind.
    { apply only_sends_quiet. unfold as_url.
      destruct next; intros st; reflexivity. }
    intros url. apply only_sends_bind; [apply only_sends_client_get|].
    intros resp.
    apply only_sends_bind; [apply only_sends_quiet, quiet_raise_for_status|].
    intros _.
    apply only_sends_bind; [apply only_sends_quiet, quiet_resp_json|].
    intros payload.
    apply only_sends_bind; [apply only_sends_quiet, quiet_lift|]. intros value.
    apply only_sends_bind; [apply only_sends_quiet, quiet_lift|]. intros items.
    apply only_sends_bind; [apply only_sends_quiet, quiet_lift|]. intros next'.
    apply IH.
Qed.

(** X6: whatever the server answers, and whether the fetch returns,
    raises or goes on for ever, [fetch_all_data] only sends requests, the
    first of them to the given URL with the given parameters: it writes no
    file, prints nothing and opens nothing. *)
Theorem fetch_all_data_only_sends
  (srv : server) (url : string) (params : list (string * string))
  (fuel : nat) (st : state) :
  exists reqs,
    snd (fetch_all_data srv url params fuel st)
    = sent st ({| req_url := url; req_headers := HEADERS;
                  req_params := params |} :: reqs).
Proof.
  unfold fetch_all_data.
  set (first := {| req_url := url; req_headers := HEADERS;
                   req_params := params |}).
  assert (Hrest : forall resp,
             only_sends
               (bind (raise_for_status resp) (fun _ =>
                bind (resp_json resp) (fun payload =>
                bind (lift (get_default payload "value" (JArr []))) (fun value =>
                bind (lift (iterate value)) (fun items =>
                bind (lift (get_default payload "nextLink" JNull)) (fun next_link =>
                fetch_pages srv fuel next_link ([] ++ items)))))))).
  { intros resp.
    apply only_sends_bind; [apply only_sends_quiet, quiet_raise_for_status|].
    intros _.
    apply only_sends_bind; [apply only_sends_quiet, quiet_resp_json|].
    intros payload.
    apply only_sends_bind; [apply only_sends_quiet, quiet_lift|]. intros value.
    apply only_sends_bind; [apply only_sends_quiet, quiet_lift|]. intros items.
    apply only_sends_bind; [apply only_sends_quiet, quiet_lift|]. intros next.
    apply only_sends_visit_tail. }
  unfold bind at 1. pose proof (snd_client_get srv first st) as Hfirst.
  destruct (client_get srv first st) as [[resp| | |] st'] eqn:Hget;
    simpl in Hfirst; subst st'; try (exists []; reflexivity).
  destruct (Hrest resp (sent st [first])) as [reqs Hreqs].
  exists reqs. now rewrite Hreqs, sent_sent.
Qed.

Lemma applicable_stranger items x :
  In x items ->
  (forall d, x <> JObj d) ->
  applicable items = Raise AttributeError.
Proof.
  intros Hin Hx. induction items as [|y items IH]; [destruct Hin|].
  destruct Hin as [->|Hin].
  - simpl. destruct x; try reflexivity. now contradiction (Hx fields).
  - simpl. destruct y; try reflexivity. now rewrite (IH Hin).
Qed.

(** X7: one entry of the [value] array that is not an object is enough
    to lose the whole answer: the filter calls [get] on it and the lookup
    raises an [AttributeError], whatever the other entries are. *)
Theorem get_substance_mrl_EU_stranger
  (srv : server) (product_id substance_id : string) (p : dict)
  (items : list json) (x : json) (st : state) :
  answers srv (mrl_request product_id substance_id) p ->
  dict_get "value" p = Some (JArr items) ->
  In x items ->
  (forall d, x <> JObj d) ->
  get_substance_mrl_EU srv product_id substance_id st
  = (Raise AttributeError, sent st [mrl_request product_id substance_id]).
Proof.
  intros Hans Hvalue Hin Hx. unfold get_substance_mrl_EU.
  change (dict_or PARAMS_PEST _)
    with (req_params (mrl_request product_id substance_id)).
  change {| req_url := BASE_URL_MRL; req_headers := HEADERS;
            req_params := req_params (mrl_request product_id substance_id) |}
    with (mrl_request product_id substance_id).
  rewrite (round_trip _ _ _ _ _ Hans).
  unfold get_default. rewrite Hvalue, bind_lift_ok. cbn [from_option id iterate].
  rewrite bind_lift_ok. unfold lift.
  now rewrite (applicable_stranger _ _ Hin Hx).
Qed.

Lemma get_substance_mrl_EU_stranger_witness :
  answers Cases.mixed_lake (mrl_request "11" "7") Cases.mixed_rules
  /\ get_substance_mrl_EU Cases.mixed_lake "11" "7" Sample.start
     = (Raise AttributeError, sent Sample.start [mrl_request "11" "7"]).
Proof.
  assert (H : answers Cases.mixed_lake (mrl_request "11" "7") Cases.mixed_rules).
  { exists 200. split; reflexivity. }
  split; [exact H|].
  apply (get_substance_mrl_EU_stranger Cases.mixed_lake "11" "7"
           Cases.mixed_rules _ (JStr "n/a") Sample.start H eq_refl).
  - right. left. reflexivity.
  - discriminate.
Defined.

(** ** The builder: what is written, and when *)

Lemma dict_keys_present key d :
  forall seen, In key (dict_keys seen d) -> dict_get key d <> None.
Proof.
  induction d as [|[k v] d IH]; intros seen Hin; [destruct Hin|].
  simpl in *. destruct (String.eqb_spec k key) as [->|Hne]; [discriminate|].
  destruct (existsb (String.eqb k) seen).
  - now apply (IH seen).
  - destruct Hin as [->|Hin]; [contradiction|]. now apply (IH (k :: seen)).
Qed.

Lemma columns_present key ds :
  forall cols,
    In key (fold_left (fun cols d => cols ++ dict_keys cols d) ds cols) ->
    In key cols \/ exists d, In d ds /\ dict_get key d <> None.
Proof.
  induction ds as [|d ds IH]; intros cols Hin; [now left|].
  simpl in Hin. destruct (IH _ Hin) as [Hcols|(d' & Hd' & Hget)].
  - apply in_app_or in Hcols as [Hcols|Hkeys]; [now left|].
    right. exists d. split; [now left|]. now apply dict_keys_present in Hkeys.
  - right. exists d'. split; [now right | exact Hget].
Qed.

Lemma index_of_absent name cols :
  ~ In name cols -> Pandas.index_of name cols = None.
Proof.
  induction cols as [|c cols IH]; intros Hin; [reflexivity|].
  simpl. destruct (String.eqb_spec c name) as [->|Hne].
  - contradiction Hin. now left.
  - rewrite IH; [reflexivity|]. intros H. apply Hin. now right.
Qed.

Lemma astype_int_stops good ids bad e rest :
  Forall2 (fun c z => coerce c = Ok z) good ids ->
  coerce bad = Raise e ->
  Pandas.astype_int (Pandas.fillna (JInt 0) (good ++ bad :: rest)) = Raise e.
Proof.
  intros Hgood Hbad. induction Hgood as [|c z good ids Hc _ IH].
  - cbn [app Pandas.fillna map Pandas.astype_int].
    unfold coerce in Hbad. destruct (Pandas.is_na bad); [discriminate|].
    now rewrite Hbad.
  - cbn [app Pandas.fillna map Pandas.astype_int].
    unfold Pandas.fillna in IH. rewrite IH.
    unfold coerce in Hc. destruct (Pandas.is_na c).
    + reflexivity.
    + now rewrite Hc.
Qed.

Lemma to_csv_run df path st {B} (k : unit -> M B) :
  bind (Pandas.to_csv df path false "|") k st
  = k tt (written st path (pipe_file df)).
Proof. reflexivity. Qed.

Section BuilderMore.

Variable srv : server.

(** Once the products are fetched and their parent ids converted, the
    product file is written and the builder turns to the substances. *)
Lemma builder_products_written fuel prod ds d ids st st1 :
  fetch_all_data srv BASE_URL_PRODUCT PARAMS fuel st = (Ok prod, st1) ->
  Pandas.as_dicts prod = Some ds ->
  In d ds ->
  dict_get PARENT d <> None ->
  Forall2 (fun d z => coerce (parent_cell d) = Ok z) ds ids ->
  create_and_dump_data srv fuel st
  = bind (fetch_all_data srv BASE_URL_PEST PARAMS_PEST fuel)
      (fun pest =>
         bind (lift (Pandas.DataFrame pest))
           (fun df_pest => Pandas.to_csv df_pest "eu_pesticides.csv" false "|"))
      (written st1 "eu_products.csv" (pipe_file (product_frame ds ids))).
Proof.
  intros Hprod Hds Hin Hget Hids.
  destruct (index_of_In PARENT (Pandas.frame_columns ds)) as [i Hi].
  { unfold Pandas.frame_columns. eapply columns_cover; eassumption. }
  pose proof Hi as Hi'. unfold PARENT in Hi'.
  unfold create_and_dump_data.
  rewrite (bind_ok _ _ _ _ _ Hprod).
  unfold Pandas.DataFrame at 1. rewrite Hds, bind_lift_ok.
  unfold Pandas.getitem. cbn [columns]. rewrite Hi', bind_lift_ok.
  unfold Pandas.column_at. cbn [rows]. rewrite map_map.
  rewrite (astype_int_fillna _ ids), bind_lift_ok by now apply parent_column.
  unfold Pandas.setitem. cbn [columns rows]. rewrite Hi'.
  rewrite zip_with_rows, to_csv_run.
  replace {| columns := Pandas.frame_columns ds;
             rows := zip_with
                       (fun a b => <[i := Val (JInt b)]>
                                     (Pandas.row_of (Pandas.frame_columns ds) a))
                       ds ids |}
    with (product_frame ds ids)
    by (unfold product_frame; now rewrite Hi).
  reflexivity.
Qed.

(** X8: when the product records are objects and none of them carries the
    parent-id field, the frame has no such column: the builder stops on a
    [KeyError] for product_parent_id right after the fetch, and writes
    nothing.  The empty product list is the first case of it. *)
Theorem create_and_dump_data_no_parent
  (fuel : nat) (prod : list json) (ds : list dict) (st st1 : state) :
  fetch_all_data srv BASE_URL_PRODUCT PARAMS fuel st = (Ok prod, st1) ->
  Pandas.as_dicts prod = Some ds ->
  Forall (fun d => dict_get PARENT d = None) ds ->
  create_and_dump_data srv fuel st = (Raise (KeyError PARENT), st1)
  /\ files st1 = files st.
Proof.
  intros Hprod Hds Hnone. split.
  - unfold create_and_dump_data. rewrite (bind_ok _ _ _ _ _ Hprod).
    unfold Pandas.DataFrame. rewrite Hds, bind_lift_ok.
    unfold Pandas.getitem. cbn [columns].
    fold PARENT. rewrite index_of_absent; [reflexivity|].
    intros Hin. unfold Pandas.frame_columns in Hin.
    apply columns_present in Hin as [[]|(d & Hd & Hget)].
    rewrite List.Forall_forall in Hnone. apply Hget, Hnone, Hd.
  - pose proof (keeps_files_fetch_all_data srv BASE_URL_PRODUCT PARAMS fuel st)
      as Hkeep.
    now rewrite Hprod in Hkeep.
Qed.

(** X9: the two files are not written together.  When the product list
    is fetched and converted but the fetch of the substances raises, the
    builder raises as well, with the product file already replaced and the
    substance file as it was before (old, or missing). *)
Theorem create_and_dump_data_half_done
  (fuel : nat) (prod : list json) (ds : list dict) (d : dict)
  (ids : list Z) (e : exn) (st st1 st2 : state) :
  fetch_all_data srv BASE_URL_PRODUCT PARAMS fuel st = (Ok prod, st1) ->
  Pandas.as_dicts prod = Some ds ->
  In d ds ->
  dict_get PARENT d <> None ->
  Forall2 (fun d z => coerce (parent_cell d) = Ok z) ds ids ->
  fetch_all_data srv BASE_URL_PEST PARAMS_PEST fuel
    (written st1 "eu_products.csv" (pipe_file (product_frame ds ids)))
  = (Raise e, st2) ->
  create_and_dump_data srv fuel st = (Raise e, st2)
  /\ files st2 !! "eu_products.csv" = Some (pipe_file (product_frame ds ids))
  /\ files st2 !! "eu_pesticides.csv" = files st !! "eu_pesticides.csv".
Proof.
  intros Hprod Hds Hin Hget Hids Hpest.
  rewrite (builder_products_written _ _ _ _ _ _ _ Hprod Hds Hin Hget Hids).
  rewrite (bind_raise _ _ _ _ _ Hpest).
  pose proof (keeps_files_fetch_all_data srv BASE_URL_PEST PARAMS_PEST fuel
                (written st1 "eu_products.csv"
                   (pipe_file (product_frame ds ids)))) as Hkeep2.
  rewrite Hpest in Hkeep2. cbn [snd files written] in Hkeep2.
  pose proof (keeps_files_fetch_all_data srv BASE_URL_PRODUCT PARAMS fuel st)
    as Hkeep1.
  rewrite Hprod in Hkeep1. cbn [snd] in Hkeep1.
  split; [reflexivity|]. rewrite Hkeep2, Hkeep1. split.
  - apply lookup_insert_eq.
  - now apply lookup_insert_ne.
Qed.

(** X10: a parent id that is there and does not convert to an integer
    (a word, a list) stops the builder on the error of the conversion,
    before anything is written: both files stay as they were. *)
Theorem create_and_dump_data_bad_parent
  (fuel : nat) (prod : list json) (good rest : list dict) (bad : dict)
  (ids : list Z) (e : exn) (st st1 : state) :
  fetch_all_data srv BASE_URL_PRODUCT PARAMS fuel st = (Ok prod, st1) ->
  Pandas.as_dicts prod = Some (good ++ bad :: rest) ->
  Forall2 (fun d z => coerce (parent_cell d) = Ok z) good ids ->
  coerce (parent_cell bad) = Raise e ->
  create_and_dump_data srv fuel st = (Raise e, st1)
  /\ files st1 = files st.
Proof.
  intros Hprod Hds Hgood Hbad. split.
  - assert (Hget : dict_get PARENT bad <> None).
    { intros Hnone. unfold parent_cell in Hbad. rewrite Hnone in Hbad.
      discriminate. }
    destruct (index_of_In PARENT (Pandas.frame_columns (good ++ bad :: rest)))
      as [i Hi].
    { unfold Pandas.frame_columns.
      eapply columns_cover; [|exact Hget]. apply in_or_app. right. now left. }
    pose proof Hi as Hi'. unfold PARENT in Hi'.
    unfold create_and_dump_data.
    rewrite (bind_ok _ _ _ _ _ Hprod).
    unfold Pandas.DataFrame at 1. rewrite Hds, bind_lift_ok.
    unfold Pandas.getitem. cbn [columns]. rewrite Hi', bind_lift_ok.
    unfold Pandas.column_at. cbn [rows]. rewrite map_map, map_app. cbn [map].
    rewrite (astype_int_stops _ ids _ e); [reflexivity | |].
    + now apply parent_column.
    + rewrite (nth_row_of PARENT _ _ _ Hi). exact Hbad.
  - pose proof (keeps_files_fetch_all_data srv BASE_URL_PRODUCT PARAMS fuel st)
      as Hkeep.
    now rewrite Hprod in Hkeep.
Qed.

End BuilderMore.

Lemma create_and_dump_data_no_parent_witness :
  fetch_all_data Cases.orphan_lake BASE_URL_PRODUCT PARAMS 0 Sample.cached
  = (Ok (map JObj Cases.orphan_records),
     sent Sample.cached
       [{| req_url := BASE_URL_PRODUCT; req_headers := HEADERS;
           req_params := PARAMS |}])
  /\ Forall (fun d => dict_get PARENT d = None) Cases.orphan_records
  /\ create_and_dump_data Cases.orphan_lake 0 Sample.cached
     = (Raise (KeyError PARENT),
        sent Sample.cached
          [{| req_url := BASE_URL_PRODUCT; req_headers := HEADERS;
              req_params := PARAMS |}]).
Proof.
  assert (H1 : fetch_all_data Cases.orphan_lake BASE_URL_PRODUCT PARAMS 0
                 Sample.cached
               = (Ok (map JObj Cases.orphan_records),
                  sent Sample.cached
                    [{| req_url := BASE_URL_PRODUCT; req_headers := HEADERS;
                        req_params := PARAMS |}])) by reflexivity.
  assert (H2 : Forall (fun d => dict_get PARENT d = None) Cases.orphan_records)
    by (repeat constructor).
  split; [exact H1|]. split; [exact H2|].
  exact (proj1 (create_and_dump_data_no_parent Cases.orphan_lake 0 _ _ _ _
                  H1 (as_dicts_records _) H2)).
Defined.

Lemma create_and_dump_data_half_done_witness :
  let st1 := sent Sample.cached
               [{| req_url := BASE_URL_PRODUCT; req_headers := HEADERS;
                   req_params := PARAMS |}] in
  let table := product_frame Sample.product_records [0; 1; 0] in
  let st2 := sent (written st1 "eu_products.csv" (pipe_file table))
               [{| req_url := BASE_URL_PEST; req_headers := HEADERS;
                   req_params := PARAMS_PEST |}] in
  fetch_all_data Cases.lame_lake BASE_URL_PEST PARAMS_PEST 0
    (written st1 "eu_products.csv" (pipe_file table))
  = (Raise (HTTPStatusError 500), st2)
  /\ create_and_dump_data Cases.lame_lake 0 Sample.cached
     = (Raise (HTTPStatusError 500), st2)
  /\ files st2 !! "eu_products.csv" = Some (pipe_file table)
  /\ files st2 !! "eu_pesticides.csv" = Some (pipe_file Sample.pesticides).
Proof.
  intros st1 table st2.
  assert (H1 : fetch_all_data Cases.lame_lake BASE_URL_PRODUCT PARAMS 0
                 Sample.cached
               = (Ok (map JObj Sample.product_records), st1)) by reflexivity.
  assert (H2 : Forall2 (fun d z => coerce (parent_cell d) = Ok z)
                 Sample.product_records [0; 1; 0])
    by (repeat constructor).
  assert (H3 : fetch_all_data Cases.lame_lake BASE_URL_PEST PARAMS_PEST 0
                 (written st1 "eu_products.csv" (pipe_file table))
               = (Raise (HTTPStatusError 500), st2)) by reflexivity.
  assert (H4 : dict_get PARENT
                 [("product_id", JInt 1); ("product_name", JStr "Fruit");
                  ("product_parent_id", JNull)] <> None) by discriminate.
  split; [exact H3|].
  destruct (create_and_dump_data_half_done Cases.lame_lake 0 _
              Sample.product_records _ [0; 1; 0] _ Sample.cached st1 st2
              H1 (as_dicts_records _) (or_introl eq_refl) H4 H2 H3)
    as (Ha & Hb & Hc).
  split; [exact Ha|]. split; [exact Hb|]. rewrite Hc. reflexivity.
Defined.

Lemma create_and_dump_data_bad_parent_witness :
  let st1 := sent Sample.cached
               [{| req_url := BASE_URL_PRODUCT; req_headers := HEADERS;
                   req_params := PARAMS |}] in
  fetch_all_data Cases.garbled_lake BASE_URL_PRODUCT PARAMS 0 Sample.cached
  = (Ok (map JObj Cases.garbled_records), st1)
  /\ coerce (parent_cell [("product_id", JInt 2);
                          ("product_parent_id", JStr "root")])
     = Raise ValueError
  /\ create_and_dump_data Cases.garbled_lake 0 Sample.cached
     = (Raise ValueError, st1)
  /\ files st1 = files Sample.cached.
Proof.
  intros st1.
  assert (H1 : fetch_all_data Cases.garbled_lake BASE_URL_PRODUCT PARAMS 0
                 Sample.cached
               = (Ok (map JObj Cases.garbled_records), st1)) by reflexivity.
  assert (H2 : Forall2 (fun d z => coerce (parent_cell d) = Ok z)
                 [[("product_id", JInt 1); ("product_parent_id", JNull)]] [0])
    by (repeat constructor).
  assert (H3 : coerce (parent_cell [("product_id", JInt 2);
                                    ("product_parent_id", JStr "root")])
               = Raise ValueError) by reflexivity.
  split; [exact H1|]. split; [exact H3|].
  exact (create_and_dump_data_bad_parent Cases.garbled_lake 0 _
           [[("product_id", JInt 1); ("product_parent_id", JNull)]]
           [[("product_id", JInt 3); ("product_parent_id", JInt 1)]]
           _ [0] ValueError Sample.cached st1
           H1 (as_dicts_records Cases.garbled_records) H2 H3).
Defined.

(** ** The page imager, further *)

Lemma only_prints_quiet {A} (m : M A) : quiet m -> only_prints m.
Proof. intros Hm st. exists []. now rewrite Hm, printed_nil. Qed.

Lemma only_prints_bind {A B} (m : M A) (k : A -> M B) :
  only_prints m -> (forall a, only_prints (k a)) -> only_prints (bind m k).
Proof.
  intros Hm Hk st. unfold bind. destruct (Hm st) as [lines Hlines].
  destruct (m st) as [[a| | |] st']; simpl in *; try (now exists lines).
  destruct (Hk a st') as [lines' Hlines']. exists (lines ++ lines').
  now rewrite Hlines', Hlines, printed_printed.
Qed.

Lemma only_prints_print line : only_prints (print line).
Proof. intros st. now exists [line]. Qed.

Lemma only_prints_render_pages doc page_nums :
  forall images, only_prints (render_pages doc page_nums images).
Proof.
  induction page_nums as [|page_num later IH]; intros images.
  - apply only_prints_quiet, quiet_ret.
  - cbn [render_pages]. apply only_prints_bind.
    { apply only_prints_quiet. unfold Fitz.load_page.
      destruct (Fitz.doc_pages doc !! page_num); intros st; reflexivity. }
    intros page. apply only_prints_bind; [apply only_prints_quiet, quiet_lift|].
    intros pix. apply only_prints_bind; [apply only_prints_quiet, quiet_lift|].
    intros img_bytes.
    apply only_prints_bind; [apply only_prints_quiet, quiet_lift|].
    intros img_base64. apply only_prints_bind; [apply only_prints_print|].
    intros _. apply IH.
Qed.

(** The loop up to a page that fails, in either of its two steps. *)
Lemma render_pages_fails doc before :
  forall pngs i images st bad after e,
    drop i (Fitz.doc_pages doc) = before ++ bad :: after ->
    Forall2 renders before pngs ->
    fails bad e ->
    render_pages doc (seq i (length (before ++ bad :: after))) images st
    = (Raise e,
       printed st
         (map (page_done (length (Fitz.doc_pages doc)))
            (seq i (length before)))).
Proof.
  induction before as [|page before IH];
    intros pngs i images st bad after e Hdrop Hall Hbad.
  - assert (Hpage : Fitz.doc_pages doc !! i = Some bad).
    { pose proof (lookup_drop (Fitz.doc_pages doc) i 0) as H.
      rewrite Hdrop, Nat.add_0_r in H. now symmetry. }
    cbn [app length seq render_pages].
    unfold Fitz.load_page. rewrite Hpage, bind_ret.
    cbn [map]. rewrite printed_nil.
    destruct Hbad as [Hbad | (pix & Hpix & Hbad)].
    + unfold bind, lift. now rewrite Hbad.
    + rewrite Hpix, bind_lift_ok. unfold bind, lift. now rewrite Hbad.
  - inversion Hall as [|? png ? pngs' (pix & Hpix & Hpng) Hrest]; subst.
    assert (Hpage : Fitz.doc_pages doc !! i = Some page).
    { pose proof (lookup_drop (Fitz.doc_pages doc) i 0) as H.
      rewrite Hdrop, Nat.add_0_r in H. now symmetry. }
    assert (Hnext : drop (S i) (Fitz.doc_pages doc) = before ++ bad :: after).
    { rewrite (drop_S _ _ _ Hpage) in Hdrop. simpl in Hdrop.
      now injection Hdrop. }
    cbn [app length seq render_pages].
    unfold Fitz.load_page. rewrite Hpage, bind_ret.
    rewrite Hpix, bind_lift_ok, Hpng, bind_lift_ok.
    rewrite decode_utf8_b64encode, bind_lift_ok, print_run.
    rewrite (IH pngs' (S i) _ _ bad after e Hnext Hrest Hbad).
    rewrite printed_printed. reflexivity.
Qed.

Lemma only_talks_bind {A B} (m : M A) (k : A -> M B) :
  only_talks m -> (forall a, only_talks (k a)) -> only_talks (bind m k).
Proof.
  intros Hm Hk st. unfold bind. destruct (Hm st) as (Hf & Hr & lines & Hl).
  destruct (m st) as [[a| | |] st']; simpl in *;
    try (split; [exact Hf|]; split; [exact Hr|]; now exists lines).
  destruct (Hk a st') as (Hf' & Hr' & lines' & Hl').
  split; [congruence|]. split; [congruence|]. exists (lines ++ lines').
  now rewrite Hl', Hl, <- app_assoc.
Qed.

Lemma only_talks_only_prints {A} (m : M A) : only_prints m -> only_talks m.
Proof.
  intros Hm st. destruct (Hm st) as [lines ->].
  split; [reflexivity|]. split; [reflexivity|]. now exists lines.
Qed.

Lemma only_talks_fitz_open pdfs path : only_talks (Fitz.fitz_open pdfs path).
Proof.
  intros st. unfold Fitz.fitz_open. destruct (pdfs path); cbn.
  all: split; [reflexivity|]; split; [reflexivity|]; exists [];
    now rewrite app_nil_r.
Qed.

Lemma only_talks_close doc : only_talks (Fitz.close doc).
Proof.
  intros st. cbn. split; [reflexivity|]. split; [reflexivity|]. exists [].
  now rewrite app_nil_r.
Qed.

Lemma only_talks_pdf_to_base64_images pdfs pdf_path :
  only_talks (pdf_to_base64_images pdfs pdf_path).
Proof.
  unfold pdf_to_base64_images.
  apply only_talks_bind; [apply only_talks_fitz_open|]. intros doc.
  apply only_talks_bind; [apply only_talks_only_prints, only_prints_print|].
  intros _. apply only_talks_bind.
  { apply only_talks_only_prints, only_prints_render_pages. }
  intros images. apply only_talks_bind; [apply only_talks_close|].
  intros _. apply only_talks_only_prints, only_prints_quiet, quiet_ret.
Qed.

Section ImagerMore.

Variable pdfs : Fitz.disk.

(** X11: a conversion that succeeds leaves a running commentary and
    nothing else.  For a document of N pages that all render, the lines
    printed are the announcement of N pages followed by one progress line
    per page, numbered from 1 in page order; no file is written, no
    request is sent, and the set of open documents is the one before the
    call. *)
Theorem pdf_to_base64_images_progress
  (pdf_path : string) (pages : Fitz.document) (pngs : list (list byte))
  (st : state) :
  pdfs pdf_path = Some pages ->
  Forall2 renders pages pngs ->
  next_handle st ∉ open_docs st ->
  exists images st',
    pdf_to_base64_images pdfs pdf_path st = (Ok images, st')
    /\ stdout st'
       = stdout st
         ++ ("Converting " +:+ pretty (length pages)
             +:+ " page(s) in base64 images...")
         :: map (fun k => "  Page " +:+ pretty (S k) +:+ "/"
                          +:+ pretty (length pages) +:+ " done")
              (seq 0 (length pages))
    /\ files st' = files st
    /\ requests st' = requests st
    /\ open_docs st' = open_docs st.
Proof.
  intros Hopen Hall Hfresh. eexists. eexists.
  split; [apply (pdf_to_base64_images_run _ _ _ _ _ Hopen Hall)|].
  cbn [stdout files requests open_docs]. split; [|split; [|split]]; try reflexivity.
  - do 2 f_equal. apply map_ext. intros k. unfold page_done.
    now rewrite Nat.add_1_r.
  - apply set_eq. intros x. set_solver.
Qed.

(** X12: a page that cannot be turned into a picture stops the
    conversion, whichever of the two steps fails (the rendering, or the
    writing of the picture as PNG).  The error is the one the step
    raised; the progress lines of the pages before are printed and none
    after; the document is left open; no images are returned. *)
Theorem pdf_to_base64_images_page_fails
  (pdf_path : string) (before after : list Fitz.page) (bad : Fitz.page)
  (pngs : list (list byte)) (e : exn) (st : state) :
  pdfs pdf_path = Some (before ++ bad :: after) ->
  Forall2 renders before pngs ->
  fails bad e ->
  exists st',
    pdf_to_base64_images pdfs pdf_path st = (Raise e, st')
    /\ stdout st'
       = stdout st
         ++ ("Converting " +:+ pretty (length (before ++ bad :: after))
             +:+ " page(s) in base64 images...")
         :: map (page_done (length (before ++ bad :: after)))
              (seq 0 (length before))
    /\ next_handle st ∈ open_docs st'.
Proof.
  intros Hopen Hall Hbad. eexists. split; [|split].
  - unfold pdf_to_base64_images.
    unfold bind at 1, Fitz.fitz_open. rewrite Hopen.
    cbn [Fitz.doc_pages]. rewrite print_run.
    match goal with
    | |- context [render_pages ?doc ?nums ?images] =>
        rewrite (bind_raise _ _ _ _ _
                   (render_pages_fails doc before pngs O images _ bad after e
                      eq_refl Hall Hbad))
    end.
    rewrite printed_printed. reflexivity.
  - reflexivity.
  - cbn [open_docs]. set_solver.
Qed.

(** X13: whatever the document and whatever becomes of its pages, the
    conversion sends no request and writes no file: it only adds lines to
    the output.  A path that does not open raises before anything is
    printed and leaves the world as it was; a path that opens costs one
    document handle, whether the conversion then succeeds or not. *)
Theorem pdf_to_base64_images_footprint (pdf_path : string) (st : state) :
  files (snd (pdf_to_base64_images pdfs pdf_path st)) = files st
  /\ requests (snd (pdf_to_base64_images pdfs pdf_path st)) = requests st
  /\ (exists lines,
        stdout (snd (pdf_to_base64_images pdfs pdf_path st))
        = stdout st ++ lines)
  /\ match pdfs pdf_path with
     | None =>
         pdf_to_base64_images pdfs pdf_path st
         = (Raise (FileNotFoundError pdf_path), st)
     | Some pages =>
         next_handle (snd (pdf_to_base64_images pdfs pdf_path st))
         = S (next_handle st)
     end.
Proof.
  split; [|split; [|split]].
  - apply only_talks_pdf_to_base64_images.
  - apply only_talks_pdf_to_base64_images.
  - apply only_talks_pdf_to_base64_images.
  - unfold pdf_to_base64_images, Fitz.fitz_open, bind at 1.
    destruct (pdfs pdf_path) as [pages|]; [|reflexivity].
    cbn [Fitz.doc_pages]. rewrite print_run. unfold bind.
    match goal with
    | |- context [render_pages ?doc ?nums ?images ?s] =>
        destruct (only_prints_render_pages doc nums images s) as [lines Hlines];
          destruct (render_pages doc nums images s) as [[images'| | |] st1];
          cbn [snd] in Hlines; subst st1; reflexivity
    end.
Qed.

End ImagerMore.

Lemma pdf_to_base64_images_progress_witness :
  Sample.shelf "report.pdf"
  = Some [Sample.sound_page Sample.png_a; Sample.sound_page Sample.png_b]
  /\ Forall2 renders
       [Sample.sound_page Sample.png_a; Sample.sound_page Sample.png_b]
       [Sample.png_a; Sample.png_b]
  /\ next_handle Sample.start ∉ open_docs Sample.start
  /\ exists images st',
       pdf_to_base64_images Sample.shelf "report.pdf" Sample.start
       = (Ok images, st')
       /\ stdout st'
          = ["Converting 2 page(s) in base64 images...";
             "  Page 1/2 done"; "  Page 2/2 done"]
       /\ files st' = ∅
       /\ requests st' = []
       /\ open_docs st' = ∅.
Proof.
  assert (H : Forall2 renders
                [Sample.sound_page Sample.png_a; Sample.sound_page Sample.png_b]
                [Sample.png_a; Sample.png_b]).
  { repeat constructor; eexists; split; reflexivity. }
  assert (Hfresh : next_handle Sample.start ∉ open_docs Sample.start).
  { cbn. set_solver. }
  split; [reflexivity|]. split; [exact H|]. split; [exact Hfresh|].
  exact (pdf_to_base64_images_progress Sample.shelf "report.pdf" _ _
           Sample.start eq_refl H Hfresh).
Defined.

Lemma pdf_to_base64_images_page_fails_witness :
  Cases.odd_shelf "scan.pdf"
  = Some ([Sample.sound_page Sample.png_a; Sample.sound_page Sample.png_b]
          ++ Cases.blurred_page :: [Sample.sound_page Sample.png_a])
  /\ Forall2 renders
       [Sample.sound_page Sample.png_a; Sample.sound_page Sample.png_b]
       [Sample.png_a; Sample.png_b]
  /\ fails Cases.blurred_page ValueError
  /\ exists st',
       pdf_to_base64_images Cases.odd_shelf "scan.pdf" Sample.start
       = (Raise ValueError, st')
       /\ stdout st'
          = ["Converting 4 page(s) in base64 images...";
             "  Page 1/4 done"; "  Page 2/4 done"]
       /\ O ∈ open_docs st'.
Proof.
  assert (H : Forall2 renders
                [Sample.sound_page Sample.png_a; Sample.sound_page Sample.png_b]
                [Sample.png_a; Sample.png_b]).
  { repeat constructor; eexists; split; reflexivity. }
  assert (Hbad : fails Cases.blurred_page ValueError).
  { right. eexists. split; reflexivity. }
  split; [reflexivity|]. split; [exact H|]. split; [exact Hbad|].
  exact (pdf_to_base64_images_page_fails Cases.odd_shelf "scan.pdf"
           [Sample.sound_page Sample.png_a; Sample.sound_page Sample.png_b]
           [Sample.sound_page Sample.png_a] Cases.blurred_page _ _
           Sample.start eq_refl H Hbad).
Defined.

(** ** The compliance check, further *)

(** The rows a plain query selects start with the first hit. *)
Lemma select_first_hit df column query names :
  plain query = true ->
  Pandas.getattr df column = Ok names ->
  Pandas.has_str_accessor names = true ->
  exists mask,
    Pandas.str_contains names query = Ok mask
    /\ head (rows (Pandas.select df mask)) = first_hit df column query
    /\ columns (Pandas.select df mask) = columns df
    /\ columns df <> [].
Proof.
  intros Hplain Hnames Hstr. unfold Pandas.getattr in Hnames.
  unfold first_hit.
  destruct (Pandas.index_of column (columns df)) as [i|] eqn:Hi;
    [|discriminate].
  inversion Hnames; subst names. clear Hnames.
  exists (map (cell_icontains query) (Pandas.column_at i df)).
  split; [now apply str_contains_plain|]. split; [|split].
  - unfold Pandas.select, Pandas.column_at. cbn [rows].
    apply plain_first_match.
  - reflexivity.
  - intros Hnil. rewrite Hnil in Hi. discriminate.
Qed.

Lemma empty_rows df :
  columns df <> [] -> Pandas.empty df = Nat.eqb (length (rows df)) 0.
Proof.
  intros H. unfold Pandas.empty. destruct (columns df); [contradiction|].
  apply orb_false_r.
Qed.

Section Resolution.

Variable srv : server.
Variable py_str : cell -> string.

(** The lookup for plain names that the caches resolve: one call of
    [get_substance_mrl_EU] with the ids of the first hits. *)
Lemma lookup_plain_run product_name sub_name df_prod df_pest prow srow
  product_id substance_id st :
  files st !! "eu_products.csv" = Some (pipe_file df_prod) ->
  files st !! "eu_pesticides.csv" = Some (pipe_file df_pest) ->
  plain product_name = true ->
  plain sub_name = true ->
  named df_prod "product_name" ->
  named df_pest "substance_name" ->
  first_hit df_prod "product_name" product_name = Some prow ->
  id_text py_str df_prod "product_id" prow = Some product_id ->
  first_hit df_pest "substance_name" sub_name = Some srow ->
  id_text py_str df_pest "substance_id" srow = Some substance_id ->
  lookup srv py_str product_name sub_name st
  = bind (get_substance_mrl_EU srv product_id substance_id)
      (fun mrl_data => ret (inr mrl_data)) st.
Proof.
  intros Hprod Hpest Hplain Hplain' (names & Hnames & Hstr)
    (names' & Hnames' & Hstr') Hrow Hid Hrow' Hid'.
  destruct (select_first_hit _ _ _ _ Hplain Hnames Hstr)
    as (mask & Hmask & Hhead & Hcols & Hsome).
  destruct (select_first_hit _ _ _ _ Hplain' Hnames' Hstr')
    as (mask' & Hmask' & Hhead' & Hcols' & Hsome').
  rewrite Hrow in Hhead. rewrite Hrow' in Hhead'.
  unfold lookup.
  rewrite (read_csv_run _ _ _ _ Hprod), (read_csv_run _ _ _ _ Hpest).
  rewrite Hnames, bind_lift_ok, Hmask, bind_lift_ok.
  rewrite empty_rows by (now rewrite Hcols).
  unfold Pandas.iloc0. rewrite Hcols.
  destruct (rows (Pandas.select df_prod mask)) as [|r rest]; [discriminate|].
  inversion Hhead; subst r. cbn [length Nat.eqb].
  unfold id_text in Hid.
  destruct (Pandas.index_of "product_id" (columns df_prod)) as [j|];
    [|discriminate].
  inversion Hid; subst product_id. rewrite bind_lift_ok.
  rewrite Hnames', bind_lift_ok, Hmask', bind_lift_ok.
  rewrite empty_rows by (now rewrite Hcols').
  rewrite Hcols'.
  destruct (rows (Pandas.select df_pest mask')) as [|r' rest']; [discriminate|].
  inversion Hhead'; subst r'. cbn [length Nat.eqb].
  unfold id_text in Hid'.
  destruct (Pandas.index_of "substance_id" (columns df_pest)) as [j'|];
    [|discriminate].
  inversion Hid'; subst substance_id. rewrite bind_lift_ok. reflexivity.
Qed.

Lemma snd_get_substance_mrl_EU product_id substance_id st :
  snd (get_substance_mrl_EU srv product_id substance_id st)
  = sent st [mrl_request product_id substance_id].
Proof.
  unfold get_substance_mrl_EU.
  change (dict_or PARAMS_PEST _)
    with (req_params (mrl_request product_id substance_id)).
  change {| req_url := BASE_URL_MRL; req_headers := HEADERS;
            req_params := req_params (mrl_request product_id substance_id) |}
    with (mrl_request product_id substance_id).
  rewrite snd_bind_quiet; [apply snd_client_get|].
  intros resp. apply quiet_bind; [apply quiet_raise_for_status|]. intros _.
  apply quiet_bind; [apply quiet_resp_json|]. intros payload.
  apply quiet_bind; [apply quiet_lift|]. intros data.
  apply quiet_bind; [apply quiet_lift|]. intros items.
  apply quiet_lift.
Qed.

Lemma quiet_read_csv path sep : quiet (Pandas.read_csv path sep).
Proof.
  intros st. unfold Pandas.read_csv. destruct (files st !! path) as [f|];
    [|reflexivity].
  now destruct (String.eqb (csv_sep f) sep && csv_header f && negb (csv_index f)).
Qed.

(** A quiet first step leaves the state alone or hands it on. *)
Lemma bind_quiet_cases {A B} (m : M A) (k : A -> M B) st :
  quiet m ->
  snd (bind m k st) = st \/ exists a, bind m k st = k a st.
Proof.
  intros Hm. unfold bind. specialize (Hm st).
  destruct (m st) as [[a| | |] st']; simpl in *; subst; auto.
  right. now exists a.
Qed.

(** The lookup sends the MRL request or nothing. *)
Lemma snd_lookup product_name sub_name st :
  snd (lookup srv py_str product_name sub_name st) = st
  \/ exists product_id substance_id,
       snd (lookup srv py_str product_name sub_name st)
       = sent st [mrl_request product_id substance_id].
Proof.
  unfold lookup.
  repeat match goal with
         | |- snd (bind ?m ?k ?s) = _ \/ _ =>
             let H := fresh in
             let a := fresh "a" in
             assert (H : quiet m)
               by first [apply quiet_read_csv | apply quiet_lift];
             destruct (bind_quiet_cases m k s H) as [? | [a ->]];
             [now left|]; clear H; cbv zeta
         | |- snd ((if ?b then _ else _) _) = _ \/ _ =>
             destruct b; [now left|]
         end.
  right. eexists. eexists. rewrite snd_bind_quiet by (intros; apply quiet_ret).
  apply snd_get_substance_mrl_EU.
Qed.

End Resolution.

Section Checks.

Variable srv : server.
Variable py_float : string -> option float.
Variable py_str : cell -> string.

Lemma only_prints_threshold mrl_options :
  only_prints (threshold py_float mrl_options).
Proof.
  unfold threshold. destruct mrl_options;
    try (apply only_prints_quiet; intros st; reflexivity).
  destruct (String.eqb s NO_MRL); [apply only_prints_quiet, quiet_ret|].
  destruct (py_float _); [apply only_prints_quiet, quiet_ret|].
  apply only_prints_bind; [apply only_prints_print|]. intros _.
  apply only_prints_quiet, quiet_ret.
Qed.

Lemma only_prints_report product_name sub_name mrl mrl_data :
  only_prints (report py_float py_str product_name sub_name mrl mrl_data).
Proof.
  unfold report. destruct mrl_data as [|first rest];
    [apply only_prints_print|].
  apply only_prints_bind; [apply only_prints_print|]. intros _.
  apply only_prints_bind; [apply only_prints_threshold|]. intros value.
  apply only_prints_bind; [apply only_prints_print|]. intros _.
  apply only_prints_bind; [apply only_prints_print|]. intros _.
  apply only_prints_bind; [apply only_prints_quiet, quiet_lift|]. intros m.
  apply only_prints_bind; [apply only_prints_print|]. intros _.
  apply only_prints_bind; [apply only_prints_print|]. intros _.
  apply only_prints_bind; [apply only_prints_print|]. intros _.
  apply only_prints_print.
Qed.

(** What the check leaves behind a lookup. *)
Lemma after_lookup product_name sub_name mrl st :
  exists lines,
    snd (fetch_mrl_data srv py_float py_str product_name sub_name mrl st)
    = printed (snd (lookup srv py_str product_name sub_name st)) lines.
Proof.
  unfold fetch_mrl_data, bind at 1.
  destruct (lookup srv py_str product_name sub_name st)
    as [[[error | mrl_data]| | |] st1]; cbn [snd];
    try (exists []; now rewrite printed_nil).
  destruct (only_prints_report product_name sub_name mrl mrl_data st1)
    as [lines Hlines].
  exists lines. rewrite snd_bind_quiet by (intros; apply quiet_ret).
  exact Hlines.
Qed.

(** X14: names without pattern characters that the caches hold are
    resolved to the first row that contains them, letter case aside, and
    cost one request.  The check reads the id columns of the first
    product row and of the first substance row whose names contain the
    queries, and sends their texts in the one MRL request it makes,
    whatever the service answers and whatever the measured value is. *)
Theorem fetch_mrl_data_asks_first_match
  (product_name sub_name : string) (mrl : json) (df_prod df_pest : frame)
  (prow srow : list cell) (product_id substance_id : string) (st : state) :
  files st !! "eu_products.csv" = Some (pipe_file df_prod) ->
  files st !! "eu_pesticides.csv" = Some (pipe_file df_pest) ->
  plain product_name = true ->
  plain sub_name = true ->
  named df_prod "product_name" ->
  named df_pest "substance_name" ->
  first_hit df_prod "product_name" product_name = Some prow ->
  id_text py_str df_prod "product_id" prow = Some product_id ->
  first_hit df_pest "substance_name" sub_name = Some srow ->
  id_text py_str df_pest "substance_id" srow = Some substance_id ->
  requests (snd (fetch_mrl_data srv py_float py_str product_name sub_name
                   mrl st))
  = requests st ++ [mrl_request product_id substance_id]
  /\ forall mrl_data st1,
       get_substance_mrl_EU srv product_id substance_id st = (Ok mrl_data, st1) ->
       fetch_mrl_data srv py_float py_str product_name sub_name mrl st
       = bind (report py_float py_str product_name sub_name mrl mrl_data)
           (fun _ => ret None) st1.
Proof.
  intros Hprod Hpest Hplain Hplain' Hnamed Hnamed' Hrow Hid Hrow' Hid'.
  pose proof (lookup_plain_run srv py_str _ _ _ _ _ _ _ _ st Hprod Hpest Hplain
                Hplain' Hnamed Hnamed' Hrow Hid Hrow' Hid') as Hrun.
  split.
  - destruct (after_lookup product_name sub_name mrl st) as [lines ->].
    rewrite Hrun. rewrite snd_bind_quiet by (intros; apply quiet_ret).
    now rewrite snd_get_substance_mrl_EU.
  - intros mrl_data st1 Hget. unfold fetch_mrl_data.
    unfold bind at 1. rewrite Hrun. now rewrite (bind_ok _ _ _ _ _ Hget).
Qed.

(** X15: a substance that no row of the cache names, asked for by a plain
    name, while the product is found: the check returns the error value
    that quotes the substance name, and neither prints nor sends
    anything. *)
Theorem fetch_mrl_data_unknown_substance
  (product_name sub_name : string) (mrl : json) (df_prod df_pest : frame)
  (prow : list cell) (product_id : string) (st : state) :
  files st !! "eu_products.csv" = Some (pipe_file df_prod) ->
  files st !! "eu_pesticides.csv" = Some (pipe_file df_pest) ->
  plain product_name = true ->
  plain sub_name = true ->
  named df_prod "product_name" ->
  named df_pest "substance_name" ->
  first_hit df_prod "product_name" product_name = Some prow ->
  id_text py_str df_prod "product_id" prow = Some product_id ->
  first_hit df_pest "substance_name" sub_name = None ->
  fetch_mrl_data srv py_float py_str product_name sub_name mrl st
  = (Ok (Some [("error",
                "Substance '" +:+ sub_name +:+ "' not found in EU database.")]),
     st).
Proof.
  intros Hprod Hpest Hplain Hplain' (names & Hnames & Hstr)
    (names' & Hnames' & Hstr') Hrow Hid Hrow'.
  destruct (select_first_hit _ _ _ _ Hplain Hnames Hstr)
    as (mask & Hmask & Hhead & Hcols & Hsome).
  destruct (select_first_hit _ _ _ _ Hplain' Hnames' Hstr')
    as (mask' & Hmask' & Hhead' & Hcols' & Hsome').
  rewrite Hrow in Hhead. rewrite Hrow' in Hhead'.
  unfold fetch_mrl_data, lookup, bind at 1.
  rewrite (read_csv_run _ _ _ _ Hprod), (read_csv_run _ _ _ _ Hpest).
  rewrite Hnames, bind_lift_ok, Hmask, bind_lift_ok.
  rewrite empty_rows by (now rewrite Hcols).
  unfold Pandas.iloc0. rewrite Hcols.
  destruct (rows (Pandas.select df_prod mask)) as [|r rest]; [discriminate|].
  cbn [length Nat.eqb].
  unfold id_text in Hid.
  destruct (Pandas.index_of "product_id" (columns df_prod)) as [j|];
    [|discriminate].
  rewrite bind_lift_ok.
  rewrite Hnames', bind_lift_ok, Hmask', bind_lift_ok.
  rewrite empty_rows by (now rewrite Hcols').
  destruct (rows (Pandas.select df_pest mask')) as [|r' rest']; [|discriminate].
  reflexivity.
Qed.

(** X16: both cache files are read before either name is looked at.  If
    the product file is missing, or is there while the substance file is
    missing, the check raises [FileNotFoundError] for the first file that
    is missing, whatever the names are, and leaves the world as it
    was. *)
Theorem fetch_mrl_data_missing_cache
  (product_name sub_name : string) (mrl : json) (st : state) :
  files st !! "eu_products.csv" = None
  \/ ((exists df_prod,
         files st !! "eu_products.csv" = Some (pipe_file df_prod))
      /\ files st !! "eu_pesticides.csv" = None) ->
  fetch_mrl_data srv py_float py_str product_name sub_name mrl st
  = (Raise (FileNotFoundError
              (match files st !! "eu_products.csv" with
               | None => "eu_products.csv"
               | Some _ => "eu_pesticides.csv"
               end)),
     st).
Proof.
  intros [Hnone | ([df_prod Hprod] & Hnone)].
  - unfold fetch_mrl_data, lookup, bind, Pandas.read_csv. now rewrite Hnone.
  - unfold fetch_mrl_data, lookup, bind at 1.
    rewrite (read_csv_run _ _ _ _ Hprod), Hprod.
    unfold bind, Pandas.read_csv. now rewrite Hnone.
Qed.

(** X17: when the lookup comes back without an applicable rule, the
    check prints one line, the error line that quotes the two names, and
    returns nothing: no error value, no verdict. *)
Theorem fetch_mrl_data_no_rules
  (product_name sub_name : string) (mrl : json) (st st1 : state) :
  lookup srv py_str product_name sub_name st = (Ok (inr []), st1) ->
  fetch_mrl_data srv py_float py_str product_name sub_name mrl st
  = (Ok None, printed st1 [no_rules product_name sub_name])
  /\ verdict (printed st1 [no_rules product_name sub_name]) <> Some "CONFORME"
  /\ verdict (printed st1 [no_rules product_name sub_name])
     <> Some "NON CONFORME".
Proof.
  intros Hlookup. split; [|split].
  - unfold fetch_mrl_data. rewrite (bind_ok _ _ _ _ _ Hlookup). reflexivity.
  - unfold verdict, printed. cbn [stdout]. rewrite last_snoc. discriminate.
  - unfold verdict, printed. cbn [stdout]. rewrite last_snoc. discriminate.
Qed.

(** X18: a measured value that [float] refuses is only found out after
    the two values have been printed, and also when the reference is the
    exemption No MRL required, which needs no comparison: the check
    raises the error of the conversion and prints no verdict. *)
Theorem measured_value_refused
  (product_name sub_name : string) (mrl : json) (e : exn) (first : dict)
  (rest : list dict) (ref : string) (st st1 : state) :
  lookup srv py_str product_name sub_name st = (Ok (inr (first :: rest)), st1) ->
  dict_get "mrl_value" first = Some (JStr ref) ->
  to_float py_float mrl = Raise e ->
  exists warned,
    fetch_mrl_data srv py_float py_str product_name sub_name mrl st
    = (Raise e,
       printed st1
         (found product_name sub_name :: warned
          ++ ["MRL options from EU database: " +:+ ref;
              "MRL value from report: " +:+ py_str (Val mrl)]))
    /\ (warned = [] \/ warned = [warning ref])
    /\ (ref = NO_MRL -> warned = []).
Proof.
  intros Hlookup Hfirst Hm.
  assert (Hthr : exists warned value,
             threshold py_float (JStr ref)
               (printed st1 [found product_name sub_name])
             = (Ok value, printed st1 (found product_name sub_name :: warned))
             /\ (warned = [] \/ warned = [warning ref])
             /\ (ref = NO_MRL -> warned = [])).
  { destruct (String.eqb_spec ref NO_MRL) as [->|Hne].
    - exists [], float_zero. split; [reflexivity|]. split; auto.
    - destruct (py_float (remove_char "*" ref)) as [value|] eqn:Hval.
      + exists [], value. split; [|split]; auto.
        now apply threshold_read.
      + exists [warning ref], float_zero. split; [|split]; auto.
        * rewrite threshold_unreadable by assumption.
          now rewrite printed_printed.
        * intros; contradiction. }
  destruct Hthr as (warned & value & Hthr & Hwarned & Hexempt).
  exists warned. split; [|split]; [|exact Hwarned|exact Hexempt].
  unfold fetch_mrl_data. rewrite (bind_ok _ _ _ _ _ Hlookup).
  apply bind_raise.
  unfold report. rewrite print_run, Hfirst. cbn [from_option id].
  rewrite (bind_ok _ _ _ _ _ Hthr).
  rewrite !print_run, !printed_printed. unfold bind, lift. rewrite Hm.
  cbn [text_of]. unfold printed. cbn [stdout app]. reflexivity.
Qed.

(** X19: a first rule without a reference value, or with one that is no
    text (a number, a null), stops the check right after the line that
    announces the rules: the removal of the markers is asked of a value
    that has none, and the [AttributeError] is not the error the check
    catches. *)
Theorem reference_not_text
  (product_name sub_name : string) (mrl : json) (first : dict)
  (rest : list dict) (st st1 : state) :
  lookup srv py_str product_name sub_name st = (Ok (inr (first :: rest)), st1) ->
  (forall ref, dict_get "mrl_value" first <> Some (JStr ref)) ->
  fetch_mrl_data srv py_float py_str product_name sub_name mrl st
  = (Raise AttributeError, printed st1 [found product_name sub_name]).
Proof.
  intros Hlookup Hfirst.
  unfold fetch_mrl_data. rewrite (bind_ok _ _ _ _ _ Hlookup).
  apply bind_raise.
  unfold report. rewrite print_run.
  destruct (dict_get "mrl_value" first) as [[| | | |ref| |]|];
    try reflexivity.
  now contradiction (Hfirst ref).
Qed.

(** X20: whatever the names, the measured value, the caches and the
    service, the check writes no file and opens no document; it sends the
    one MRL request or none at all, and otherwise only prints. *)
Theorem fetch_mrl_data_footprint
  (product_name sub_name : string) (mrl : json) (st : state) :
  exists reqs lines,
    snd (fetch_mrl_data srv py_float py_str product_name sub_name mrl st)
    = printed (sent st reqs) lines
    /\ (reqs = []
        \/ exists product_id substance_id,
             reqs = [mrl_request product_id substance_id]).
Proof.
  destruct (after_lookup product_name sub_name mrl st) as [lines ->].
  destruct (snd_lookup srv py_str product_name sub_name st)
    as [-> | (product_id & substance_id & ->)].
  - exists [], lines. rewrite sent_nil. auto.
  - exists [mrl_request product_id substance_id], lines. split; [reflexivity|].
    right. eauto.
Qed.

End Checks.

Lemma fetch_mrl_data_asks_first_match_witness :
  first_hit Sample.products "product_name" "apple"
  = Some [Val (JInt 11); Val (JInt 0); Val (JStr "Apple, dessert")]
  /\ first_hit Sample.pesticides "substance_name" "captan"
     = Some [Val (JInt 7); Val (JStr "Captan")]
  /\ requests (snd (fetch_mrl_data Sample.lake PyNum.float_of_string PyStr.str
                      "apple" "captan" (Sample.measured "0.005")
                      Sample.cached))
     = [mrl_request "11" "7"].
Proof.
  assert (Hprod : files Sample.cached !! "eu_products.csv"
                  = Some (pipe_file Sample.products)) by reflexivity.
  assert (Hpest : files Sample.cached !! "eu_pesticides.csv"
                  = Some (pipe_file Sample.pesticides)) by reflexivity.
  assert (Hnamed : named Sample.products "product_name").
  { eexists. split; reflexivity. }
  assert (Hnamed' : named Sample.pesticides "substance_name").
  { eexists. split; reflexivity. }
  split; [reflexivity|]. split; [reflexivity|].
  exact (proj1 (fetch_mrl_data_asks_first_match Sample.lake
                  PyNum.float_of_string PyStr.str "apple" "captan"
                  (Sample.measured "0.005") Sample.products Sample.pesticides
                  [Val (JInt 11); Val (JInt 0); Val (JStr "Apple, dessert")]
                  [Val (JInt 7); Val (JStr "Captan")] "11" "7" Sample.cached
                  Hprod Hpest eq_refl eq_refl Hnamed Hnamed'
                  eq_refl eq_refl eq_refl eq_refl)).
Defined.

Lemma fetch_mrl_data_unknown_substance_witness :
  first_hit Sample.products "product_name" "apple"
  = Some [Val (JInt 11); Val (JInt 0); Val (JStr "Apple, dessert")]
  /\ first_hit Sample.pesticides "substance_name" "glyphosate" = None
  /\ fetch_mrl_data Sample.lake PyNum.float_of_string PyStr.str
       "apple" "glyphosate" (Sample.measured "0.005") Sample.cached
     = (Ok (Some [("error", "Substance 'glyphosate' not found in EU database.")]),
        Sample.cached).
Proof.
  assert (Hprod : files Sample.cached !! "eu_products.csv"
                  = Some (pipe_file Sample.products)) by reflexivity.
  assert (Hpest : files Sample.cached !! "eu_pesticides.csv"
                  = Some (pipe_file Sample.pesticides)) by reflexivity.
  assert (Hnamed : named Sample.products "product_name").
  { eexists. split; reflexivity. }
  assert (Hnamed' : named Sample.pesticides "substance_name").
  { eexists. split; reflexivity. }
  split; [reflexivity|]. split; [reflexivity|].
  exact (fetch_mrl_data_unknown_substance Sample.lake
           PyNum.float_of_string PyStr.str "apple" "glyphosate"
           (Sample.measured "0.005") Sample.products Sample.pesticides
           [Val (JInt 11); Val (JInt 0); Val (JStr "Apple, dessert")]
           "11" Sample.cached
           Hprod Hpest eq_refl eq_refl Hnamed Hnamed'
           eq_refl eq_refl eq_refl).
Defined.

Lemma fetch_mrl_data_missing_cache_witness :
  files Cases.half_cached !! "eu_products.csv"
  = Some (pipe_file Sample.products)
  /\ files Cases.half_cached !! "eu_pesticides.csv" = None
  /\ fetch_mrl_data Sample.lake PyNum.float_of_string PyStr.str
       "apple" "captan" (Sample.measured "0.005") Cases.half_cached
     = (Raise (FileNotFoundError "eu_pesticides.csv"), Cases.half_cached).
Proof.
  assert (Hprod : files Cases.half_cached !! "eu_products.csv"
                  = Some (pipe_file Sample.products)) by reflexivity.
  assert (Hpest : files Cases.half_cached !! "eu_pesticides.csv" = None)
    by reflexivity.
  split; [exact Hprod|]. split; [exact Hpest|].
  exact (fetch_mrl_data_missing_cache Sample.lake PyNum.float_of_string
           PyStr.str "apple" "captan" (Sample.measured "0.005")
           Cases.half_cached
           (or_intror (conj (ex_intro _ Sample.products Hprod) Hpest))).
Defined.

Lemma fetch_mrl_data_no_rules_witness :
  lookup Cases.strict_lake PyStr.str "apple" "captan" Sample.cached
  = (Ok (inr []), sent Sample.cached [mrl_request "11" "7"])
  /\ fetch_mrl_data Cases.strict_lake PyNum.float_of_string PyStr.str
       "apple" "captan" (Sample.measured "0.005") Sample.cached
     = (Ok None,
        printed (sent Sample.cached [mrl_request "11" "7"])
          ["Error : No MRL data found for product 'apple' and substance 'captan'."]).
Proof.
  assert (H : lookup Cases.strict_lake PyStr.str "apple" "captan" Sample.cached
              = (Ok (inr []), sent Sample.cached [mrl_request "11" "7"])).
  { vm_compute. reflexivity. }
  split; [exact H|].
  exact (proj1 (fetch_mrl_data_no_rules Cases.strict_lake
                  PyNum.float_of_string PyStr.str "apple" "captan"
                  (Sample.measured "0.005") Sample.cached _ H)).
Defined.

Lemma measured_value_refused_witness :
  lookup Sample.lake PyStr.str "honey" "captan" Sample.cached
  = (Ok (inr [[("mrl_value", JStr "No MRL required");
               ("applicability_text", JStr "Applicable")]]),
     sent Sample.cached [mrl_request "15" "7"])
  /\ to_float PyNum.float_of_string (JStr "n/a") = Raise ValueError
  /\ exists warned,
       fetch_mrl_data Sample.lake PyNum.float_of_string PyStr.str
         "honey" "captan" (JStr "n/a") Sample.cached
       = (Raise ValueError,
          printed (sent Sample.cached [mrl_request "15" "7"])
            (found "honey" "captan" :: warned
             ++ ["MRL options from EU database: No MRL required";
                 "MRL value from report: " +:+ PyStr.str (Val (JStr "n/a"))]))
       /\ (warned = [] \/ warned = [warning "No MRL required"])
       /\ ("No MRL required" = NO_MRL -> warned = []).
Proof.
  assert (H : lookup Sample.lake PyStr.str "honey" "captan" Sample.cached
              = (Ok (inr [[("mrl_value", JStr "No MRL required");
                           ("applicability_text", JStr "Applicable")]]),
                 sent Sample.cached [mrl_request "15" "7"])).
  { vm_compute. reflexivity. }
  assert (Hm : to_float PyNum.float_of_string (JStr "n/a") = Raise ValueError)
    by reflexivity.
  split; [exact H|]. split; [exact Hm|].
  exact (measured_value_refused Sample.lake PyNum.float_of_string PyStr.str
           "honey" "captan" (JStr "n/a") ValueError _ _ "No MRL required"
           Sample.cached _ H eq_refl Hm).
Defined.

Lemma reference_not_text_witness :
  lookup Cases.blank_lake PyStr.str "apple" "captan" Sample.cached
  = (Ok (inr [[("applicability_text", JStr "Applicable")]]),
     sent Sample.cached [mrl_request "11" "7"])
  /\ fetch_mrl_data Cases.blank_lake PyNum.float_of_string PyStr.str
       "apple" "captan" (Sample.measured "0.005") Sample.cached
     = (Raise AttributeError,
        printed (sent Sample.cached [mrl_request "11" "7"])
          [found "apple" "captan"]).
Proof.
  assert (H : lookup Cases.blank_lake PyStr.str "apple" "captan" Sample.cached
              = (Ok (inr [[("applicability_text", JStr "Applicable")]]),
                 sent Sample.cached [mrl_request "11" "7"])).
  { vm_compute. reflexivity. }
  split; [exact H|].
  apply (reference_not_text Cases.blank_lake PyNum.float_of_string PyStr.str
           "apple" "captan" (Sample.measured "0.005") _ _ Sample.cached _ H).
  intros ref. discriminate.
Defined.
